(** * log_analyzer.py: keyword counting with an optional time window

    A shallow embedding of [src/log_analyzer.py] ([parse_timestamp],
    [count_matches], [main]) together with the parts of the Python
    standard library the script calls: [str.__contains__], [re.search] on
    the script's fixed pattern, [datetime.strptime] on the script's fixed
    format, [datetime] comparison, [timedelta] and [datetime - timedelta].

    Python values are modelled as follows.
    - [str] is a list of Unicode code points ([N]).
    - [int] is [Z].
    - an exception is a value of [exn]; a computation that may raise
      returns a [result].
    - the outside world (wall clock, file system, standard output) is a
      record [world] threaded through the monad [M]. *)

From Stdlib Require Import ZArith NArith List Bool Lia String Ascii.
From Stdlib Require Import DecimalString SpecFloat.
Import ListNotations.
Local Open Scope Z_scope.

(** ** Python strings *)

Definition char := N.
Definition str := list char.

(** A Rocq string literal read as a Python [str] (all literals below are
    ASCII, so bytes and code points agree). *)
Definition py (s : string) : str := map N_of_ascii (list_ascii_of_string s).

Definition chr (a : ascii) : char := N_of_ascii a.

(** [s.startswith(p)] *)
Fixpoint startswith (p s : str) : bool :=
  match p, s with
  | [], _ => true
  | x :: p', y :: s' => N.eqb x y && startswith p' s'
  | _ :: _, [] => false
  end.

(** [keyword in line] for two [str]: some position of [line] starts with
    [keyword].  The comparison is by code point, hence case-sensitive. *)
Fixpoint str_contains (line keyword : str) : bool :=
  startswith keyword line ||
  match line with
  | [] => false
  | _ :: rest => str_contains rest keyword
  end.

(** ** Exceptions and results *)

Inductive exn : Type :=
| ValueError (msg : str)
| OverflowError (msg : str)
| OSError (msg : str)             (* FileNotFoundError, PermissionError, ... *)
| UnicodeDecodeError (msg : str)
| UnicodeEncodeError (msg : str)
| SystemExit (code : Z).

(** [except Exception] catches every exception of the model except
    [SystemExit], which derives from [BaseException] only. *)
Definition is_Exception (e : exn) : bool :=
  match e with
  | SystemExit _ => false
  | _ => true
  end.

Definition is_ValueError (e : exn) : bool :=
  match e with
  | ValueError _ => true
  | UnicodeDecodeError _ => true   (* a subclass of ValueError *)
  | UnicodeEncodeError _ => true   (* a subclass of ValueError *)
  | _ => false
  end.

(** [str(n)] for an [int] *)
Definition str_of_int (n : Z) : str := py (NilZero.string_of_int (Z.to_int n)).

(** [str(e)] *)
Definition exn_str (e : exn) : str :=
  match e with
  | ValueError m | OverflowError m | OSError m | UnicodeDecodeError m
  | UnicodeEncodeError m => m
  | SystemExit code => str_of_int code
  end.

Inductive result (A : Type) : Type :=
| Ok (a : A)
| Raise (e : exn).
Arguments Ok {A} a.
Arguments Raise {A} e.

Definition rbind {A B} (r : result A) (k : A -> result B) : result B :=
  match r with
  | Ok a => k a
  | Raise e => Raise e
  end.

Declare Scope result_scope.
Delimit Scope result_scope with result.
Notation "x <- r ;; k" := (rbind r (fun x => k))
  (at level 61, r at next level, right associativity) : result_scope.

(** ** The calendar of [datetime]: proleptic Gregorian ordinals

    [datetime], [timedelta] and [strptime] below follow the library's
    Python sources ([Lib/datetime.py], [Lib/_strptime.py]), restricted to
    what the script calls with the types of arguments it passes. *)

Module Calendar.

Definition MINYEAR : Z := 1.
Definition MAXYEAR : Z := 9999.
Definition _MAXORDINAL : Z := 3652059.

Definition _DAYS_IN_MONTH : list Z :=
  [-1; 31; 28; 31; 30; 31; 30; 31; 31; 30; 31; 30; 31].

Definition _DAYS_BEFORE_MONTH : list Z :=
  [-1; 0; 31; 59; 90; 120; 151; 181; 212; 243; 273; 304; 334].

(** list indexing by a month number in 1..12 *)
Definition index (l : list Z) (i : Z) : Z := nth (Z.to_nat i) l 0.

Definition _is_leap (year : Z) : bool :=
  (year mod 4 =? 0) && (negb (year mod 100 =? 0) || (year mod 400 =? 0)).

Definition _days_before_year (year : Z) : Z :=
  let y := year - 1 in
  y * 365 + y / 4 - y / 100 + y / 400.

Definition _days_in_month (year month : Z) : Z :=
  if (month =? 2) && _is_leap year then 29
  else index _DAYS_IN_MONTH month.

Definition _days_before_month (year month : Z) : Z :=
  index _DAYS_BEFORE_MONTH month
  + (if (2 <? month) && _is_leap year then 1 else 0).

Definition _ymd2ord (year month day : Z) : Z :=
  _days_before_year year + _days_before_month year month + day.

Definition _DI400Y : Z := 146097.
Definition _DI100Y : Z := 36524.
Definition _DI4Y : Z := 1461.

Definition _ord2ymd (n : Z) : Z * Z * Z :=
  let n := n - 1 in
  let n400 := n / _DI400Y in
  let n := n mod _DI400Y in
  let year := n400 * 400 + 1 in
  let n100 := n / _DI100Y in
  let n := n mod _DI100Y in
  let n4 := n / _DI4Y in
  let n := n mod _DI4Y in
  let n1 := n / 365 in
  let n := n mod 365 in
  let year := year + (n100 * 100 + n4 * 4 + n1) in
  if (n1 =? 4) || (n100 =? 4) then (year - 1, 12, 31)
  else
    let leapyear := (n1 =? 3) && (negb (n4 =? 24) || (n100 =? 3)) in
    let month := Z.shiftr (n + 50) 5 in
    let preceding :=
      index _DAYS_BEFORE_MONTH month
      + (if (2 <? month) && leapyear then 1 else 0) in
    if n <? preceding then
      let month := month - 1 in
      let preceding :=
        preceding
        - (index _DAYS_IN_MONTH month
           + (if (month =? 2) && leapyear then 1 else 0)) in
      (year, month, n - preceding + 1)
    else (year, month, n - preceding + 1).

End Calendar.

(** ** [datetime] and [timedelta] (naive, as the script uses them) *)

Record datetime : Type := mk_datetime {
  year : Z; month : Z; day : Z;
  hour : Z; minute : Z; second : Z; microsecond : Z
}.

Record timedelta : Type := mk_timedelta {
  days : Z; seconds : Z; microseconds : Z
}.

Definition between (lo x hi : Z) : bool := (lo <=? x) && (x <=? hi).

(** The field checks of the [datetime] constructor.  The texts of the
    messages here and below are the fixed parts of those of
    [Lib/datetime.py] and [Lib/_strptime.py]; the C accelerator of
    [datetime] words some differently.  The classes of the exceptions are
    the same, and no property below depends on the text of a message of
    the library. *)
Definition _check_date_fields (y m d : Z) : result unit :=
  if negb (between Calendar.MINYEAR y Calendar.MAXYEAR)
  then Raise (ValueError (py "year must be in 1..9999"))
  else if negb (between 1 m 12)
  then Raise (ValueError (py "month must be in 1..12"))
  else if negb (between 1 d (Calendar._days_in_month y m))
  then Raise (ValueError (py "day is out of range for month"))
  else Ok tt.

Definition _check_time_fields (H M S us : Z) : result unit :=
  if negb (between 0 H 23)
  then Raise (ValueError (py "hour must be in 0..23"))
  else if negb (between 0 M 59)
  then Raise (ValueError (py "minute must be in 0..59"))
  else if negb (between 0 S 59)
  then Raise (ValueError (py "second must be in 0..59"))
  else if negb (between 0 us 999999)
  then Raise (ValueError (py "microsecond must be in 0..999999"))
  else Ok tt.

(** [datetime(y, m, d, H, M, S, us)] *)
Definition datetime_new (y m d H M S us : Z) : result datetime :=
  (_ <- _check_date_fields y m d ;;
   _ <- _check_time_fields H M S us ;;
   Ok (mk_datetime y m d H M S us))%result.

Definition datetime_fields (t : datetime) : list Z :=
  [year t; month t; day t; hour t; minute t; second t; microsecond t].

(** Comparison of two tuples of [int], as Python orders tuples. *)
Fixpoint tuple_cmp (x y : list Z) : comparison :=
  match x, y with
  | [], [] => Eq
  | [], _ :: _ => Lt
  | _ :: _, [] => Gt
  | a :: x', b :: y' =>
      match a ?= b with
      | Eq => tuple_cmp x' y'
      | c => c
      end
  end.

(** [datetime._cmp] for two naive values *)
Definition datetime_cmp (a b : datetime) : comparison :=
  tuple_cmp (datetime_fields a) (datetime_fields b).

(** [a >= b] *)
Definition datetime_ge (a b : datetime) : bool :=
  match datetime_cmp a b with
  | Lt => false
  | _ => true
  end.

(** [a < b] *)
Definition datetime_lt (a b : datetime) : bool :=
  match datetime_cmp a b with
  | Lt => true
  | _ => false
  end.

(** [timedelta(days, seconds, microseconds, minutes=.., hours=..)] for
    [int] arguments: the normalisation steps of [timedelta.__new__]. *)
Definition timedelta_new (days0 seconds0 microseconds0 minutes0 hours0 : Z)
  : result timedelta :=
  let seconds1 := seconds0 + (minutes0 * 60 + hours0 * 3600) in
  let d := days0 in
  let d := d + seconds1 / (24 * 3600) in
  let s := seconds1 mod (24 * 3600) in
  let seconds2 := microseconds0 / 1000000 in
  let microseconds1 := microseconds0 mod 1000000 in
  let d := d + seconds2 / (24 * 3600) in
  let s := s + seconds2 mod (24 * 3600) in
  let s := s + microseconds1 / 1000000 in
  let us := microseconds1 mod 1000000 in
  let d := d + s / (24 * 3600) in
  let s := s mod (24 * 3600) in
  if 999999999 <? Z.abs d
  then Raise (OverflowError
                (py "timedelta # of days is too large: " ++ str_of_int d))
  else Ok (mk_timedelta d s us).

(** [-td] *)
Definition timedelta_neg (td : timedelta) : result timedelta :=
  timedelta_new (- days td) (- seconds td) (- microseconds td) 0 0.

(** [a + b] on two [timedelta] *)
Definition timedelta_add (a b : timedelta) : result timedelta :=
  timedelta_new (days a + days b) (seconds a + seconds b)
                (microseconds a + microseconds b) 0 0.

Definition toordinal (t : datetime) : Z :=
  Calendar._ymd2ord (year t) (month t) (day t).

(** [t + td] *)
Definition datetime_add (t : datetime) (other : timedelta) : result datetime :=
  (delta <- timedelta_new (toordinal t) (second t) (microsecond t)
                          (minute t) (hour t) ;;
   delta <- timedelta_add delta other ;;
   let hour := seconds delta / 3600 in
   let rem := seconds delta mod 3600 in
   let minute := rem / 60 in
   let second := rem mod 60 in
   if (0 <? days delta) && (days delta <=? Calendar._MAXORDINAL)
   then let '(y, m, d) := Calendar._ord2ymd (days delta) in
        datetime_new y m d hour minute second (microseconds delta)
   else Raise (OverflowError (py "result out of range")))%result.

(** [t - td] is [t + -td] *)
Definition datetime_sub (t : datetime) (other : timedelta) : result datetime :=
  (neg <- timedelta_neg other ;; datetime_add t neg)%result.

(** The number of microseconds from 0001-01-01T00:00:00 to [t]; used only
    to state what subtracting a number of hours means. *)
Definition micros_since_epoch (t : datetime) : Z :=
  (((toordinal t - 1) * 24 + hour t) * 60 + minute t) * 60000000
  + second t * 1000000 + microsecond t.

Definition valid_datetime (t : datetime) : bool :=
  between Calendar.MINYEAR (year t) Calendar.MAXYEAR
  && between 1 (month t) 12
  && between 1 (day t) (Calendar._days_in_month (year t) (month t))
  && between 0 (hour t) 23 && between 0 (minute t) 59
  && between 0 (second t) 59 && between 0 (microsecond t) 999999.

(** ** The outside world *)

(** What the script does to the outside world, in order. *)
Inductive event : Type :=
| EvNow (t : datetime)            (* datetime.now() returned t *)
| EvExists (path : str) (b : bool) (* os.path.exists(path) returned b *)
| EvOpen (path : str)             (* open(path, 'r', encoding='utf-8') *)
| EvLine (line : str)             (* the file iterator delivered line *)
| EvPrint (text : str).           (* print(text) *)

(** The ways opening or reading the input can fail. *)
Inductive io_failure : Type :=
| FailOS (msg : str)       (* no such file, permission denied, a directory,
                              the file vanishing while it is read, ... *)
| FailDecode (msg : str).  (* a byte sequence that is not UTF-8 *)

(** The exception Python raises for a failure. *)
Definition io_exn (f : io_failure) : exn :=
  match f with
  | FailOS msg => OSError msg
  | FailDecode msg => UnicodeDecodeError msg
  end.

(** An opened text file: the lines its iterator delivers, in order (each
    with its line terminator, as Python delivers them), and the failure
    that ends the iteration early, if any. *)
Record text_file : Type := mk_text_file {
  delivered : list str;
  read_error : option io_failure
}.

(** The ways a [print] can fail. *)
Inductive write_failure : Type :=
| FailEncode (msg : str)   (* the text has a character the encoding of the
                              stream lacks, a lone surrogate say *)
| FailWrite (msg : str).   (* the write fails: a closed pipe, a full disk,
                              ... *)

Definition write_exn (f : write_failure) : exn :=
  match f with
  | FailEncode msg => UnicodeEncodeError msg
  | FailWrite msg => OSError msg
  end.

(** The wall clock is a function of the number of events so far, so that
    time passes while the script runs.  A run prints each of its lines
    once, so whether a [print] fails is a function of its text;
    [flush_error] tells whether the flush of standard output fails when
    the interpreter exits. *)
Record world : Type := mk_world {
  wall_clock : nat -> datetime;
  path_exists : str -> bool;
  open_file : str -> io_failure + text_file;
  write_error : str -> option write_failure;
  flush_error : bool;
  trace : list event
}.

Definition log (e : event) (w : world) : world :=
  mk_world (wall_clock w) (path_exists w) (open_file w) (write_error w)
           (flush_error w) (trace w ++ [e]).

(** Computations of the script: they read and extend the world and either
    return or raise. *)
Definition M (A : Type) : Type := world -> result A * world.

Definition ret {A} (a : A) : M A := fun w => (Ok a, w).

Definition raise {A} (e : exn) : M A := fun w => (Raise e, w).

Definition bind {A B} (m : M A) (k : A -> M B) : M B :=
  fun w =>
    match m w with
    | (Ok a, w') => k a w'
    | (Raise e, w') => (Raise e, w')
    end.

(** a computation that does not touch the world *)
Definition lift {A} (r : result A) : M A := fun w => (r, w).

(** [try: m  except Exception as e: handler(e)] *)
Definition try_except_Exception {A} (m : M A) (handler : exn -> M A) : M A :=
  fun w =>
    match m w with
    | (Ok a, w') => (Ok a, w')
    | (Raise e, w') => if is_Exception e then handler e w' else (Raise e, w')
    end.

Declare Scope M_scope.
Delimit Scope M_scope with M.
Notation "x <- m ;; k" := (bind m (fun x => k))
  (at level 61, m at next level, right associativity) : M_scope.
Notation "m ;;; k" := (bind m (fun _ => k))
  (at level 61, right associativity) : M_scope.

(** [datetime.now()] *)
Definition datetime_now : M datetime :=
  fun w => let t := wall_clock w (List.length (trace w)) in (Ok t, log (EvNow t) w).

(** [os.path.exists(path)] *)
Definition os_path_exists (path : str) : M bool :=
  fun w => let b := path_exists w path in (Ok b, log (EvExists path b) w).

(** [open(filename, 'r', encoding='utf-8')] *)
Definition open_utf8 (filename : str) : M text_file :=
  fun w =>
    (match open_file w filename with
     | inr f => Ok f
     | inl failure => Raise (io_exn failure)
     end,
     log (EvOpen filename) w).

(** [print(text)]: the text is written, or the failure is raised *)
Definition print (text : str) : M unit :=
  fun w =>
    match write_error w text with
    | None => (Ok tt, log (EvPrint text) w)
    | Some failure => (Raise (write_exn failure), w)
    end.

(** [sys.exit(code)] *)
Definition sys_exit {A} (code : Z) : M A := raise (SystemExit code).

(** [for line in f: acc = body(line, acc)] over the lines [f] delivers;
    the read error, if there is one, is raised when the iterator is asked
    for the line after the last delivered one. *)
Fixpoint for_lines {A} (lines : list str) (err : option io_failure)
         (body : str -> A -> M A) (acc : A) : M A :=
  match lines with
  | [] =>
      match err with
      | Some failure => raise (io_exn failure)
      | None => ret acc
      end
  | line :: rest =>
      (acc' <- (fun w => body line acc (log (EvLine line) w)) ;;
       for_lines rest err body acc')%M
  end.

(** The lines a run printed, in order. *)
Definition stdout (w : world) : list str :=
  flat_map (fun e => match e with EvPrint t => [t] | _ => [] end) (trace w).

(** Of [lines] printed one after the other, those that are written: the
    ones before the first whose write fails; and how the printing ends. *)
Fixpoint printed (oracle : str -> option write_failure) (lines : list str)
  : list str :=
  match lines with
  | [] => []
  | line :: rest =>
      match oracle line with
      | None => line :: printed oracle rest
      | Some _ => []
      end
  end.

Fixpoint print_result (oracle : str -> option write_failure)
         (lines : list str) : result unit :=
  match lines with
  | [] => Ok tt
  | line :: rest =>
      match oracle line with
      | None => print_result oracle rest
      | Some failure => Raise (write_exn failure)
      end
  end.

(** Every line of [lines] can be written. *)
Definition all_written (oracle : str -> option write_failure)
           (lines : list str) : Prop :=
  forall line, In line lines -> oracle line = None.

(** The lines a run was delivered, in order. *)
Definition lines_read (w : world) : list str :=
  flat_map (fun e => match e with EvLine l => [l] | _ => [] end) (trace w).

(** The readings of the clock a run made, in order. *)
Definition clock_readings (w : world) : list datetime :=
  flat_map (fun e => match e with EvNow t => [t] | _ => [] end) (trace w).

(** ** The other tools of the repository: exceptions and computations

    [backup_tool.py], [disk_monitor.py] and [network_checker.py] ask the
    operating system for everything they report.  Each tool gets a world
    of its own whose fields answer its requests; a tool makes each of its
    requests and prints each of its lines once in a run, so an answer is
    a function of the request. *)

(** The exception classes the tools raise, catch or let through. *)
Module Cls.

Inductive t : Type :=
| BaseException | KeyboardInterrupt | SystemExit
| Exception | ZeroDivisionError | OverflowError
| ValueError | UnicodeEncodeError
| OSError | FileNotFoundError | FileExistsError | PermissionError
| gaierror.

(** [issubclass(c, d)] *)
Definition issubclass (c d : t) : bool :=
  match d with
  | BaseException => true
  | KeyboardInterrupt =>
      match c with KeyboardInterrupt => true | _ => false end
  | SystemExit => match c with SystemExit => true | _ => false end
  | Exception =>
      match c with
      | BaseException | KeyboardInterrupt | SystemExit => false
      | _ => true
      end
  | ZeroDivisionError =>
      match c with ZeroDivisionError => true | _ => false end
  | OverflowError => match c with OverflowError => true | _ => false end
  | ValueError =>
      match c with ValueError | UnicodeEncodeError => true | _ => false end
  | UnicodeEncodeError =>
      match c with UnicodeEncodeError => true | _ => false end
  | OSError =>
      match c with
      | OSError | FileNotFoundError | FileExistsError | PermissionError
      | gaierror => true
      | _ => false
      end
  | FileNotFoundError =>
      match c with FileNotFoundError => true | _ => false end
  | FileExistsError => match c with FileExistsError => true | _ => false end
  | PermissionError => match c with PermissionError => true | _ => false end
  | gaierror => match c with gaierror => true | _ => false end
  end.

End Cls.

(** A raised exception: an instance of a class with its message, or the
    [SystemExit] of [sys.exit(code)]. *)
Inductive exc : Type :=
| Raised (c : Cls.t) (message : str)
| Exited (code : Z).

Definition exc_class (e : exc) : Cls.t :=
  match e with
  | Raised c _ => c
  | Exited _ => Cls.SystemExit
  end.

(** [isinstance(e, c)] *)
Definition isinstance (e : exc) (c : Cls.t) : bool :=
  Cls.issubclass (exc_class e) c.

(** [str(e)] *)
Definition exc_str (e : exc) : str :=
  match e with
  | Raised _ message => message
  | Exited code => str_of_int code
  end.

Inductive outcome (A : Type) : Type :=
| Returns (a : A)
| Raises (e : exc).
Arguments Returns {A} a.
Arguments Raises {A} e.

(** Computations of a tool over its world [W]. *)
Definition Run (W A : Type) : Type := W -> outcome A * W.

Definition unit_ {W A} (a : A) : Run W A := fun w => (Returns a, w).

Definition raise_ {W A} (e : exc) : Run W A := fun w => (Raises e, w).

Definition bind_ {W A B} (m : Run W A) (k : A -> Run W B) : Run W B :=
  fun w =>
    match m w with
    | (Returns a, w') => k a w'
    | (Raises e, w') => (Raises e, w')
    end.

(** [try: m  except classes as e: handler(e)] *)
Definition try_except {W A} (m : Run W A) (classes : list Cls.t)
           (handler : exc -> Run W A) : Run W A :=
  fun w =>
    match m w with
    | (Returns a, w') => (Returns a, w')
    | (Raises e, w') =>
        if existsb (isinstance e) classes then handler e w'
        else (Raises e, w')
    end.

Declare Scope run_scope.
Delimit Scope run_scope with run.
Notation "x <- m ;; k" := (bind_ m (fun x => k))
  (at level 61, m at next level, right associativity) : run_scope.
Notation "m ;;; k" := (bind_ m (fun _ => k))
  (at level 61, right associativity) : run_scope.

(** [sys.exit(code)] *)
Definition exit_ {W A} (code : Z) : Run W A := raise_ (Exited code).

(** The exit status [main] ends with: 0 when it returns, the code of
    [sys.exit], 1 when another exception escapes. *)
Definition status_of {W} (r : outcome unit * W) : Z * W :=
  match r with
  | (Returns _, w) => (0, w)
  | (Raises (Exited code), w) => (code, w)
  | (Raises (Raised _ _), w) => (1, w)
  end.

(** The exit status of the process: the interpreter flushes the standard
    streams as it exits, and when that flush fails ([flush_fails], the
    answer of the world) the status is 120 whatever [main] ended
    with. *)
Definition exit_code {W} (flush_fails : bool) (r : outcome unit * W) : Z :=
  if flush_fails then 120 else fst (status_of r).

(** The exception a [print] raises for a failure. *)
Definition write_exc (f : write_failure) : exc :=
  match f with
  | FailEncode msg => Raised Cls.UnicodeEncodeError msg
  | FailWrite msg => Raised Cls.OSError msg
  end.

(** two and four zero-padded ASCII digits *)
Definition zdigit (n : Z) : char := Z.to_N (48 + n).

Definition pad2 (n : Z) : str := [zdigit (n / 10); zdigit (n mod 10)].

Definition pad4 (n : Z) : str :=
  [zdigit (n / 1000); zdigit (n / 100 mod 10); zdigit (n / 10 mod 10);
   zdigit (n mod 10)].

(** ** [backup_tool.py] *)

Module BackupTool.

Inductive event : Type :=
| EvExists (path : str) (b : bool)      (* os.path.exists(path) *)
| EvNow (t : datetime)                  (* datetime.now() *)
| EvIsFile (path : str) (b : bool)      (* os.path.isfile(path) *)
| EvIsDir (path : str) (b : bool)       (* os.path.isdir(path) *)
| EvCopy2 (src dst : str)               (* shutil.copy2(src, dst) *)
| EvCopyTree (src dst : str)            (* shutil.copytree(src, dst) *)
| EvPrint (text : str).                 (* print(text) *)

(** The copies answer with the exception they raise, or none; a
    [print] with its failure, or none; [flush_error] tells whether the
    flush of standard output at exit fails. *)
Record world : Type := mk_world {
  now : datetime;
  path_exists : str -> bool;
  path_isfile : str -> bool;
  path_isdir : str -> bool;
  copy2 : str -> str -> option exc;
  copytree : str -> str -> option exc;
  write_error : str -> option write_failure;
  flush_error : bool;
  trace : list event
}.

Definition log (e : event) (w : world) : world :=
  mk_world (now w) (path_exists w) (path_isfile w) (path_isdir w)
           (copy2 w) (copytree w) (write_error w) (flush_error w)
           (trace w ++ [e]).

Definition os_path_exists (path : str) : Run world bool :=
  fun w => (Returns (path_exists w path),
            log (EvExists path (path_exists w path)) w).

Definition os_path_isfile (path : str) : Run world bool :=
  fun w => (Returns (path_isfile w path),
            log (EvIsFile path (path_isfile w path)) w).

Definition os_path_isdir (path : str) : Run world bool :=
  fun w => (Returns (path_isdir w path),
            log (EvIsDir path (path_isdir w path)) w).

Definition datetime_now : Run world datetime :=
  fun w => (Returns (now w), log (EvNow (now w)) w).

Definition shutil_copy2 (src dst : str) : Run world unit :=
  fun w =>
    (match copy2 w src dst with
     | None => Returns tt
     | Some e => Raises e
     end, log (EvCopy2 src dst) w).

Definition shutil_copytree (src dst : str) : Run world unit :=
  fun w =>
    (match copytree w src dst with
     | None => Returns tt
     | Some e => Raises e
     end, log (EvCopyTree src dst) w).

(** [print(text)]: the text is written, or the failure is raised *)
Definition print (text : str) : Run world unit :=
  fun w =>
    match write_error w text with
    | None => (Returns tt, log (EvPrint text) w)
    | Some failure => (Raises (write_exc failure), w)
    end.

Section Strftime.

(** What [%Y] gives for a year below 1000 depends on the C library
    (with or without leading zeros); from 1000 on it is the four digits. *)
Variable short_year : Z -> str.

(** [t.strftime("%Y%m%d_%H%M%S")] *)
Definition strftime (t : datetime) : str :=
  (if 1000 <=? year t then pad4 (year t) else short_year (year t))
  ++ pad2 (month t) ++ pad2 (day t) ++ py "_"
  ++ pad2 (hour t) ++ pad2 (minute t) ++ pad2 (second t).

(** [f"{source_path}.backup_{timestamp}"] *)
Definition backup_name (source_path : str) (t : datetime) : str :=
  source_path ++ py ".backup_" ++ strftime t.

(** The statements of the [try] block up to the first [return] or the
    end of the [if]: [Some b] is [return b]. *)
Definition copy_source (source_path backup_name : str)
  : Run world (option bool) :=
  (is_file <- os_path_isfile source_path ;;
   if is_file then
     shutil_copy2 source_path backup_name ;;; unit_ None
   else
     is_dir <- os_path_isdir source_path ;;
     if is_dir then
       shutil_copytree source_path backup_name ;;; unit_ None
     else
       print (py "Error: '" ++ source_path
              ++ py "' is neither a file nor a directory.") ;;;
       unit_ (Some false))%run.

Definition create_backup (source_path : str) : Run world bool :=
  (found <- os_path_exists source_path ;;
   if negb found then
     print (py "Error: Source '" ++ source_path
            ++ py "' does not exist.") ;;;
     unit_ false
   else
     t <- datetime_now ;;
     let timestamp := strftime t in
     let backup_name := source_path ++ py ".backup_" ++ timestamp in
     try_except
       (returned <- copy_source source_path backup_name ;;
        match returned with
        | Some b => unit_ b
        | None =>
            print (py "Backup created: " ++ backup_name) ;;;
            unit_ true
        end)
       [Cls.Exception]
       (fun e =>
          print (py "Error during backup: " ++ exc_str e) ;;;
          unit_ false))%run.

(** [main], after [argparse] has produced [source] *)
Definition main (source : str) : Run world unit :=
  (success <- create_backup source ;;
   exit_ (if success then 0 else 1))%run.

End Strftime.

(** A clock reading whose year has four digits (and whose other
    fields are not negative). *)
Definition four_digit_year (t : datetime) : Prop :=
  1000 <= year t /\ 0 <= month t /\ 0 <= day t
  /\ 0 <= hour t /\ 0 <= minute t /\ 0 <= second t.

(** The copy [create_backup] asks for, and its answer: none when the
    source is neither a file nor a directory. *)
Definition copy_answer (w : world) (source name : str)
  : option (event * option exc) :=
  if path_isfile w source
  then Some (EvCopy2 source name, copy2 w source name)
  else if path_isdir w source
       then Some (EvCopyTree source name, copytree w source name)
       else None.

(** The copies fail with instances of [Exception] only. *)
Definition copies_raise_exceptions (w : world) : Prop :=
  forall src dst e,
    copy2 w src dst = Some e \/ copytree w src dst = Some e ->
    isinstance e Cls.Exception = true.

(** The source exists, is a file or a directory, and its copy
    succeeds. *)
Definition copied (w : world) (source name : str) : Prop :=
  path_exists w source = true
  /\ exists ev, copy_answer w source name = Some (ev, None).

(** Every line can be written to standard output. *)
Definition writes_succeed (w : world) : Prop :=
  forall text, write_error w text = None.

(** The [except] clause of [create_backup] for the exception [e], and
    the [sys.exit] of [main] after it. *)
Definition handled (e : exc) (w : world) : outcome unit * world :=
  match write_error w (py "Error during backup: " ++ exc_str e) with
  | None => (Raises (Exited 1),
             log (EvPrint (py "Error during backup: " ++ exc_str e)) w)
  | Some failure => (Raises (write_exc failure), w)
  end.

(** A [print] inside the [try] block followed by [return] and the
    [sys.exit(code)] of [main]. *)
Definition reported (text : str) (code : Z) (w : world)
  : outcome unit * world :=
  match write_error w text with
  | None => (Raises (Exited code), log (EvPrint text) w)
  | Some failure => handled (write_exc failure) w
  end.

(** A world at 2025-11-22 10:30:45 where every path answers alike and
    standard output takes and flushes every line; and the same with a
    standard output whose encoding has no lone surrogates (U+D800 to
    U+DFFF, which a path that is not UTF-8 brings in). *)
Definition example_world (found is_file is_dir : bool)
           (answer : option exc) : world :=
  mk_world (mk_datetime 2025 11 22 10 30 45 0)
           (fun _ => found) (fun _ => is_file) (fun _ => is_dir)
           (fun _ _ => answer) (fun _ _ => answer) (fun _ => None) false [].

Definition strict_stdout_world : world :=
  mk_world (mk_datetime 2025 11 22 10 30 45 0)
           (fun _ => true) (fun _ => true) (fun _ => false)
           (fun _ _ => None) (fun _ _ => None)
           (fun text =>
              if existsb (fun c => (55296 <=? c) && (c <=? 57343))%N text
              then Some (FailEncode (py "surrogates not allowed"))
              else None)
           false [].

(** four digits for every year *)
Definition padded_year (y : Z) : str := pad4 y.

(** What a run printed and the copies it made, in order. *)
Definition stdout (w : world) : list str :=
  flat_map (fun e => match e with EvPrint t => [t] | _ => [] end) (trace w).

Definition copies (w : world) : list (str * str) :=
  flat_map (fun e => match e with
                     | EvCopy2 s d | EvCopyTree s d => [(s, d)]
                     | _ => []
                     end) (trace w).

End BackupTool.

(** ** Python's [float]

    A [float] is an IEEE 754 binary64 number.  The operations are those
    of [SpecFloat], which round to nearest, ties to even, as the
    hardware does. *)

Module Float.

Definition prec : Z := 53.
Definition emax : Z := 1024.

(** an [int] as an exact, unrounded operand *)
Definition of_int_exact (n : Z) : spec_float :=
  match n with
  | Z0 => S754_zero false
  | Zpos p => S754_finite false p 0
  | Zneg p => S754_finite true p 0
  end.

(** [float(n)], the nearest float *)
Definition of_int (n : Z) : spec_float := binary_normalize prec emax n 0 false.

(** [a / b] for two [int] with [b] not zero: the quotient of the two
    integers rounded once; [None] when it is too large for a float *)
Definition truediv (a b : Z) : option spec_float :=
  match SFdiv prec emax (of_int_exact a) (of_int_exact b) with
  | S754_infinity _ => None
  | q => Some q
  end.

(** [x * y] *)
Definition mul (x y : spec_float) : spec_float := SFmul prec emax x y.

(** [x <= n] for a float and an [int]: Python compares the two values
    exactly. *)
Definition le_int (x : spec_float) (n : Z) : bool :=
  match x with
  | S754_nan => false
  | S754_infinity negative => negative
  | S754_zero _ => 0 <=? n
  | S754_finite negative m e =>
      let v := if negative then Zneg m else Zpos m in
      if 0 <=? e then v * 2 ^ e <=? n else v <=? n * 2 ^ (- e)
  end.

(** [num / den] rounded to the nearest integer, ties to even, for
    [num >= 0] and [den > 0] *)
Definition round_half_even (num den : Z) : Z :=
  let q := num / den in
  match 2 * (num mod den) ?= den with
  | Lt => q
  | Gt => q + 1
  | Eq => if Z.even q then q else q + 1
  end.

(** [n / 10 ** digits] written with [digits] decimals, for [n >= 0] *)
Definition fixed_digits (digits : nat) (n : Z) : str :=
  let text := str_of_int n in
  let padded := repeat 48%N (S digits - List.length text) ++ text in
  let k := (List.length padded - digits)%nat in
  firstn k padded
  ++ match digits with
     | O => []
     | S _ => py "." ++ skipn k padded
     end.

(** [f"{x:.<digits>f}"]: the decimal with [digits] decimals nearest to
    the exact value of [x], ties to even *)
Definition format_fixed (digits : nat) (x : spec_float) : str :=
  let sign (negative : bool) := if negative then py "-" else [] in
  match x with
  | S754_nan => py "nan"
  | S754_infinity negative => sign negative ++ py "inf"
  | S754_zero negative => sign negative ++ fixed_digits digits 0
  | S754_finite negative m e =>
      let scale := 10 ^ Z.of_nat digits in
      sign negative
      ++ fixed_digits digits
           (if 0 <=? e then Zpos m * 2 ^ e * scale
            else round_half_even (Zpos m * scale) (2 ^ (- e)))
  end.

End Float.

(** ** [disk_monitor.py] *)

Module DiskMonitor.

Inductive event : Type :=
| EvExists (path : str) (b : bool)      (* os.path.exists(path) *)
| EvDiskUsage (path : str)              (* shutil.disk_usage(path) *)
| EvOut (text : str)                    (* print(text) *)
| EvErr (text : str).                   (* print(text, file=sys.stderr) *)

(** [shutil.disk_usage] answers with (total, used, free) in bytes, or
    with the exception it raises; a [print] to standard output or to
    standard error with its failure, or none; [flush_error] tells whether
    the flush of the two streams at exit fails. *)
Record world : Type := mk_world {
  path_exists : str -> bool;
  disk_usage : str -> exc + (Z * Z * Z);
  write_error : str -> option write_failure;
  stderr_error : str -> option write_failure;
  flush_error : bool;
  trace : list event
}.

Definition log (e : event) (w : world) : world :=
  mk_world (path_exists w) (disk_usage w) (write_error w) (stderr_error w)
           (flush_error w) (trace w ++ [e]).

Definition os_path_exists (path : str) : Run world bool :=
  fun w => (Returns (path_exists w path),
            log (EvExists path (path_exists w path)) w).

Definition shutil_disk_usage (path : str) : Run world (Z * Z * Z) :=
  fun w =>
    (match disk_usage w path with
     | inr usage => Returns usage
     | inl e => Raises e
     end, log (EvDiskUsage path) w).

(** [print(text)] and [print(text, file=sys.stderr)]: the text is
    written, or the failure is raised *)
Definition print (text : str) : Run world unit :=
  fun w =>
    match write_error w text with
    | None => (Returns tt, log (EvOut text) w)
    | Some failure => (Raises (write_exc failure), w)
    end.

Definition print_stderr (text : str) : Run world unit :=
  fun w =>
    match stderr_error w text with
    | None => (Returns tt, log (EvErr text) w)
    | Some failure => (Raises (write_exc failure), w)
    end.

(** [a / b] for two [int] *)
Definition int_truediv {W} (a b : Z) : Run W spec_float :=
  if b =? 0
  then raise_ (Raised Cls.ZeroDivisionError (py "division by zero"))
  else match Float.truediv a b with
       | Some x => unit_ x
       | None =>
           raise_ (Raised Cls.OverflowError
                          (py "integer division result too large for a float"))
       end.

Definition get_disk_usage (path : str) : Run world (Z * Z * Z) :=
  (found <- os_path_exists path ;;
   if negb found then
     raise_ (Raised Cls.FileNotFoundError
                    (py "Path does not exist: " ++ path))
   else
     usage <- shutil_disk_usage path ;;
     let '(total, used, free) := usage in
     unit_ (total, used, free))%run.

Definition format_bytes {W} (bytes_value : Z) : Run W str :=
  (gb <- int_truediv bytes_value (1024 ^ 3) ;;
   unit_ (Float.format_fixed 2 gb ++ py " GB"))%run.

Definition check_disk_usage (path : str) (threshold : Z) : Run world bool :=
  (usage <- try_except (get_disk_usage path)
                       [Cls.FileNotFoundError; Cls.PermissionError]
                       (fun e =>
                          print_stderr (py "Error: " ++ exc_str e) ;;;
                          exit_ 1) ;;
   let '(total, used, free) := usage in
   ratio <- int_truediv used total ;;
   let usage_percent := Float.mul ratio (Float.of_int 100) in
   let is_safe := Float.le_int usage_percent threshold in
   print (py "Path: " ++ path) ;;;
   total_text <- format_bytes total ;;
   print (py "Total: " ++ total_text) ;;;
   used_text <- format_bytes used ;;
   print (py "Used:  " ++ used_text ++ py " ("
          ++ Float.format_fixed 1 usage_percent ++ py "%)") ;;;
   free_text <- format_bytes free ;;
   print (py "Free:  " ++ free_text) ;;;
   if negb is_safe then
     print_stderr (py "WARNING: Disk usage ("
                   ++ Float.format_fixed 1 usage_percent
                   ++ py "%) exceeds threshold ("
                   ++ str_of_int threshold ++ py "%)") ;;;
     unit_ false
   else
     print (py "Disk usage is within acceptable limits.") ;;;
     unit_ true)%run.

(** [main], after [argparse] has produced [path] and [threshold] *)
Definition main (path : str) (threshold : Z) : Run world unit :=
  (success <- check_disk_usage path threshold ;;
   exit_ (if success then 0 else 1))%run.

(** Every line can be written to standard output and to standard
    error. *)
Definition writes_succeed (w : world) : Prop :=
  (forall text, write_error w text = None)
  /\ (forall text, stderr_error w text = None).

(** A [print] to standard error followed by [sys.exit(1)]. *)
Definition reported {A} (message : str) (w : world) : outcome A * world :=
  match stderr_error w message with
  | None => (Raises (Exited 1), log (EvErr message) w)
  | Some failure => (Raises (write_exc failure), w)
  end.

(** A world where every path exists or not and answers alike, and the
    two streams take and flush every line. *)
Definition example_world (found : bool) (answer : exc + (Z * Z * Z))
  : world :=
  mk_world (fun _ => found) (fun _ => answer) (fun _ => None)
           (fun _ => None) false [].

Definition stdout (w : world) : list str :=
  flat_map (fun e => match e with EvOut t => [t] | _ => [] end) (trace w).

Definition stderr (w : world) : list str :=
  flat_map (fun e => match e with EvErr t => [t] | _ => [] end) (trace w).

Definition usage_requests (w : world) : list str :=
  flat_map (fun e => match e with EvDiskUsage p => [p] | _ => [] end)
           (trace w).

End DiskMonitor.

(** ** [network_checker.py] *)

Module NetworkChecker.

Definition GATEWAY : str := py "192.168.1.1".
Definition DNS_HOST : str := py "google.com".
Definition PING_TARGET : str := py "8.8.8.8".
Definition HTTP_URL : str := py "https://google.com".

Inductive event : Type :=
| EvRun (argv : list str)        (* subprocess.run(argv, ...) *)
| EvResolve (hostname : str)     (* socket.gethostbyname(hostname) *)
| EvGet (url : str)              (* requests.get(url, timeout=5) *)
| EvPrint (text : str).          (* print(text) *)

(** The requests answer with the return code of the command, the
    address, the status code of the response, or with the exception they
    raise; a [print] with its failure, or none; [flush_error] tells
    whether the flush of standard output at exit fails. *)
Record world : Type := mk_world {
  run : list str -> exc + Z;
  gethostbyname : str -> exc + str;
  http_get : str -> exc + Z;
  write_error : str -> option write_failure;
  flush_error : bool;
  trace : list event
}.

Definition log (e : event) (w : world) : world :=
  mk_world (run w) (gethostbyname w) (http_get w) (write_error w)
           (flush_error w) (trace w ++ [e]).

Definition answer {A} (r : exc + A) : outcome A :=
  match r with
  | inr a => Returns a
  | inl e => Raises e
  end.

Definition subprocess_run (argv : list str) : Run world Z :=
  fun w => (answer (run w argv), log (EvRun argv) w).

Definition socket_gethostbyname (hostname : str) : Run world str :=
  fun w => (answer (gethostbyname w hostname), log (EvResolve hostname) w).

Definition requests_get (url : str) : Run world Z :=
  fun w => (answer (http_get w url), log (EvGet url) w).

(** [print(text)]: the text is written, or the failure is raised *)
Definition print (text : str) : Run world unit :=
  fun w =>
    match write_error w text with
    | None => (Returns tt, log (EvPrint text) w)
    | Some failure => (Raises (write_exc failure), w)
    end.

(** [ping(host)] with the defaults [count=1], [timeout=2] *)
Definition ping (host : str) : Run world bool :=
  let count := 1 in
  let timeout := 2 in
  try_except
    (returncode <- subprocess_run [py "ping"; py "-c"; str_of_int count;
                                   py "-W"; str_of_int timeout; host] ;;
     unit_ (returncode =? 0))%run
    [Cls.Exception]
    (fun _ => unit_ false).

(** [resolve_dns(hostname)]: the address, or [None] *)
Definition resolve_dns (hostname : str) : Run world (option str) :=
  try_except
    (ip <- socket_gethostbyname hostname ;; unit_ (Some ip))%run
    [Cls.gaierror]
    (fun _ => unit_ None).

Definition check_http (url : str) : Run world bool :=
  try_except
    (status_code <- requests_get url ;; unit_ (status_code =? 200))%run
    [Cls.Exception]
    (fun _ => unit_ false).

(** the truth value of [ip] in [if ip:] *)
Definition truthy (ip : option str) : bool :=
  match ip with
  | Some (_ :: _) => true
  | _ => false
  end.

Definition main : Run world unit :=
  (print (py "Network Diagnostics") ;;;
   let issues := 0 in
   print (py "   Checking gateway: " ++ GATEWAY) ;;;
   ok <- ping GATEWAY ;;
   issues <- (if ok
              then print (py "   Gateway (" ++ GATEWAY ++ py "): OK") ;;;
                   unit_ issues
              else print (py "   Gateway (" ++ GATEWAY ++ py "): FAILED") ;;;
                   unit_ (issues + 1)) ;;
   print (py "   Resolving DNS: " ++ DNS_HOST) ;;;
   ip <- resolve_dns DNS_HOST ;;
   issues <- (if truthy ip
              then print (py "   DNS (" ++ DNS_HOST ++ py "): Resolved to "
                          ++ match ip with Some a => a | None => [] end) ;;;
                   unit_ issues
              else print (py "   DNS (" ++ DNS_HOST ++ py "): FAILED") ;;;
                   unit_ (issues + 1)) ;;
   print (py "   Pinging: " ++ PING_TARGET) ;;;
   ok <- ping PING_TARGET ;;
   issues <- (if ok
              then print (py "   Ping (" ++ PING_TARGET ++ py "): OK") ;;;
                   unit_ issues
              else print (py "   Ping (" ++ PING_TARGET ++ py "): FAILED") ;;;
                   unit_ (issues + 1)) ;;
   print (py "   HTTP request: " ++ HTTP_URL) ;;;
   ok <- check_http HTTP_URL ;;
   issues <- (if ok
              then print (py "   HTTP (" ++ HTTP_URL ++ py "): Status 200") ;;;
                   unit_ issues
              else print (py "   HTTP (" ++ HTTP_URL ++ py "): FAILED") ;;;
                   unit_ (issues + 1)) ;;
   print [] ;;;
   if issues =? 0 then
     print (py "All network checks passed.") ;;;
     exit_ 0
   else
     print (str_of_int issues ++ py " network check(s) failed.") ;;;
     exit_ 1)%run.

Definition stdout (w : world) : list str :=
  flat_map (fun e => match e with EvPrint t => [t] | _ => [] end) (trace w).

(** The requests a run made, in order, without what it printed. *)
Definition requests (w : world) : list event :=
  filter (fun e => match e with EvPrint _ => false | _ => true end) (trace w).

(** The command [ping] runs for [host]. *)
Definition ping_argv (host : str) : list str :=
  [py "ping"; py "-c"; py "1"; py "-W"; py "2"; host].

(** What the world answers to the four checks: the command returns 0,
    the name resolves to an address that is not empty, the response
    has status 200. *)
Definition ping_ok (w : world) (host : str) : bool :=
  match run w (ping_argv host) with
  | inr returncode => returncode =? 0
  | inl _ => false
  end.

Definition dns_ok (w : world) : bool :=
  match gethostbyname w DNS_HOST with
  | inr (_ :: _) => true
  | _ => false
  end.

Definition http_ok (w : world) : bool :=
  match http_get w HTTP_URL with
  | inr status_code => status_code =? 200
  | inl _ => false
  end.

(** The number of checks the world fails. *)
Definition failures (w : world) : Z :=
  (if ping_ok w GATEWAY then 0 else 1)
  + (if dns_ok w then 0 else 1)
  + (if ping_ok w PING_TARGET then 0 else 1)
  + (if http_ok w then 0 else 1).

(** The command and the request fail with instances of [Exception]
    only, the resolution with [socket.gaierror] only. *)
Definition well_behaved (w : world) : Prop :=
  (forall argv e, run w argv = inl e -> isinstance e Cls.Exception = true)
  /\ (forall hostname e,
        gethostbyname w hostname = inl e ->
        isinstance e Cls.gaierror = true)
  /\ (forall url e,
        http_get w url = inl e -> isinstance e Cls.Exception = true).

(** Every line can be written to standard output. *)
Definition writes_succeed (w : world) : Prop :=
  forall text, write_error w text = None.

(** A world that answers every command, name and URL alike, and whose
    standard output takes and flushes every line; and one whose standard
    output is a pipe nobody reads. *)
Definition example_world (command : exc + Z) (address : exc + str)
           (response : exc + Z) : world :=
  mk_world (fun _ => command) (fun _ => address) (fun _ => response)
           (fun _ => None) false [].

Definition closed_pipe_world : world :=
  mk_world (fun _ => inr 0) (fun _ => inr (py "142.250.1.1"))
           (fun _ => inr 200)
           (fun _ => Some (FailWrite (py "Broken pipe"))) false [].

End NetworkChecker.

(** ** The script *)

Section LogAnalyzer.

(** The decimal digits of Unicode outside ASCII (category Nd) with their
    values: Python's [\d] and [int] accept them.  The table is not part
    of the script; everything below holds for every table. *)
Variable unicode_decimal : char -> option Z.

Definition decimal_value (c : char) : option Z :=
  if ((48 <=? c) && (c <=? 57))%N then Some (Z.of_N c - 48)
  else if (c <? 128)%N then None
  else unicode_decimal c.

(** *** Regular expressions, as far as the script and [strptime] use them *)

Definition char_class := char -> bool.

(** [\d] in a [str] pattern: any Unicode decimal digit *)
Definition re_d : char_class :=
  fun c => match decimal_value c with Some _ => true | None => false end.

(** a literal character *)
Definition re_lit (a : ascii) : char_class := fun c => N.eqb c (chr a).

(** a literal letter under [re.IGNORECASE] *)
Definition re_lit_i (upper lower : ascii) : char_class :=
  fun c => N.eqb c (chr upper) || N.eqb c (chr lower).

(** [[lo-hi]] over ASCII digits *)
Definition re_range (lo hi : ascii) : char_class :=
  fun c => ((chr lo <=? c) && (c <=? chr hi))%N.

(** A pattern is a sequence of single-character items and capturing
    groups; a group is an ordered choice between fixed sequences of
    character classes. *)
Inductive re_item : Type :=
| Lit (c : char_class)
| Group (alternatives : list (list char_class)).

(** The text matched by a sequence of classes at the start of [s], and
    what follows it. *)
Fixpoint match_classes (cs : list char_class) (s : str)
  : option (str * str) :=
  match cs with
  | [] => Some ([], s)
  | c :: cs' =>
      match s with
      | x :: s' =>
          if c x then
            match match_classes cs' s' with
            | Some (m, r) => Some (x :: m, r)
            | None => None
            end
          else None
      | [] => None
      end
  end.

(** [pattern.match(s)]: the groups of the first match in backtracking
    order that starts at the start of [s], and the text after it. *)
Fixpoint re_match (items : list re_item) (s : str)
  : option (list str * str) :=
  match items with
  | [] => Some ([], s)
  | Lit c :: items' =>
      match s with
      | x :: s' => if c x then re_match items' s' else None
      | [] => None
      end
  | Group alternatives :: items' =>
      (fix try (alts : list (list char_class)) : option (list str * str) :=
         match alts with
         | [] => None
         | a :: alts' =>
             match match_classes a s with
             | Some (m, r) =>
                 match re_match items' r with
                 | Some (gs, rest) => Some (m :: gs, rest)
                 | None => try alts'
                 end
             | None => try alts'
             end
         end) alternatives
  end.

(** [re.search(pattern, s)]: the groups of the match at the leftmost
    position where the pattern matches. *)
Fixpoint re_search (items : list re_item) (s : str) : option (list str) :=
  match re_match items s with
  | Some (gs, _) => Some gs
  | None =>
      match s with
      | [] => None
      | _ :: s' => re_search items s'
      end
  end.

(** [match.group(i)] for [i >= 1] *)
Definition group (m : list str) (i : nat) : str := nth (i - 1) m [].

(** *** [int(text)] on the texts [strptime] converts: decimal digits,
    possibly with surrounding spaces *)

Fixpoint lstrip (s : str) : str :=
  match s with
  | c :: s' => if N.eqb c 32 then lstrip s' else s
  | [] => []
  end.

Definition strip (s : str) : str := rev (lstrip (rev (lstrip s))).

Fixpoint digits_value (s : str) (acc : Z) : option Z :=
  match s with
  | [] => Some acc
  | c :: s' =>
      match decimal_value c with
      | Some v => digits_value s' (10 * acc + v)
      | None => None
      end
  end.

Definition int (s : str) : result Z :=
  match strip s with
  | [] => Raise (ValueError (py "invalid literal for int() with base 10"))
  | ds =>
      match digits_value ds 0 with
      | Some n => Ok n
      | None =>
          Raise (ValueError (py "invalid literal for int() with base 10"))
      end
  end.

(** *** [datetime.strptime(text, "%Y-%m-%dT%H:%M:%S")] *)

(** [%Y] is [(?P<Y>\d\d\d\d)] *)
Definition dir_Y : re_item := Group [[re_d; re_d; re_d; re_d]].
(** [%m] is [(?P<m>1[0-2]|0[1-9]|[1-9])] *)
Definition dir_m : re_item :=
  Group [[re_lit "1"; re_range "0" "2"]; [re_lit "0"; re_range "1" "9"];
         [re_range "1" "9"]].
(** [%d] is [(?P<d>3[0-1]|[1-2]\d|0[1-9]|[1-9]| [1-9])] *)
Definition dir_d : re_item :=
  Group [[re_lit "3"; re_range "0" "1"]; [re_range "1" "2"; re_d];
         [re_lit "0"; re_range "1" "9"]; [re_range "1" "9"];
         [re_lit " "; re_range "1" "9"]].
(** [%H] is [(?P<H>2[0-3]|[0-1]\d|\d)] *)
Definition dir_H : re_item :=
  Group [[re_lit "2"; re_range "0" "3"]; [re_range "0" "1"; re_d]; [re_d]].
(** [%M] is [(?P<M>[0-5]\d|\d)] *)
Definition dir_M : re_item := Group [[re_range "0" "5"; re_d]; [re_d]].
(** [%S] is [(?P<S>6[0-1]|[0-5]\d|\d)] *)
Definition dir_S : re_item :=
  Group [[re_lit "6"; re_range "0" "1"]; [re_range "0" "5"; re_d]; [re_d]].

(** The pattern [strptime] compiles the format to (with
    [re.IGNORECASE], which only matters for the letter T). *)
Definition format_regex : list re_item :=
  [dir_Y; Lit (re_lit "-"); dir_m; Lit (re_lit "-"); dir_d;
   Lit (re_lit_i "T" "t");
   dir_H; Lit (re_lit ":"); dir_M; Lit (re_lit ":"); dir_S].

Definition strptime (data_string : str) : result datetime :=
  match re_match format_regex data_string with
  | None => Raise (ValueError (py "time data does not match format"))
  | Some (found, rest) =>
      match rest with
      | _ :: _ => Raise (ValueError (py "unconverted data remains"))
      | [] =>
          (year <- int (group found 1) ;;
           month <- int (group found 2) ;;
           day <- int (group found 3) ;;
           hour <- int (group found 4) ;;
           minute <- int (group found 5) ;;
           second <- int (group found 6) ;;
           datetime_new year month day hour minute second 0)%result
      end
  end.

(** *** [parse_timestamp] *)

(** [\[(\d{4}-\d{2}-\d{2}T\d{2}:\d{2}:\d{2})\]] *)
Definition timestamp_text : list char_class :=
  [re_d; re_d; re_d; re_d; re_lit "-"; re_d; re_d; re_lit "-"; re_d; re_d;
   re_lit "T"; re_d; re_d; re_lit ":"; re_d; re_d; re_lit ":"; re_d; re_d].

Definition timestamp_re : list re_item :=
  [Lit (re_lit "["); Group [timestamp_text]; Lit (re_lit "]")].

Definition parse_timestamp (line : str) : result (option datetime) :=
  let match_ := re_search timestamp_re line in
  match match_ with
  | Some m =>
      match strptime (group m 1) with
      | Ok t => Ok (Some t)
      | Raise e => if is_ValueError e then Ok None else Raise e
      end
  | None => Ok None
  end.

(** *** [count_matches] *)

(** [datetime.now() - timedelta(hours=hours)], given the clock reading *)
Definition cutoff_of (now : datetime) (hours : Z) : result datetime :=
  (td <- timedelta_new 0 0 0 0 hours ;; datetime_sub now td)%result.

(** The body of the loop: the count after [line], given the count
    before it. *)
Definition count_line (keyword : str) (cutoff_time : option datetime)
           (line : str) (count : Z) : result Z :=
  if str_contains line keyword then
    match cutoff_time with
    | None => Ok (count + 1)
    | Some cutoff =>
        (log_time <- parse_timestamp line ;;
         match log_time with
         | Some t => if datetime_ge t cutoff then Ok (count + 1)
                     else Ok count
         | None => Ok count
         end)%result
    end
  else Ok count.

Definition count_matches (filename keyword : str) (hours : option Z)
  : M Z :=
  (let count := 0 in
   cutoff_time <-
     match hours with
     | Some h =>
         now <- datetime_now ;;
         cutoff <- lift (cutoff_of now h) ;;
         ret (Some cutoff)
     | None => ret None
     end ;;
   f <- open_utf8 filename ;;
   for_lines (delivered f) (read_error f)
             (fun line count => lift (count_line keyword cutoff_time line count))
             count)%M.

(** *** [main], after [argparse] has produced [logfile], [keyword] and
    [hours] *)

Definition main (logfile keyword : str) (hours : option Z) : M unit :=
  (found <- os_path_exists logfile ;;
   (if negb found then
      print (py "Error: File '" ++ logfile ++ py "' not found.") ;;;
      sys_exit 1
    else ret tt) ;;;
   count <- try_except_Exception
              (count_matches logfile keyword hours)
              (fun e =>
                 print (py "Error reading file: " ++ exn_str e) ;;;
                 sys_exit 1) ;;
   print (py "Log Analysis: " ++ logfile) ;;;
   print (py "  Keyword: " ++ keyword) ;;;
   match hours with
   | Some h => print (py "  Time window: last " ++ str_of_int h ++ py " hours")
   | None => print (py "  Time window: all entries")
   end ;;;
   print (py "  Matches found: " ++ str_of_int count) ;;;
   print (py "Analysis complete."))%M.

(** The exit status of the process that runs [main]: 0 when [main]
    returns, the code of [sys.exit], 1 when another exception escapes;
    and 120 in each case when the flush of standard output fails as the
    interpreter exits. *)
Definition exit_status (logfile keyword : str) (hours : option Z)
           (w : world) : Z * world :=
  let '(r, w') := main logfile keyword hours w in
  (if flush_error w' then 120
   else match r with
        | Ok _ => 0
        | Raise (SystemExit code) => code
        | Raise _ => 1
        end, w').

(** A run that prints [message], if it can be written, and does not end
    with status 0: the status is 1 unless the flush at exit fails. *)
Definition fails_with (w : world) (run : Z * world) (message : str) : Prop :=
  fst run <> 0
  /\ (flush_error w = false -> fst run = 1)
  /\ stdout (snd run) = stdout w ++ printed (write_error w) [message].

(** *** What the claims are stated with *)

(** [text] has the shape YYYY-MM-DDTHH:MM:SS of the script's pattern. *)
Fixpoint in_classes (cs : list char_class) (text : str) : bool :=
  match cs, text with
  | [], [] => true
  | c :: cs', x :: text' => c x && in_classes cs' text'
  | _, _ => false
  end.

Definition is_timestamp_text (text : str) : bool :=
  in_classes timestamp_text text.

(** The bracketed pattern occurs in [line] after [pre], capturing
    [text]. *)
Definition occurs_at (line pre text post : str) : Prop :=
  line = pre ++ chr "[" :: text ++ chr "]" :: post
  /\ is_timestamp_text text = true.

(** The number written with the digits [text[i:j]]. *)
Definition number_at (text : str) (i j : nat) : option Z :=
  digits_value (firstn (j - i) (skipn i text)) 0.

(** The numbers written in a text of the shape YYYY-MM-DDTHH:MM:SS are a
    date of the calendar and a time of the day. *)
Definition valid_calendar_text (text : str) : bool :=
  match number_at text 0 4, number_at text 5 7, number_at text 8 10,
        number_at text 11 13, number_at text 14 16, number_at text 17 19
  with
  | Some y, Some m, Some d, Some hh, Some mm, Some ss =>
      valid_datetime (mk_datetime y m d hh mm ss 0)
  | _, _, _, _, _, _ => false
  end.

(** Whether a line counts, in the words of the match decision: the
    keyword occurs in it, and either no cutoff is configured or a
    timestamp was extracted that is not before the cutoff. *)
Definition spec_line_counts (keyword : str) (cutoff_time : option datetime)
           (line : str) : bool :=
  str_contains line keyword &&
  match cutoff_time with
  | None => true
  | Some cutoff =>
      match parse_timestamp line with
      | Ok (Some t) => datetime_ge t cutoff
      | _ => false
      end
  end.

(** The cutoff of a run started in world [w]: none without a window,
    else the clock reading at the start minus the hours. *)
Definition window_cutoff (w : world) (hours : option Z)
  : result (option datetime) :=
  match hours with
  | None => Ok None
  | Some h =>
      (cutoff <- cutoff_of (wall_clock w (List.length (trace w))) h ;;
       Ok (Some cutoff))%result
  end.

(** The world after the events [es]. *)
Definition log_all (es : list event) (w : world) : world :=
  mk_world (wall_clock w) (path_exists w) (open_file w) (write_error w)
           (flush_error w) (trace w ++ es).

(** The readings of the clock [count_matches] makes: one when a window
    is requested, none otherwise. *)
Definition clock_events (w : world) (hours : option Z) : list event :=
  match hours with
  | Some _ => [EvNow (wall_clock w (List.length (trace w)))]
  | None => []
  end.

(** The number of lines of [lines] that count. *)
Definition spec_count (keyword : str) (cutoff_time : option datetime)
           (lines : list str) : Z :=
  Z.of_nat (List.length (filter (spec_line_counts keyword cutoff_time) lines)).

(** What [main] prints after a successful count. *)
Definition summary (logfile keyword : str) (hours : option Z) (count : Z)
  : list str :=
  [py "Log Analysis: " ++ logfile;
   py "  Keyword: " ++ keyword;
   match hours with
   | Some h => py "  Time window: last " ++ str_of_int h ++ py " hours"
   | None => py "  Time window: all entries"
   end;
   py "  Matches found: " ++ str_of_int count;
   py "Analysis complete."].

(** [f] holds of the [fuel] integers from [n] on. *)
Fixpoint all_from (f : Z -> bool) (fuel : nat) (n : Z) : bool :=
  match fuel with
  | O => true
  | S fuel' => f n && all_from f fuel' (n + 1)
  end.

(** The end of [_ord2ymd]: the month and the day of the [n]-th day
    (from 0) of a year. *)
Definition month_day (n : Z) (leapyear : bool) : Z * Z :=
  let month := Z.shiftr (n + 50) 5 in
  let preceding :=
    Calendar.index Calendar._DAYS_BEFORE_MONTH month
    + (if (2 <? month) && leapyear then 1 else 0) in
  if n <? preceding then
    let month := month - 1 in
    let preceding :=
      preceding
      - (Calendar.index Calendar._DAYS_IN_MONTH month
         + (if (month =? 2) && leapyear then 1 else 0)) in
    (month, n - preceding + 1)
  else (month, n - preceding + 1).

(** The days before the month [month_day] finds, and the day it finds
    in it, add up to [n + 1]. *)
Definition month_day_ok (leapyear : bool) (n : Z) : bool :=
  let '(m, d) := month_day n leapyear in
  (Calendar.index Calendar._DAYS_BEFORE_MONTH m
   + (if (2 <? m) && leapyear then 1 else 0) + d =? n + 1).

(** The length of a [timedelta] in microseconds. *)
Definition timedelta_micros (td : timedelta) : Z :=
  (days td * 86400 + seconds td) * 1000000 + microseconds td.

(** The first occurrence of the bracketed pattern in [line]. *)
Definition first_occurrence (line pre text post : str) : Prop :=
  occurs_at line pre text post
  /\ forall pre' text' post',
      occurs_at line pre' text' post' ->
      (List.length pre <= List.length pre')%nat.

(** The bracketed pattern does not occur in [line]. *)
Definition timestamp_missing (line : str) : Prop :=
  forall pre text post, ~ occurs_at line pre text post.

(** The captured text fails to parse: the numbers written in it are not a
    date of the calendar and a time of the day, or [strptime] rejects it. *)
Definition fails_to_parse (text : str) : Prop :=
  valid_calendar_text text = false \/ exists e, strptime text = Raise e.

(** The clock reading at the start of a run in world [w]. *)
Definition now_of (w : world) : datetime :=
  wall_clock w (List.length (trace w)).

(** A world at its start in which the clock shows [now], every path
    exists and opens, reading delivers [lines] without failure, and
    standard output takes and flushes every line. *)
Definition scenario_world (now : datetime) (lines : list str) : world :=
  mk_world (fun _ => now) (fun _ => true)
           (fun _ => inr (mk_text_file lines None)) (fun _ => None) false [].

(** The input of scenarios A and B, the line of scenario D, and the
    same lines with the line terminator Python delivers them with. *)
Definition scenario_lines : list str :=
  [py "[2025-11-22T10:00:00] ERROR: disk full";
   py "[2025-11-22T09:00:00] ERROR: disk full";
   py "no timestamp here ERROR"].

Definition scenario_D_line : str := py "[2025-13-99T99:99:99] ERROR".

Definition terminated (lines : list str) : list str :=
  map (fun line => line ++ [10%N]) lines.

Definition scenario_now : datetime := mk_datetime 2025 11 22 10 30 0 0.

(** the alternatives of a directive are one or two characters long *)
Definition short (alts : list (list char_class)) : Prop :=
  Forall (fun alt => List.length alt = 1%nat \/ List.length alt = 2%nat) alts.

(** A table without decimal digits outside ASCII, and one with the
    Arabic-Indic digits U+0660 to U+0669. *)
Definition ascii_digits : char -> option Z := fun _ => None.

Definition arabic_indic_digits : char -> option Z :=
  fun c => if ((1632 <=? c) && (c <=? 1641))%N then Some (Z.of_N c - 1632)
           else None.

Definition half_past_nine : datetime := mk_datetime 2025 11 22 9 30 0 0.
Definition ten_o_clock : datetime := mk_datetime 2025 11 22 10 0 0 0.

Definition scenario_file : text_file := mk_text_file scenario_lines None.

(** The world of the scenarios with a standard output that buffers
    every line and cannot be flushed at exit (a full disk), and with one
    whose encoding has no lone surrogates (U+D800 to U+DFFF, which a
    command-line argument that is not UTF-8 brings in). *)
Definition full_disk_world : world :=
  mk_world (fun _ => scenario_now) (fun _ => true)
           (fun _ => inr scenario_file) (fun _ => None) true [].

Definition has_surrogate (text : str) : bool :=
  existsb (fun c => (55296 <=? c) && (c <=? 57343))%N text.

Definition strict_stdout_world : world :=
  mk_world (fun _ => scenario_now) (fun _ => true)
           (fun _ => inr scenario_file)
           (fun text => if has_surrogate text
                        then Some (FailEncode (py "surrogates not allowed"))
                        else None)
           false [].

(** a line whose first bracketed text has month 13 and whose second one is
    a date and time *)
Definition retried_line : str :=
  py "[2025-13-01T00:00:00] retry [2025-11-22T10:00:00] ERROR".

(** The world the run of scenario B leaves behind, in which a second run
    starts. *)
Definition after_first_run : world :=
  log_all (EvNow scenario_now :: EvOpen (py "app.log")
           :: map EvLine scenario_lines)
          (scenario_world scenario_now scenario_lines).

(** A world in which reading fails after two delivered lines, both of
    which count. *)
Definition failing_world : world :=
  mk_world (fun _ => scenario_now) (fun _ => true)
           (fun _ => inr (mk_text_file
                            [py "[2025-11-22T10:00:00] ERROR: disk full";
                             py "[2025-11-22T10:10:00] ERROR: disk full"]
                            (Some (FailDecode (py "invalid start byte")))))
           (fun _ => None) false [].

(** The text that writes a timestamp the way the script's docstring
    shows it, [2025-11-22T10:30:45] without the brackets: ASCII digits,
    zero-padded. *)
Definition digit_char (n : Z) : char := Z.to_N (48 + n).

Definition two_digits (n : Z) : str :=
  [digit_char (n / 10); digit_char (n mod 10)].

Definition four_digits (n : Z) : str :=
  [digit_char (n / 1000); digit_char (n / 100 mod 10);
   digit_char (n / 10 mod 10); digit_char (n mod 10)].

Definition written (t : datetime) : str :=
  four_digits (year t) ++ py "-" ++ two_digits (month t) ++ py "-"
  ++ two_digits (day t) ++ py "T" ++ two_digits (hour t) ++ py ":"
  ++ two_digits (minute t) ++ py ":" ++ two_digits (second t).

(** The alternatives of a directive. *)
Definition alternatives_of (item : re_item) : list (list char_class) :=
  match item with
  | Group alternatives => alternatives
  | Lit _ => []
  end.

(** Some alternative of a directive takes both digits of [n]. *)
Definition takes_two_digits (alts : list (list char_class)) (n : Z) : bool :=
  existsb (fun alt => Nat.eqb (List.length alt) 2
                      && in_classes alt (two_digits n)) alts.

(** A directive at the end of the pattern takes both digits of [n]. *)
Definition takes_last_two_digits (alts : list (list char_class)) (n : Z)
  : bool :=
  match re_match [Group alts] (two_digits n) with
  | Some ([[a; b]], []) =>
      N.eqb a (digit_char (n / 10)) && N.eqb b (digit_char (n mod 10))
  | _ => false
  end.

(** The line carries a timestamp at or after the instant [bound]
    (microseconds since 0001-01-01T00:00:00). *)
Definition stamped_since (bound : Z) (line : str) : bool :=
  match parse_timestamp line with
  | Ok (Some t) => bound <=? micros_since_epoch t
  | _ => false
  end.

(** The month and the day [month_day] finds are a month and a day of
    that month. *)
Definition month_day_valid (leapyear : bool) (n : Z) : bool :=
  let '(m, d) := month_day n leapyear in
  between 1 m 12
  && between 1 d (if (m =? 2) && leapyear then 29
                  else Calendar.index Calendar._DAYS_IN_MONTH m).

(** The instants [datetime] can represent, in microseconds since
    0001-01-01T00:00:00: up to the end of the year 9999. *)
Definition representable (instant : Z) : Prop :=
  0 <= instant < Calendar._MAXORDINAL * 86400000000.

(** ** Properties *)

(** *** Substrings *)

Lemma startswith_iff (p s : str) :
  startswith p s = true <-> exists post, s = p ++ post.
Proof.
  revert s; induction p as [|x p IH]; intros s; simpl.
  - split; [intros _; now exists s | reflexivity].
  - destruct s as [|y s].
    + split; [discriminate | intros [post H]; discriminate].
    + rewrite andb_true_iff, N.eqb_eq, IH. split.
      * intros [-> [post ->]]. now exists post.
      * intros [post H]. injection H as -> ->. split; [reflexivity|now exists post].
Qed.

Lemma str_contains_iff (line keyword : str) :
  str_contains line keyword = true <->
  exists pre post, line = pre ++ keyword ++ post.
Proof.
  induction line as [|c line IH]; simpl.
  - rewrite orb_false_r, startswith_iff. split.
    + intros [post H]. now exists [], post.
    + intros [pre [post H]]. destruct pre; [now exists post|discriminate].
  - rewrite orb_true_iff, startswith_iff, IH. split.
    + intros [[post H] | [pre [post H]]].
      * now exists [], post.
      * exists (c :: pre), post. simpl. now rewrite H.
    + intros [[|x pre] [post H]].
      * left. now exists post.
      * right. injection H as _ H. now exists pre, post.
Qed.

Lemma str_contains_empty (line : str) : str_contains line [] = true.
Proof. destruct line; reflexivity. Qed.

(** *** Matching *)

Lemma match_classes_iff (cs : list char_class) (s m r : str) :
  match_classes cs s = Some (m, r) <->
  s = m ++ r /\ in_classes cs m = true.
Proof.
  revert s m r; induction cs as [|c cs IH]; intros s m r; simpl.
  - split.
    + intros H; injection H as <- <-. now split.
    + intros [-> H]. destruct m; [reflexivity|discriminate].
  - destruct s as [|x s].
    + split; [discriminate|]. intros [H1 H2].
      destruct m; [discriminate|discriminate].
    + destruct (c x) eqn:Hc.
      * destruct (match_classes cs s) as [[m' r']|] eqn:Hm.
        -- apply IH in Hm. destruct Hm as [-> Hin]. split.
           ++ intros H; injection H as <- <-. simpl. now rewrite Hc.
           ++ intros [H1 H2]. destruct m as [|y m]; [discriminate|].
              injection H1 as <- H1. apply andb_true_iff in H2.
              destruct H2 as [_ H2].
              assert (Hm : match_classes cs (m' ++ r') = Some (m, r))
                by (apply IH; now split).
              assert (Hm' : match_classes cs (m' ++ r') = Some (m', r'))
                by (apply IH; now split).
              rewrite Hm in Hm'. injection Hm' as -> ->. reflexivity.
        -- split; [discriminate|]. intros [H1 H2].
           destruct m as [|y m]; [discriminate|].
           injection H1 as <- H1. apply andb_true_iff in H2.
           destruct H2 as [_ H2].
           assert (Hm' : match_classes cs s = Some (m, r))
             by (apply IH; now split).
           rewrite Hm in Hm'. discriminate.
      * split; [discriminate|]. intros [H1 H2].
        destruct m as [|y m]; [discriminate|].
        injection H1 as <- H1. apply andb_true_iff in H2.
        destruct H2 as [H2 _]. congruence.
Qed.

Lemma in_classes_length (cs : list char_class) (m : str) :
  in_classes cs m = true -> List.length m = List.length cs.
Proof.
  revert m; induction cs as [|c cs IH]; intros [|x m]; simpl;
    try discriminate; [reflexivity|].
  intros H. apply andb_true_iff in H. destruct H as [_ H].
  now rewrite (IH _ H).
Qed.

Lemma app_inj_length {A} (a b x y : list A) :
  List.length a = List.length b -> a ++ x = b ++ y -> a = b /\ x = y.
Proof.
  revert b; induction a as [|u a IH]; intros [|v b]; simpl;
    try discriminate; [now split|].
  intros Hl H. injection Hl as Hl. injection H as -> H.
  destruct (IH _ Hl H) as [-> ->]. now split.
Qed.

(** The script's pattern matches at the start of [s] exactly when [s]
    starts with a bracketed text of the right shape, which is then the
    captured group. *)
Lemma re_match_timestamp_re (s : str) (gs : list str) (rest : str) :
  re_match timestamp_re s = Some (gs, rest) <->
  exists text, gs = [text] /\ s = chr "[" :: text ++ chr "]" :: rest
               /\ is_timestamp_text text = true.
Proof.
  unfold timestamp_re, is_timestamp_text.
  cbn [re_match].
  destruct s as [|x s].
  - split; [discriminate|]. intros [text [_ [H _]]]. discriminate.
  - unfold re_lit at 1. destruct (N.eqb x (chr "[")) eqn:Hx.
    + apply N.eqb_eq in Hx. subst x.
      destruct (match_classes timestamp_text s) as [[m r]|] eqn:Hm.
      * apply match_classes_iff in Hm. destruct Hm as [-> Hin].
        destruct r as [|y r].
        -- split; [discriminate|]. intros [text [_ [H Ht]]].
           injection H as H.
           assert (Hl := f_equal (@List.length _) H).
           rewrite !length_app, (in_classes_length _ _ Hin),
             (in_classes_length _ _ Ht) in Hl. simpl in Hl. lia.
        -- unfold re_lit at 1. destruct (N.eqb y (chr "]")) eqn:Hy.
           ++ apply N.eqb_eq in Hy. subst y. split.
              ** intros H; injection H as <- <-. now exists m.
              ** intros [text [-> [H Ht]]]. injection H as H.
                 assert (Hl : List.length m = List.length text)
                   by now rewrite (in_classes_length _ _ Hin),
                        (in_classes_length _ _ Ht).
                 apply (app_inj_length _ _ _ _ Hl) in H.
                 destruct H as [-> H]. injection H as ->. reflexivity.
           ++ split; [discriminate|]. intros [text [_ [H Ht]]].
              injection H as H.
              assert (Hl : List.length m = List.length text)
                by now rewrite (in_classes_length _ _ Hin),
                     (in_classes_length _ _ Ht).
              apply (app_inj_length _ _ _ _ Hl) in H.
              destruct H as [_ H]. injection H as -> _.
              rewrite N.eqb_refl in Hy. discriminate.
      * split; [discriminate|]. intros [text [_ [H Ht]]].
        injection H as H.
        assert (Hm' : match_classes timestamp_text s
                      = Some (text, chr "]" :: rest))
          by (apply match_classes_iff; now split).
        rewrite Hm in Hm'. discriminate.
    + split; [discriminate|]. intros [text [_ [H _]]].
      injection H as -> _. rewrite N.eqb_refl in Hx. discriminate.
Qed.

(** [re.search] returns the match at the leftmost position that has
    one, and none when no position has one. *)
Lemma re_search_none (items : list re_item) (s : str) :
  (forall pre s', s = pre ++ s' -> re_match items s' = None) ->
  re_search items s = None.
Proof.
  induction s as [|x s IH]; intros H; simpl.
  - now rewrite (H [] [] eq_refl).
  - rewrite (H [] (x :: s) eq_refl). apply IH.
    intros pre s' ->. apply (H (x :: pre) s'). reflexivity.
Qed.

Lemma re_search_leftmost (items : list re_item) (pre s' : str)
      (gs : list str) (rest : str) :
  re_match items s' = Some (gs, rest) ->
  (forall pre1 s1, pre ++ s' = pre1 ++ s1 ->
                   (List.length pre1 < List.length pre)%nat ->
                   re_match items s1 = None) ->
  re_search items (pre ++ s') = Some gs.
Proof.
  intros Hm. induction pre as [|x pre IH]; intros Hfirst.
  - simpl. destruct s'; simpl; now rewrite Hm.
  - simpl. rewrite (Hfirst [] (x :: pre ++ s') eq_refl) by (simpl; lia).
    apply IH. intros pre1 s1 H Hl.
    apply (Hfirst (x :: pre1) s1); simpl; [now rewrite H | lia].
Qed.

Lemma re_search_some (items : list re_item) (s : str) (gs : list str) :
  re_search items s = Some gs ->
  exists pre s' rest,
    s = pre ++ s' /\ re_match items s' = Some (gs, rest).
Proof.
  induction s as [|x s IH]; simpl.
  - destruct (re_match items []) as [[gs' rest]|] eqn:Hm; [|discriminate].
    intros H; injection H as <-. now exists [], [], rest.
  - destruct (re_match items (x :: s)) as [[gs' rest]|] eqn:Hm.
    + intros H; injection H as <-. now exists [], (x :: s), rest.
    + intros H. destruct (IH H) as [pre [s' [rest [-> Hm']]]].
      now exists (x :: pre), s', rest.
Qed.

(** *** [strptime] raises nothing but [ValueError] *)

Lemma int_raises (s : str) (e : exn) :
  int s = Raise e -> is_ValueError e = true.
Proof.
  unfold int. destruct (strip s); [intros H; now injection H as <-|].
  destruct (digits_value _ 0); [discriminate|].
  intros H; now injection H as <-.
Qed.

Lemma datetime_new_raises (y m d hh mm ss us : Z) (e : exn) :
  datetime_new y m d hh mm ss us = Raise e -> is_ValueError e = true.
Proof.
  unfold datetime_new, _check_date_fields, _check_time_fields, rbind.
  repeat match goal with
         | |- context [if ?b then _ else _] => destruct b
         end; try discriminate; intros H; now injection H as <-.
Qed.

Lemma datetime_new_ok (y m d hh mm ss us : Z) (t : datetime) :
  datetime_new y m d hh mm ss us = Ok t <->
  t = mk_datetime y m d hh mm ss us /\ valid_datetime t = true.
Proof.
  unfold datetime_new, _check_date_fields, _check_time_fields, rbind,
    valid_datetime.
  split.
  - repeat match goal with
           | |- context [if negb ?b then _ else _] =>
               destruct b eqn:?; cbn [negb]
           end; try discriminate.
    intros H; injection H as <-. simpl. split; [reflexivity|].
    repeat match goal with Hb : _ = true |- _ => rewrite Hb; clear Hb end.
    reflexivity.
  - intros [-> H]. simpl in H. rewrite !andb_true_iff in H.
    destruct H as [[[[[[? ?] ?] ?] ?] ?] ?].
    repeat match goal with
           | Hb : ?b = true |- context [if negb ?b then _ else _] =>
               rewrite Hb; cbn [negb]
           end.
    reflexivity.
Qed.

Lemma strptime_raises (s : str) (e : exn) :
  strptime s = Raise e -> is_ValueError e = true.
Proof.
  unfold strptime.
  destruct (re_match format_regex s) as [[found rest]|];
    [|intros H; now injection H as <-].
  destruct rest; [|intros H; now injection H as <-].
  unfold rbind.
  repeat match goal with
         | |- context [match int ?x with _ => _ end] =>
             let Hi := fresh "Hi" in
             destruct (int x) eqn:Hi;
             [|intros H; injection H as <-; exact (int_raises _ _ Hi)]
         end.
  apply datetime_new_raises.
Qed.

(** [parse_timestamp] always returns: the timestamp [strptime] reads
    from the first match, or none. *)
Lemma parse_timestamp_eq (line : str) :
  parse_timestamp line =
  Ok match re_search timestamp_re line with
     | Some m =>
         match strptime (group m 1) with
         | Ok t => Some t
         | Raise _ => None
         end
     | None => None
     end.
Proof.
  unfold parse_timestamp.
  destruct (re_search timestamp_re line) as [m|]; [|reflexivity].
  destruct (strptime (group m 1)) as [t|e] eqn:Hs; [reflexivity|].
  now rewrite (strptime_raises _ _ Hs).
Qed.

Lemma parse_timestamp_total (line : str) :
  exists r, parse_timestamp line = Ok r.
Proof. rewrite parse_timestamp_eq. eauto. Qed.

(** *** The loop of [count_matches] *)

Lemma count_line_eq (keyword : str) (cutoff_time : option datetime)
      (line : str) (count : Z) :
  count_line keyword cutoff_time line count =
  Ok (if spec_line_counts keyword cutoff_time line then count + 1
      else count).
Proof.
  unfold count_line, spec_line_counts.
  destruct (str_contains line keyword); [|reflexivity]. simpl.
  destruct cutoff_time as [cutoff|]; [|reflexivity].
  rewrite parse_timestamp_eq. simpl.
  destruct (re_search timestamp_re line) as [m|]; [|reflexivity].
  destruct (strptime (group m 1)) as [t|]; [|reflexivity].
  now destruct (datetime_ge t cutoff).
Qed.

Lemma log_all_nil (w : world) : log_all [] w = w.
Proof. destruct w. unfold log_all. simpl. now rewrite app_nil_r. Qed.

Lemma log_all_log (e : event) (es : list event) (w : world) :
  log_all es (log e w) = log_all (e :: es) w.
Proof. unfold log_all, log. simpl. now rewrite <- app_assoc. Qed.

Lemma log_all_app (es1 es2 : list event) (w : world) :
  log_all es2 (log_all es1 w) = log_all (es1 ++ es2) w.
Proof. unfold log_all. simpl. now rewrite <- app_assoc. Qed.

Lemma log_is_log_all (e : event) (w : world) : log e w = log_all [e] w.
Proof. reflexivity. Qed.

Lemma for_lines_count (keyword : str) (cutoff_time : option datetime)
      (lines : list str) (err : option io_failure) (count : Z)
      (w : world) :
  for_lines lines err
            (fun line count =>
               lift (count_line keyword cutoff_time line count))
            count w
  = (match err with
     | None => Ok (count + spec_count keyword cutoff_time lines)
     | Some failure => Raise (io_exn failure)
     end,
     log_all (map EvLine lines) w).
Proof.
  revert count w; induction lines as [|line lines IH]; intros count w.
  - simpl. rewrite log_all_nil. unfold spec_count. simpl.
    destruct err; [reflexivity|]. unfold ret. now rewrite Z.add_0_r.
  - cbn [for_lines]. unfold bind at 1. unfold lift at 1.
    rewrite count_line_eq. rewrite IH, log_all_log. cbn [map].
    f_equal. destruct err; [reflexivity|]. f_equal.
    unfold spec_count. cbn [filter].
    destruct (spec_line_counts keyword cutoff_time line);
      cbn [List.length]; lia.
Qed.

(** *** The three ways a run of [count_matches] can go *)

Lemma count_matches_no_cutoff (filename keyword : str) (hours : option Z)
      (w : world) (e : exn) :
  window_cutoff w hours = Raise e ->
  count_matches filename keyword hours w
  = (Raise e, log_all (clock_events w hours) w).
Proof.
  unfold window_cutoff, count_matches. destruct hours as [h|];
    [|discriminate].
  unfold bind, datetime_now, lift, rbind. simpl.
  destruct (cutoff_of _ h); [discriminate|].
  intros H; injection H as <-. reflexivity.
Qed.

Lemma count_matches_no_file (filename keyword : str) (hours : option Z)
      (w : world) (cutoff_time : option datetime) (failure : io_failure) :
  window_cutoff w hours = Ok cutoff_time ->
  open_file w filename = inl failure ->
  count_matches filename keyword hours w
  = (Raise (io_exn failure),
     log_all (clock_events w hours ++ [EvOpen filename]) w).
Proof.
  unfold window_cutoff, count_matches. intros Hc Ho.
  destruct hours as [h|].
  - unfold bind, datetime_now, lift, rbind, ret, open_utf8 in *. simpl.
    destruct (cutoff_of _ h); [|discriminate]. simpl.
    rewrite Ho. now rewrite (log_is_log_all (EvOpen filename)), log_all_log.
  - unfold bind, ret, open_utf8. simpl. now rewrite Ho.
Qed.

Lemma count_matches_file (filename keyword : str) (hours : option Z)
      (w : world) (cutoff_time : option datetime) (f : text_file) :
  window_cutoff w hours = Ok cutoff_time ->
  open_file w filename = inr f ->
  count_matches filename keyword hours w
  = (match read_error f with
     | None => Ok (spec_count keyword cutoff_time (delivered f))
     | Some failure => Raise (io_exn failure)
     end,
     log_all (clock_events w hours
              ++ EvOpen filename :: map EvLine (delivered f)) w).
Proof.
  unfold window_cutoff, count_matches. intros Hc Ho.
  destruct hours as [h|].
  - unfold bind at 1. unfold bind at 1. unfold datetime_now.
    unfold bind at 1. unfold lift at 1. unfold rbind in Hc.
    destruct (cutoff_of _ h) as [cutoff|]; [|discriminate].
    injection Hc as <-. unfold ret at 1. unfold bind at 1.
    unfold open_utf8. cbn [open_file log]. rewrite Ho.
    rewrite for_lines_count, !log_all_log. reflexivity.
  - injection Hc as <-. unfold bind at 1. unfold ret at 1.
    unfold bind at 1. unfold open_utf8. rewrite Ho.
    rewrite for_lines_count, log_all_log. reflexivity.
Qed.

(** *** The ways a run of [main] can go *)

Lemma print_eq (text : str) (w : world) :
  print text w
  = (print_result (write_error w) [text],
     log_all (map EvPrint (printed (write_error w) [text])) w).
Proof.
  unfold print. cbn [print_result printed].
  destruct (write_error w text); cbn [map].
  - now rewrite log_all_nil.
  - now rewrite log_is_log_all.
Qed.

Lemma main_eq (logfile keyword : str) (hours : option Z) (w : world) :
  main logfile keyword hours w =
  let found := path_exists w logfile in
  let w1 := log (EvExists logfile found) w in
  let report (lines : list str) (r : result unit) (w' : world) :=
    (match print_result (write_error w') lines with
     | Ok _ => r
     | Raise e => Raise e
     end,
     log_all (map EvPrint (printed (write_error w') lines)) w') in
  if found then
    match count_matches logfile keyword hours w1 with
    | (Ok count, w2) => report (summary logfile keyword hours count) (Ok tt) w2
    | (Raise e, w2) =>
        if is_Exception e
        then report [py "Error reading file: " ++ exn_str e]
                    (Raise (SystemExit 1)) w2
        else (Raise e, w2)
    end
  else
    report [py "Error: File '" ++ logfile ++ py "' not found."]
           (Raise (SystemExit 1)) w1.
Proof.
  unfold main. unfold bind at 1. unfold os_path_exists. cbv zeta.
  destruct (path_exists w logfile); cbn [negb].
  - unfold bind at 1. unfold ret at 1. unfold bind at 1.
    unfold try_except_Exception.
    destruct (count_matches logfile keyword hours _) as [[count|e] w2].
    + unfold summary, bind, print. cbn [print_result printed].
      destruct hours;
        repeat match goal with
          | |- context [match write_error w2 ?t with _ => _ end] =>
              destruct (write_error w2 t);
              [cbn [map];
               rewrite ?log_is_log_all, ?log_all_app, ?log_all_nil;
               reflexivity|];
              cbn [write_error log]
          end;
        rewrite !log_is_log_all, !log_all_app; reflexivity.
    + destruct (is_Exception e); [|reflexivity].
      unfold bind. rewrite print_eq. cbn [print_result printed].
      destruct (write_error w2 _); [reflexivity|].
      unfold sys_exit, raise. reflexivity.
  - unfold bind. rewrite print_eq. cbn [print_result printed write_error log].
    destruct (write_error w _); [reflexivity|].
    unfold sys_exit, raise. reflexivity.
Qed.

(** *** Printing *)

Lemma print_result_ok (oracle : str -> option write_failure)
      (lines : list str) :
  print_result oracle lines = Ok tt <-> all_written oracle lines.
Proof.
  unfold all_written. induction lines as [|line rest IH]; cbn.
  - split; [intros _ line []|reflexivity].
  - destruct (oracle line) as [failure|] eqn:Hw.
    + split; [discriminate|].
      intros H. specialize (H line (or_introl eq_refl)). congruence.
    + rewrite IH. split.
      * intros H l [<-|Hl]; [exact Hw|exact (H l Hl)].
      * intros H l Hl. apply H. now right.
Qed.

Lemma print_result_raise (oracle : str -> option write_failure)
      (lines : list str) (e : exn) :
  print_result oracle lines = Raise e -> exists failure, e = write_exn failure.
Proof.
  induction lines as [|line rest IH]; cbn; [discriminate|].
  destruct (oracle line) as [failure|]; [|exact IH].
  intros H. injection H as <-. now exists failure.
Qed.

Lemma printed_all (oracle : str -> option write_failure)
      (lines : list str) :
  all_written oracle lines -> printed oracle lines = lines.
Proof.
  unfold all_written. induction lines as [|line rest IH]; cbn;
    [reflexivity|].
  intros H. rewrite (H line (or_introl eq_refl)). f_equal.
  apply IH. intros l Hl. apply H. now right.
Qed.

Lemma flat_map_prints (lines : list str) :
  flat_map (fun e => match e with EvPrint t => [t] | _ => [] end)
           (map EvPrint lines) = lines.
Proof. induction lines; simpl; congruence. Qed.

(** The status of a run that prints [lines] and then ends as [r] does. *)
Lemma report_status (oracle : str -> option write_failure)
      (lines : list str) (r : result unit) :
  let status (r : result unit) :=
    match r with
    | Ok _ => 0
    | Raise (SystemExit code) => code
    | Raise _ => 1
    end in
  status match print_result oracle lines with
         | Ok _ => r
         | Raise e => Raise e
         end
  = match print_result oracle lines with
    | Ok _ => status r
    | Raise _ => 1
    end.
Proof.
  cbv zeta. destruct (print_result oracle lines) as [[]|e] eqn:H;
    [reflexivity|].
  apply print_result_raise in H. destruct H as [[msg|msg] ->]; reflexivity.
Qed.

Lemma stdout_log_all (es : list event) (w : world) :
  stdout (log_all es w)
  = stdout w
    ++ flat_map (fun e => match e with EvPrint t => [t] | _ => [] end) es.
Proof. unfold stdout, log_all. simpl. now rewrite flat_map_app. Qed.

Lemma lines_read_log_all (es : list event) (w : world) :
  lines_read (log_all es w)
  = lines_read w
    ++ flat_map (fun e => match e with EvLine l => [l] | _ => [] end) es.
Proof. unfold lines_read, log_all. simpl. now rewrite flat_map_app. Qed.

Lemma clock_readings_log_all (es : list event) (w : world) :
  clock_readings (log_all es w)
  = clock_readings w
    ++ flat_map (fun e => match e with EvNow t => [t] | _ => [] end) es.
Proof. unfold clock_readings, log_all. simpl. now rewrite flat_map_app. Qed.

Lemma flat_map_lines (lines : list str) :
  flat_map (fun e => match e with EvLine l => [l] | _ => [] end)
           (map EvLine lines) = lines.
Proof. induction lines; simpl; congruence. Qed.

Lemma flat_map_lines_prints (lines : list str) :
  flat_map (fun e => match e with EvPrint t => [t] | _ => [] end)
           (map EvLine lines) = [].
Proof. induction lines; simpl; congruence. Qed.

Lemma flat_map_lines_clock (lines : list str) :
  flat_map (fun e => match e with EvNow t => [t] | _ => [] end)
           (map EvLine lines) = [].
Proof. induction lines; simpl; congruence. Qed.

(** *** [strptime] on a text of the shape YYYY-MM-DDTHH:MM:SS *)

Lemma re_match_group_eq (alt : list char_class)
      (alts : list (list char_class)) (items : list re_item) (s : str) :
  re_match (Group (alt :: alts) :: items) s =
  match match_classes alt s with
  | Some (m, r) =>
      match re_match items r with
      | Some (gs, rest) => Some (m :: gs, rest)
      | None => re_match (Group alts :: items) s
      end
  | None => re_match (Group alts :: items) s
  end.
Proof. reflexivity. Qed.

Lemma re_match_lit_eq (c : char_class) (items : list re_item) (x : char)
      (s : str) :
  re_match (Lit c :: items) (x :: s)
  = if c x then re_match items s else None.
Proof. reflexivity. Qed.

Ltac prove_short :=
  unfold short;
  repeat (apply Forall_cons; [simpl; auto|]); apply Forall_nil.

(** A directive followed by a separator that is not a digit takes both
    of two digits. *)
Lemma re_match_two_digits (alts : list (list char_class))
      (sep : char_class) (items : list re_item) (a b : char) (s : str)
      (gs : list str) (rest : str) :
  short alts -> sep b = false ->
  re_match (Group alts :: Lit sep :: items) (a :: b :: s) = Some (gs, rest) ->
  exists gs', gs = [a; b] :: gs'
              /\ re_match (Lit sep :: items) s = Some (gs', rest).
Proof.
  intros Hshort Hsep. induction Hshort as [|alt alts Hlen _ IH].
  - discriminate.
  - rewrite re_match_group_eq.
    destruct (match_classes alt (a :: b :: s)) as [[m r]|] eqn:Hm;
      [|exact IH].
    apply match_classes_iff in Hm. destruct Hm as [Hs Hin].
    apply in_classes_length in Hin.
    destruct Hlen as [Hlen|Hlen]; rewrite Hlen in Hin.
    + destruct m as [|x [|y m]]; try discriminate.
      injection Hs as Ha Hr. subst x r. cbn [re_match]. rewrite Hsep.
      exact IH.
    + destruct m as [|x [|y [|z m]]]; try discriminate.
      injection Hs as Ha Hb Hr. subst x y. rewrite <- Hr.
      destruct (re_match (Lit sep :: items) s) as [[gs' rest']|] eqn:Hs;
        [|exact IH].
      intros H; injection H as <- <-. now exists gs'.
Qed.

(** The last directive must take both of the last two digits, or text
    remains. *)
Lemma re_match_last_two_digits (alts : list (list char_class))
      (a b : char) (gs : list str) :
  short alts ->
  re_match [Group alts] [a; b] = Some (gs, []) -> gs = [[a; b]].
Proof.
  intros Hshort. induction Hshort as [|alt alts Hlen _ IH].
  - discriminate.
  - rewrite re_match_group_eq.
    destruct (match_classes alt [a; b]) as [[m r]|] eqn:Hm; [|exact IH].
    apply match_classes_iff in Hm. destruct Hm as [Hs Hin].
    cbn [re_match]. intros H; injection H as <- ->.
    rewrite app_nil_r in Hs. now subst m.
Qed.

Lemma re_d_not_lit (a : ascii) (c : char) :
  decimal_value (chr a) = None -> re_d c = true -> re_lit a c = false.
Proof.
  unfold re_d, re_lit. intros Ha Hc. destruct (N.eqb c (chr a)) eqn:E;
    [|reflexivity].
  apply N.eqb_eq in E. subst c. now rewrite Ha in Hc.
Qed.

Lemma re_d_not_lit_i (a b : ascii) (c : char) :
  decimal_value (chr a) = None -> decimal_value (chr b) = None ->
  re_d c = true -> re_lit_i a b c = false.
Proof.
  unfold re_lit_i. intros Ha Hb Hc. apply orb_false_iff. split.
  - exact (re_d_not_lit a c Ha Hc).
  - exact (re_d_not_lit b c Hb Hc).
Qed.

(** On a text of the script's shape, the groups [strptime] finds, if
    its pattern matches the whole text, are the digits between the
    separators. *)
Lemma format_regex_groups (text : str) (gs : list str) :
  is_timestamp_text text = true ->
  re_match format_regex text = Some (gs, []) ->
  gs = [firstn 4 text; firstn 2 (skipn 5 text); firstn 2 (skipn 8 text);
        firstn 2 (skipn 11 text); firstn 2 (skipn 14 text);
        firstn 2 (skipn 17 text)].
Proof.
  unfold is_timestamp_text, timestamp_text. intros Hshape.
  do 19 (destruct text as [|? text];
         [cbn [in_classes] in Hshape;
          rewrite ?andb_false_r in Hshape; discriminate|]).
  destruct text; [|cbn [in_classes] in Hshape;
                   rewrite !andb_false_r in Hshape; discriminate].
  cbn [in_classes] in Hshape. rewrite !andb_true_iff in Hshape.
  repeat match goal with H : _ /\ _ |- _ => destruct H end.
  repeat match goal with
         | H : re_lit _ _ = true |- _ => apply N.eqb_eq in H; subst
         end.
  unfold format_regex.
  (* %Y: four digits *)
  unfold dir_Y at 1. rewrite re_match_group_eq.
  cbn [match_classes].
  repeat match goal with H : re_d _ = true |- _ => rewrite H end.
  match goal with
  | |- context [re_match ?items ?s] =>
      destruct (re_match items s) as [[gs1 r1]|] eqn:Hrest
  end; [|discriminate].
  intros Hgs; injection Hgs as <- ->.
  (* the separators and the two-digit directives *)
  repeat
    (rewrite re_match_lit_eq in Hrest;
     first [ unfold re_lit at 1 in Hrest; rewrite N.eqb_refl in Hrest
           | unfold re_lit_i at 1 in Hrest; rewrite N.eqb_refl in Hrest;
             cbn [orb] in Hrest ];
     first [ apply re_match_two_digits in Hrest;
             [ destruct Hrest as [? [-> Hrest]]
             | prove_short
             | first [ apply re_d_not_lit | apply re_d_not_lit_i ];
               first [ reflexivity | assumption ] ]
           | apply re_match_last_two_digits in Hrest;
             [ subst | prove_short ] ]).
  reflexivity.
Qed.

(** [int] on digits reads their number. *)
Lemma lstrip_digit (c : char) (s : str) :
  re_d c = true -> lstrip (c :: s) = c :: s.
Proof.
  intros Hc. simpl. destruct (N.eqb c 32) eqn:E; [|reflexivity].
  apply N.eqb_eq in E. subst c. discriminate.
Qed.

Lemma strip_digits (s : str) :
  Forall (fun c => re_d c = true) s -> strip s = s.
Proof.
  intros Hs. unfold strip. destruct Hs as [|c s Hc Hs]; [reflexivity|].
  rewrite (lstrip_digit _ _ Hc).
  assert (Hrev : Forall (fun c => re_d c = true) (rev (c :: s)))
    by (apply Forall_rev; now constructor).
  remember (rev (c :: s)) as l eqn:El.
  destruct Hrev as [|x l Hx _].
  - apply (f_equal (@rev _)) in El. rewrite rev_involutive in El.
    discriminate.
  - rewrite (lstrip_digit _ _ Hx), El. apply rev_involutive.
Qed.

Lemma int_digits (s : str) (n : Z) :
  Forall (fun c => re_d c = true) s ->
  int s = Ok n -> digits_value s 0 = Some n.
Proof.
  intros Hs. unfold int. rewrite (strip_digits _ Hs).
  destruct s; [discriminate|].
  destruct (digits_value _ 0); [|discriminate].
  intros H; now injection H as <-.
Qed.

(** If [strptime] reads a timestamp from a text of the script's shape,
    the numbers written in the text are its fields, and they are a date
    of the calendar and a time of the day. *)
Lemma strptime_timestamp_text (text : str) (t : datetime) :
  is_timestamp_text text = true ->
  strptime text = Ok t ->
  valid_calendar_text text = true
  /\ number_at text 0 4 = Some (year t)
  /\ number_at text 5 7 = Some (month t)
  /\ number_at text 8 10 = Some (day t)
  /\ number_at text 11 13 = Some (hour t)
  /\ number_at text 14 16 = Some (minute t)
  /\ number_at text 17 19 = Some (second t)
  /\ microsecond t = 0.
Proof.
  intros Hshape. unfold strptime.
  destruct (re_match format_regex text) as [[found rest]|] eqn:Hm;
    [|discriminate].
  destruct rest; [|discriminate].
  rewrite (format_regex_groups _ _ Hshape Hm). clear Hm found.
  unfold is_timestamp_text, timestamp_text in Hshape.
  do 19 (destruct text as [|? text];
         [cbn [in_classes] in Hshape;
          rewrite ?andb_false_r in Hshape; discriminate|]).
  destruct text; [|cbn [in_classes] in Hshape;
                   rewrite !andb_false_r in Hshape; discriminate].
  cbn [in_classes] in Hshape. rewrite !andb_true_iff in Hshape.
  repeat match goal with H : _ /\ _ |- _ => destruct H end.
  unfold valid_calendar_text, number_at, group.
  cbn [firstn skipn nth Nat.sub].
  unfold rbind.
  repeat match goal with
         | |- context [match int ?x with _ => _ end] =>
             let Hi := fresh "Hi" in
             destruct (int x) eqn:Hi; [|discriminate];
             apply int_digits in Hi; [rewrite Hi|repeat constructor; assumption]
         end.
  intros Hnew. apply datetime_new_ok in Hnew. destruct Hnew as [-> Hv].
  rewrite Hv. cbn [year month day hour minute second microsecond].
  repeat split; reflexivity.
Qed.

(** *** Where [parse_timestamp] looks *)

Lemma re_search_timestamp_absent (line : str) :
  (forall pre text post, ~ occurs_at line pre text post) ->
  re_search timestamp_re line = None.
Proof.
  intros Habsent. apply re_search_none. intros pre s' ->.
  destruct (re_match timestamp_re s') as [[gs rest]|] eqn:Hm;
    [|reflexivity].
  apply re_match_timestamp_re in Hm. destruct Hm as [text [_ [-> Ht]]].
  exfalso. apply (Habsent pre text rest). now split.
Qed.

Lemma re_search_timestamp_first (line pre text post : str) :
  occurs_at line pre text post ->
  (forall pre' text' post',
      occurs_at line pre' text' post' ->
      (List.length pre <= List.length pre')%nat) ->
  re_search timestamp_re line = Some [text].
Proof.
  intros [-> Ht] Hfirst.
  apply (re_search_leftmost timestamp_re pre _ [text] post).
  - apply re_match_timestamp_re. now exists text.
  - intros pre1 s1 Heq Hlen.
    destruct (re_match timestamp_re s1) as [[gs rest]|] eqn:Hm;
      [|reflexivity].
    apply re_match_timestamp_re in Hm. destruct Hm as [text1 [_ [-> Ht1]]].
    assert (Hocc : occurs_at (pre ++ chr "[" :: text ++ chr "]" :: post)
                             pre1 text1 rest) by now split.
    apply Hfirst in Hocc. lia.
Qed.

Lemma parse_timestamp_absent (line : str) :
  (forall pre text post, ~ occurs_at line pre text post) ->
  parse_timestamp line = Ok None.
Proof.
  intros H. rewrite parse_timestamp_eq.
  now rewrite (re_search_timestamp_absent _ H).
Qed.

Lemma parse_timestamp_first (line pre text post : str) :
  occurs_at line pre text post ->
  (forall pre' text' post',
      occurs_at line pre' text' post' ->
      (List.length pre <= List.length pre')%nat) ->
  parse_timestamp line
  = Ok match strptime text with
       | Ok t => Some t
       | Raise _ => None
       end.
Proof.
  intros Hocc Hfirst. rewrite parse_timestamp_eq.
  now rewrite (re_search_timestamp_first _ _ _ _ Hocc Hfirst).
Qed.

Lemma parse_timestamp_first_invalid (line pre text post : str) :
  occurs_at line pre text post ->
  (forall pre' text' post',
      occurs_at line pre' text' post' ->
      (List.length pre <= List.length pre')%nat) ->
  valid_calendar_text text = false ->
  parse_timestamp line = Ok None.
Proof.
  intros Hocc Hfirst Hbad.
  rewrite (parse_timestamp_first _ _ _ _ Hocc Hfirst).
  destruct (strptime text) as [t|] eqn:Hs; [|reflexivity].
  destruct Hocc as [_ Hshape].
  destruct (strptime_timestamp_text _ _ Hshape Hs) as [Hv _].
  rewrite Hv in Hbad. discriminate.
Qed.

(** A timestamp that [parse_timestamp] returns was read from the first
    occurrence of the pattern, and is a date of the calendar. *)
Lemma parse_timestamp_some (line : str) (t : datetime) :
  parse_timestamp line = Ok (Some t) ->
  exists pre text post,
    occurs_at line pre text post
    /\ strptime text = Ok t
    /\ valid_calendar_text text = true
    /\ valid_datetime t = true.
Proof.
  rewrite parse_timestamp_eq.
  destruct (re_search timestamp_re line) as [m|] eqn:Hs; [|discriminate].
  destruct (strptime (group m 1)) as [t'|] eqn:Hp; [|discriminate].
  intros H; injection H as ->.
  apply re_search_some in Hs. destruct Hs as [pre [s' [rest [-> Hm]]]].
  apply re_match_timestamp_re in Hm. destruct Hm as [text [-> [-> Ht]]].
  cbn in Hp. exists pre, text, rest. split; [now split|].
  split; [exact Hp|]. split.
  - now destruct (strptime_timestamp_text _ _ Ht Hp).
  - unfold strptime in Hp.
    destruct (re_match format_regex text) as [[found r]|]; [|discriminate].
    destruct r; [|discriminate]. unfold rbind in Hp.
    repeat match type of Hp with
           | context [match int ?x with _ => _ end] =>
               destruct (int x); [|discriminate]
           end.
    now apply datetime_new_ok in Hp.
Qed.

(** *** The calendar: the date of the [n]-th day is the [n]-th day *)

Lemma all_from_spec (f : Z -> bool) (fuel : nat) (n k : Z) :
  all_from f fuel n = true -> n <= k < n + Z.of_nat fuel -> f k = true.
Proof.
  revert n; induction fuel as [|fuel IH]; intros n; simpl.
  - lia.
  - intros H Hk. apply andb_true_iff in H. destruct H as [Hn H].
    destruct (Z.eq_dec k n) as [->|Hne]; [exact Hn|].
    apply (IH (n + 1) H). lia.
Qed.

(** the days of a year, by computation *)
Lemma month_day_ok_all (leapyear : bool) :
  all_from (month_day_ok leapyear) 365 0 = true.
Proof. destruct leapyear; vm_compute; reflexivity. Qed.

Lemma ord2ymd_eq (n : Z) :
  Calendar._ord2ymd n =
  let n0 := n - 1 in
  let n400 := n0 / 146097 in
  let r0 := n0 mod 146097 in
  let n100 := r0 / 36524 in
  let r1 := r0 mod 36524 in
  let n4 := r1 / 1461 in
  let r2 := r1 mod 1461 in
  let n1 := r2 / 365 in
  let r3 := r2 mod 365 in
  let year := n400 * 400 + 1 + (n100 * 100 + n4 * 4 + n1) in
  if (n1 =? 4) || (n100 =? 4) then (year - 1, 12, 31)
  else
    let '(m, d) :=
      month_day r3 ((n1 =? 3) && (negb (n4 =? 24) || (n100 =? 3))) in
    (year, m, d).
Proof.
  unfold Calendar._ord2ymd, month_day, Calendar._DI400Y, Calendar._DI100Y,
    Calendar._DI4Y. cbv zeta.
  destruct (_ || _); [reflexivity|].
  destruct (_ <? _); reflexivity.
Qed.

(** one cycle of 400 years *)
Lemma cycle_roundtrips (r : Z) :
  0 <= r < 146097 ->
  let '(y, m, d) := Calendar._ord2ymd (r + 1) in
  Calendar._ymd2ord y m d = r + 1.
Proof.
  intros Hr. rewrite ord2ymd_eq. cbv zeta.
  replace (r + 1 - 1) with r by lia.
  rewrite (Z.div_small _ _ Hr), (Z.mod_small _ _ Hr).
  assert (H100 := Z.div_mod r 36524 ltac:(lia)).
  assert (B100 := Z.mod_pos_bound r 36524 ltac:(lia)).
  set (n100 := r / 36524) in *. set (r1 := r mod 36524) in *.
  assert (H4 := Z.div_mod r1 1461 ltac:(lia)).
  assert (B4 := Z.mod_pos_bound r1 1461 ltac:(lia)).
  set (n4 := r1 / 1461) in *. set (r2 := r1 mod 1461) in *.
  assert (H1 := Z.div_mod r2 365 ltac:(lia)).
  assert (B1 := Z.mod_pos_bound r2 365 ltac:(lia)).
  set (n1 := r2 / 365) in *. set (r3 := r2 mod 365) in *.
  clearbody n100 r1 n4 r2 n1 r3.
  assert (0 <= n100 <= 4 /\ 0 <= n4 <= 24 /\ 0 <= n1 <= 4) by lia.
  destruct ((n1 =? 4) || (n100 =? 4)) eqn:Hspecial.
  - (* the last day of a leap year *)
    unfold Calendar._ymd2ord, Calendar._days_before_month,
      Calendar._days_before_year, Calendar._is_leap. cbv zeta.
    change (Calendar.index Calendar._DAYS_BEFORE_MONTH 12) with 334.
    change (2 <? 12) with true. cbn [andb].
    apply orb_true_iff in Hspecial. rewrite !Z.eqb_eq in Hspecial.
    assert (Hleap :
              ((0 * 400 + 1 + (n100 * 100 + n4 * 4 + n1) - 1) mod 4 =? 0)
              && (negb ((0 * 400 + 1 + (n100 * 100 + n4 * 4 + n1) - 1)
                          mod 100 =? 0)
                  || ((0 * 400 + 1 + (n100 * 100 + n4 * 4 + n1) - 1)
                        mod 400 =? 0)) = true).
    { destruct (Z.eq_dec n100 4) as [E|E].
      - replace (0 * 400 + 1 + (n100 * 100 + n4 * 4 + n1) - 1) with 400
          by lia. reflexivity.
      - apply andb_true_iff. split.
        + apply Z.eqb_eq. Z.to_euclidean_division_equations; lia.
        + apply orb_true_iff. left. apply negb_true_iff, Z.eqb_neq.
          Z.to_euclidean_division_equations; lia. }
    rewrite Hleap. Z.to_euclidean_division_equations; lia.
  - apply orb_false_iff in Hspecial. rewrite !Z.eqb_neq in Hspecial.
    set (leapyear := (n1 =? 3) && (negb (n4 =? 24) || (n100 =? 3))).
    assert (Hmd := all_from_spec _ _ 0 r3 (month_day_ok_all leapyear)
                                 ltac:(lia)).
    unfold month_day_ok in Hmd.
    destruct (month_day r3 leapyear) as [m d].
    apply Z.eqb_eq in Hmd.
    assert (Hleap :
              Calendar._is_leap (0 * 400 + 1 + (n100 * 100 + n4 * 4 + n1))
              = leapyear).
    { unfold Calendar._is_leap, leapyear.
      repeat match goal with
             | |- context [?a =? ?b] =>
                 destruct (Z.eqb_spec a b)
             end; cbn [andb orb negb]; try reflexivity; exfalso;
        Z.to_euclidean_division_equations; lia. }
    unfold Calendar._ymd2ord, Calendar._days_before_month. rewrite Hleap.
    unfold Calendar._days_before_year. cbv zeta.
    clearbody leapyear.
    Z.to_euclidean_division_equations; lia.
Qed.

Lemma is_leap_shift (y k : Z) :
  Calendar._is_leap (y + 400 * k) = Calendar._is_leap y.
Proof.
  unfold Calendar._is_leap.
  replace ((y + 400 * k) mod 4) with (y mod 4)
    by (Z.to_euclidean_division_equations; lia).
  replace ((y + 400 * k) mod 100) with (y mod 100)
    by (Z.to_euclidean_division_equations; lia).
  replace ((y + 400 * k) mod 400) with (y mod 400)
    by (Z.to_euclidean_division_equations; lia).
  reflexivity.
Qed.

Lemma ymd2ord_shift (y m d k : Z) :
  Calendar._ymd2ord (y + 400 * k) m d
  = Calendar._ymd2ord y m d + 146097 * k.
Proof.
  unfold Calendar._ymd2ord, Calendar._days_before_month,
    Calendar._days_before_year.
  rewrite is_leap_shift. cbv zeta.
  Z.to_euclidean_division_equations; lia.
Qed.

Lemma ord2ymd_shift (n : Z) :
  Calendar._ord2ymd n
  = let '(y, m, d) := Calendar._ord2ymd ((n - 1) mod 146097 + 1) in
    (y + 400 * ((n - 1) / 146097), m, d).
Proof.
  unfold Calendar._ord2ymd, Calendar._DI400Y.
  replace ((n - 1) mod 146097 + 1 - 1) with ((n - 1) mod 146097) by lia.
  assert (Hr : 0 <= (n - 1) mod 146097 < 146097)
    by (apply Z.mod_pos_bound; lia).
  rewrite (Z.div_small _ _ Hr), (Z.mod_small _ _ Hr). cbv zeta.
  repeat match goal with
         | |- context [if ?b then _ else _] => destruct b
         end; f_equal; try f_equal; lia.
Qed.

Lemma ymd2ord_ord2ymd (n : Z) :
  let '(y, m, d) := Calendar._ord2ymd n in Calendar._ymd2ord y m d = n.
Proof.
  rewrite ord2ymd_shift.
  assert (Hr : 0 <= (n - 1) mod 146097 < 146097)
    by (apply Z.mod_pos_bound; lia).
  assert (Hc := cycle_roundtrips _ Hr).
  destruct (Calendar._ord2ymd ((n - 1) mod 146097 + 1)) as [[y m] d].
  rewrite ymd2ord_shift, Hc.
  Z.to_euclidean_division_equations; lia.
Qed.

(** *** What [datetime - timedelta] computes *)

Lemma timedelta_new_micros (d s us mi h : Z) (td : timedelta) :
  timedelta_new d s us mi h = Ok td ->
  timedelta_micros td
  = (d * 86400 + s + mi * 60 + h * 3600) * 1000000 + us
  /\ 0 <= seconds td < 86400 /\ 0 <= microseconds td < 1000000.
Proof.
  unfold timedelta_new, timedelta_micros. cbv zeta.
  destruct (_ <? _); [discriminate|].
  intros H; injection H as <-. cbn [days seconds microseconds].
  change (24 * 3600) with 86400.
  Z.to_euclidean_division_equations; lia.
Qed.

Lemma datetime_add_micros (t t' : datetime) (td : timedelta) :
  datetime_add t td = Ok t' ->
  micros_since_epoch t' = micros_since_epoch t + timedelta_micros td
  /\ valid_datetime t' = true.
Proof.
  unfold datetime_add, rbind.
  destruct (timedelta_new (toordinal t) _ _ _ _) as [d1|] eqn:H1;
    [|discriminate].
  unfold timedelta_add.
  destruct (timedelta_new (days d1 + days td) _ _ 0 0) as [delta|] eqn:H2;
    [|discriminate].
  destruct (_ && _); [|discriminate].
  assert (Hrt := ymd2ord_ord2ymd (days delta)).
  destruct (Calendar._ord2ymd (days delta)) as [[y m] d].
  intros Hnew. apply datetime_new_ok in Hnew. destruct Hnew as [-> Hv].
  split; [|exact Hv].
  apply timedelta_new_micros in H1, H2.
  destruct H1 as [H1 _]. destruct H2 as [H2 [Hs Hus]].
  unfold micros_since_epoch, toordinal, timedelta_micros in *.
  cbn [year month day hour minute second microsecond].
  rewrite Hrt.
  Z.to_euclidean_division_equations; lia.
Qed.

Lemma cutoff_of_micros (now cutoff : datetime) (hours : Z) :
  cutoff_of now hours = Ok cutoff ->
  micros_since_epoch cutoff = micros_since_epoch now - hours * 3600000000
  /\ valid_datetime cutoff = true.
Proof.
  unfold cutoff_of, datetime_sub, timedelta_neg, rbind.
  destruct (timedelta_new 0 0 0 0 hours) as [td|] eqn:H1; [|discriminate].
  destruct (timedelta_new (- days td) _ _ 0 0) as [neg|] eqn:H2;
    [|discriminate].
  intros Hadd. apply datetime_add_micros in Hadd.
  destruct Hadd as [Hadd Hv]. split; [|exact Hv].
  apply timedelta_new_micros in H1, H2.
  destruct H1 as [H1 _]. destruct H2 as [H2 _].
  unfold timedelta_micros in *. lia.
Qed.

Lemma re_search_finds (items : list re_item) (pre s' : str)
      (gs : list str) (rest : str) :
  re_match items s' = Some (gs, rest) ->
  exists gs', re_search items (pre ++ s') = Some gs'.
Proof.
  intros Hm. induction pre as [|x pre IH]; simpl.
  - exists gs. destruct s'; simpl; now rewrite Hm.
  - destruct (re_match items (x :: pre ++ s')) as [[gs1 r1]|];
      [now exists gs1 | exact IH].
Qed.

Lemma timestamp_missing_iff (line : str) :
  timestamp_missing line <-> re_search timestamp_re line = None.
Proof.
  split; [apply re_search_timestamp_absent|].
  intros Hnone pre text post [-> Ht].
  destruct (re_search_finds timestamp_re pre
              (chr "[" :: text ++ chr "]" :: post) [text] post) as [gs Hgs].
  - apply re_match_timestamp_re. now exists text.
  - rewrite Hnone in Hgs. discriminate.
Qed.

Lemma parse_timestamp_unreadable (line : str) :
  timestamp_missing line
  \/ (exists pre text post,
         first_occurrence line pre text post /\ fails_to_parse text) ->
  parse_timestamp line = Ok None.
Proof.
  intros [Hmiss | [pre [text [post [[Hocc Hfirst] Hfail]]]]].
  - now apply parse_timestamp_absent.
  - destruct Hfail as [Hbad | [e He]].
    + exact (parse_timestamp_first_invalid _ _ _ _ Hocc Hfirst Hbad).
    + rewrite (parse_timestamp_first _ _ _ _ Hocc Hfirst). now rewrite He.
Qed.

(** *** Comparison *)

Lemma tuple_cmp_refl (x : list Z) : tuple_cmp x x = Eq.
Proof.
  induction x as [|a x IH]; [reflexivity|]. simpl.
  now rewrite Z.compare_refl.
Qed.

Lemma datetime_ge_refl (t : datetime) : datetime_ge t t = true.
Proof. unfold datetime_ge, datetime_cmp. now rewrite tuple_cmp_refl. Qed.

Lemma datetime_ge_lt (a b : datetime) :
  datetime_ge a b = negb (datetime_lt a b).
Proof. unfold datetime_ge, datetime_lt. now destruct (datetime_cmp a b). Qed.

(** *** The cutoff computation raises nothing that [main] does not
    catch *)

Lemma timedelta_new_raises (d s us mi h : Z) (e : exn) :
  timedelta_new d s us mi h = Raise e -> is_Exception e = true.
Proof.
  unfold timedelta_new. cbv zeta. destruct (_ <? _); [|discriminate].
  intros H; now injection H as <-.
Qed.

Lemma cutoff_of_raises (now : datetime) (hours : Z) (e : exn) :
  cutoff_of now hours = Raise e -> is_Exception e = true.
Proof.
  unfold cutoff_of, datetime_sub, timedelta_neg, datetime_add,
    timedelta_add, rbind.
  repeat match goal with
         | |- context [match timedelta_new ?a ?b ?c ?d ?f with _ => _ end] =>
             let Ht := fresh "Ht" in
             destruct (timedelta_new a b c d f) eqn:Ht;
             [|intros H; injection H as <-;
               exact (timedelta_new_raises _ _ _ _ _ _ Ht)]
         end.
  destruct (_ && _); [|intros H; now injection H as <-].
  destruct (Calendar._ord2ymd _) as [[y m] d].
  intros H. apply datetime_new_raises in H. now destruct e.
Qed.

Lemma window_cutoff_raises (w : world) (hours : option Z) (e : exn) :
  window_cutoff w hours = Raise e -> is_Exception e = true.
Proof.
  unfold window_cutoff. destruct hours as [h|]; [|discriminate].
  unfold rbind. destruct (cutoff_of _ h) eqn:Hc; [discriminate|].
  intros H; injection H as <-. exact (cutoff_of_raises _ _ _ Hc).
Qed.

Lemma spec_line_counts_unbounded (keyword : str)
      (cutoff_time : option datetime) (line : str) :
  spec_line_counts keyword cutoff_time line = true ->
  spec_line_counts keyword None line = true.
Proof.
  unfold spec_line_counts. intros H. apply andb_true_iff in H.
  destruct H as [-> _]. reflexivity.
Qed.

Lemma spec_count_bounds (keyword : str) (cutoff_time : option datetime)
      (lines : list str) :
  0 <= spec_count keyword cutoff_time lines
  <= spec_count keyword None lines
  /\ spec_count keyword None lines <= Z.of_nat (List.length lines).
Proof.
  unfold spec_count. induction lines as [|line lines IH];
    cbn [filter List.length]; [lia|].
  assert (Hm := spec_line_counts_unbounded keyword cutoff_time line).
  destruct (spec_line_counts keyword cutoff_time line).
  - rewrite (Hm eq_refl). cbn [List.length]. lia.
  - destruct (spec_line_counts keyword None line); cbn [List.length]; lia.
Qed.

Lemma spec_count_app (keyword : str) (cutoff_time : option datetime)
      (before after : list str) :
  spec_count keyword cutoff_time (before ++ after)
  = spec_count keyword cutoff_time before
    + spec_count keyword cutoff_time after.
Proof.
  unfold spec_count. rewrite filter_app, length_app. lia.
Qed.

Lemma spec_count_empty_keyword (lines : list str) :
  spec_count [] None lines = Z.of_nat (List.length lines).
Proof.
  unfold spec_count. f_equal. induction lines as [|line lines IH];
    [reflexivity|].
  simpl. unfold spec_line_counts at 1. rewrite str_contains_empty. simpl.
  now rewrite IH.
Qed.

(** *** Comparison of dates of the calendar is comparison of instants *)

Lemma days_before_next_year (y : Z) :
  Calendar._days_before_year (y + 1)
  = Calendar._days_before_year y + 365
    + (if Calendar._is_leap y then 1 else 0).
Proof.
  unfold Calendar._days_before_year, Calendar._is_leap. cbv zeta.
  repeat match goal with
         | |- context [?a =? ?b] => destruct (Z.eqb_spec a b)
         end; cbn [andb orb negb];
    Z.to_euclidean_division_equations; lia.
Qed.

Lemma days_before_year_mono (y y' : Z) :
  y <= y' -> Calendar._days_before_year y <= Calendar._days_before_year y'.
Proof.
  unfold Calendar._days_before_year. cbv zeta. intros H.
  Z.to_euclidean_division_equations; lia.
Qed.

Lemma month_cases (m : Z) :
  1 <= m <= 12 ->
  m = 1 \/ m = 2 \/ m = 3 \/ m = 4 \/ m = 5 \/ m = 6 \/ m = 7 \/ m = 8
  \/ m = 9 \/ m = 10 \/ m = 11 \/ m = 12.
Proof. lia. Qed.

Ltac calendar_tables :=
  cbv [Calendar.index Calendar._DAYS_IN_MONTH Calendar._DAYS_BEFORE_MONTH
       nth Z.to_nat Pos.to_nat Pos.iter_op Nat.add Z.eqb Z.ltb Z.compare
       Pos.compare Pos.compare_cont Pos.eqb andb].

Ltac each_month m H :=
  destruct (month_cases m H) as
    [->|[->|[->|[->|[->|[->|[->|[->|[->|[->|[->| ->]]]]]]]]]]].

Lemma day_of_year_bounds (y m d : Z) :
  1 <= m <= 12 -> 1 <= d <= Calendar._days_in_month y m ->
  1 <= Calendar._days_before_month y m + d
  <= 365 + (if Calendar._is_leap y then 1 else 0).
Proof.
  intros Hm. unfold Calendar._days_in_month, Calendar._days_before_month.
  destruct (Calendar._is_leap y); each_month m Hm; calendar_tables; lia.
Qed.

Lemma day_of_year_mono (y m d m' d' : Z) :
  1 <= m -> m < m' -> m' <= 12 ->
  d <= Calendar._days_in_month y m -> 1 <= d' ->
  Calendar._days_before_month y m + d < Calendar._days_before_month y m' + d'.
Proof.
  intros H1 Hlt H12.
  assert (Hm : 1 <= m <= 12) by lia.
  assert (Hm' : 1 <= m' <= 12) by lia.
  unfold Calendar._days_in_month, Calendar._days_before_month.
  destruct (Calendar._is_leap y); each_month m Hm; each_month m' Hm';
    try lia; calendar_tables; lia.
Qed.

(** [datetime] compares field by field; on dates of the calendar this is
    the order of the instants. *)
Lemma datetime_cmp_chronological (a b : datetime) :
  valid_datetime a = true -> valid_datetime b = true ->
  datetime_cmp a b = (micros_since_epoch a ?= micros_since_epoch b).
Proof.
  unfold valid_datetime, between. intros Ha Hb.
  rewrite !andb_true_iff, !Z.leb_le in Ha, Hb.
  destruct a as [y m d hh mm ss us], b as [y' m' d' hh' mm' ss' us'].
  cbn [year month day hour minute second microsecond] in Ha, Hb.
  unfold datetime_cmp, datetime_fields, micros_since_epoch, toordinal,
    Calendar._ymd2ord, Calendar.MINYEAR, Calendar.MAXYEAR in *.
  cbn [year month day hour minute second microsecond tuple_cmp].
  assert (Da := day_of_year_bounds y m d ltac:(lia) ltac:(lia)).
  assert (Db := day_of_year_bounds y' m' d' ltac:(lia) ltac:(lia)).
  symmetry.
  destruct (Z.compare_spec y y') as [->|Hy|Hy].
  - destruct (Z.compare_spec m m') as [->|Hm|Hm].
    + destruct (Z.compare_spec d d') as [->|Hd|Hd];
        [|apply Z.compare_lt_iff; lia|apply Z.compare_gt_iff; lia].
      destruct (Z.compare_spec hh hh') as [->|Hh|Hh];
        [|apply Z.compare_lt_iff; lia|apply Z.compare_gt_iff; lia].
      destruct (Z.compare_spec mm mm') as [->|Hmi|Hmi];
        [|apply Z.compare_lt_iff; lia|apply Z.compare_gt_iff; lia].
      destruct (Z.compare_spec ss ss') as [->|Hs|Hs];
        [|apply Z.compare_lt_iff; lia|apply Z.compare_gt_iff; lia].
      destruct (Z.compare_spec us us') as [->|Hu|Hu];
        [apply Z.compare_refl|apply Z.compare_lt_iff; lia
         |apply Z.compare_gt_iff; lia].
    + assert (Hmono := day_of_year_mono y' m d m' d'
                         ltac:(lia) Hm ltac:(lia) ltac:(lia) ltac:(lia)).
      apply Z.compare_lt_iff. lia.
    + assert (Hmono := day_of_year_mono y' m' d' m d
                         ltac:(lia) Hm ltac:(lia) ltac:(lia) ltac:(lia)).
      apply Z.compare_gt_iff. lia.
  - assert (Hn := days_before_next_year y).
    assert (Hmono := days_before_year_mono (y + 1) y' ltac:(lia)).
    apply Z.compare_lt_iff. lia.
  - assert (Hn := days_before_next_year y').
    assert (Hmono := days_before_year_mono (y' + 1) y ltac:(lia)).
    apply Z.compare_gt_iff. lia.
Qed.

Lemma datetime_ge_chronological (a b : datetime) :
  valid_datetime a = true -> valid_datetime b = true ->
  datetime_ge a b = (micros_since_epoch b <=? micros_since_epoch a).
Proof.
  intros Ha Hb. unfold datetime_ge.
  rewrite (datetime_cmp_chronological _ _ Ha Hb).
  destruct (Z.compare_spec (micros_since_epoch a) (micros_since_epoch b));
    symmetry; [apply Z.leb_le|apply Z.leb_gt|apply Z.leb_le]; lia.
Qed.

(** *** Every timestamp written in the format is read back *)

Lemma decimal_value_digit_char (k : Z) :
  0 <= k <= 9 -> decimal_value (digit_char k) = Some k.
Proof.
  intros Hk.
  assert (H : k = 0 \/ k = 1 \/ k = 2 \/ k = 3 \/ k = 4 \/ k = 5 \/ k = 6
              \/ k = 7 \/ k = 8 \/ k = 9) by lia.
  destruct H as [->|[->|[->|[->|[->|[->|[->|[->|[->| ->]]]]]]]]];
    reflexivity.
Qed.

Lemma re_d_digit_char (k : Z) : 0 <= k <= 9 -> re_d (digit_char k) = true.
Proof.
  intros Hk. unfold re_d. now rewrite (decimal_value_digit_char _ Hk).
Qed.

Lemma int_two_digits (n : Z) : 0 <= n <= 99 -> int (two_digits n) = Ok n.
Proof.
  intros Hn.
  assert (H1 : 0 <= n / 10 <= 9) by (Z.to_euclidean_division_equations; lia).
  assert (H2 : 0 <= n mod 10 <= 9) by (Z.to_euclidean_division_equations; lia).
  unfold int, two_digits. rewrite strip_digits.
  - cbn [digits_value].
    rewrite (decimal_value_digit_char _ H1), (decimal_value_digit_char _ H2).
    f_equal. Z.to_euclidean_division_equations; lia.
  - repeat constructor; now apply re_d_digit_char.
Qed.

Lemma int_four_digits (n : Z) : 0 <= n <= 9999 -> int (four_digits n) = Ok n.
Proof.
  intros Hn.
  assert (H1 : 0 <= n / 1000 <= 9)
    by (Z.to_euclidean_division_equations; lia).
  assert (H2 : 0 <= n / 100 mod 10 <= 9)
    by (Z.to_euclidean_division_equations; lia).
  assert (H3 : 0 <= n / 10 mod 10 <= 9)
    by (Z.to_euclidean_division_equations; lia).
  assert (H4 : 0 <= n mod 10 <= 9)
    by (Z.to_euclidean_division_equations; lia).
  unfold int, four_digits. rewrite strip_digits.
  - cbn [digits_value].
    rewrite (decimal_value_digit_char _ H1), (decimal_value_digit_char _ H2),
      (decimal_value_digit_char _ H3), (decimal_value_digit_char _ H4).
    f_equal. Z.to_euclidean_division_equations; lia.
  - repeat constructor; now apply re_d_digit_char.
Qed.

(** A directive followed by a separator that is not a digit: if one of
    its alternatives takes both digits, the match goes on after them. *)
Lemma re_match_takes_two_digits (alts : list (list char_class))
      (sep : char_class) (items : list re_item) (n : Z) (s : str)
      (gs : list str) (rest : str) :
  short alts -> takes_two_digits alts n = true ->
  sep (digit_char (n mod 10)) = false ->
  re_match (Lit sep :: items) s = Some (gs, rest) ->
  re_match (Group alts :: Lit sep :: items) (two_digits n ++ s)
  = Some (two_digits n :: gs, rest).
Proof.
  intros Hshort Htakes Hsep Hcont. unfold takes_two_digits in Htakes.
  induction Hshort as [|alt alts Hlen _ IH]; [discriminate|].
  rewrite re_match_group_eq.
  destruct (match_classes alt (two_digits n ++ s)) as [[m r]|] eqn:Hm.
  - apply match_classes_iff in Hm. destruct Hm as [Hs Hin].
    assert (Hl := in_classes_length _ _ Hin).
    destruct Hlen as [Hlen|Hlen]; rewrite Hlen in Hl.
    + destruct m as [|x [|y m]]; try discriminate.
      injection Hs as Hx Hr. subst r. rewrite re_match_lit_eq, Hsep.
      apply IH. cbn [existsb] in Htakes. rewrite Hlen in Htakes.
      exact Htakes.
    + destruct m as [|x [|y [|z m]]]; try discriminate.
      injection Hs as Hx Hy Hr. subst x y r. now rewrite Hcont.
  - apply IH. cbn [existsb] in Htakes.
    apply orb_true_iff in Htakes. destruct Htakes as [Htakes|Htakes];
      [|exact Htakes].
    apply andb_true_iff in Htakes. destruct Htakes as [_ Hin].
    assert (Hm' : match_classes alt (two_digits n ++ s)
                  = Some (two_digits n, s))
      by (apply match_classes_iff; now split).
    rewrite Hm in Hm'. discriminate.
Qed.

(** the numbers each directive has to take, by computation *)
Lemma dir_m_takes_months :
  all_from (takes_two_digits (alternatives_of dir_m)) 12 1 = true.
Proof. vm_compute. reflexivity. Qed.

Lemma dir_d_takes_days :
  all_from (takes_two_digits (alternatives_of dir_d)) 31 1 = true.
Proof. vm_compute. reflexivity. Qed.

Lemma dir_H_takes_hours :
  all_from (takes_two_digits (alternatives_of dir_H)) 24 0 = true.
Proof. vm_compute. reflexivity. Qed.

Lemma dir_M_takes_minutes :
  all_from (takes_two_digits (alternatives_of dir_M)) 60 0 = true.
Proof. vm_compute. reflexivity. Qed.

Lemma dir_S_takes_seconds :
  all_from (takes_last_two_digits (alternatives_of dir_S)) 60 0 = true.
Proof. vm_compute. reflexivity. Qed.

Lemma short_directives :
  short (alternatives_of dir_m) /\ short (alternatives_of dir_d)
  /\ short (alternatives_of dir_H) /\ short (alternatives_of dir_M).
Proof. repeat split; prove_short. Qed.

Lemma re_match_last_takes_two_digits (alts : list (list char_class)) (n : Z) :
  takes_last_two_digits alts n = true ->
  re_match [Group alts] (two_digits n) = Some ([two_digits n], []).
Proof.
  unfold takes_last_two_digits.
  destruct (re_match [Group alts] (two_digits n)) as [[gs rest]|];
    [|discriminate].
  destruct gs as [|[|a [|b [|? ?]]] [|? ?]]; try discriminate.
  destruct rest; [|discriminate].
  intros H. apply andb_true_iff in H. destruct H as [Ha Hb].
  apply N.eqb_eq in Ha, Hb. now subst.
Qed.

Lemma digit_char_not_lit (a : ascii) (n : Z) :
  decimal_value (chr a) = None -> re_lit a (digit_char (n mod 10)) = false.
Proof.
  intros Ha. apply re_d_not_lit; [exact Ha|].
  apply re_d_digit_char. Z.to_euclidean_division_equations; lia.
Qed.

Lemma digit_char_not_lit_i (a b : ascii) (n : Z) :
  decimal_value (chr a) = None -> decimal_value (chr b) = None ->
  re_lit_i a b (digit_char (n mod 10)) = false.
Proof.
  intros Ha Hb. apply re_d_not_lit_i; [exact Ha|exact Hb|].
  apply re_d_digit_char. Z.to_euclidean_division_equations; lia.
Qed.

Lemma valid_datetime_bounds (t : datetime) :
  valid_datetime t = true ->
  1 <= year t <= 9999 /\ 1 <= month t <= 12 /\ 1 <= day t <= 31
  /\ 0 <= hour t <= 23 /\ 0 <= minute t <= 59 /\ 0 <= second t <= 59.
Proof.
  unfold valid_datetime, between, Calendar.MINYEAR, Calendar.MAXYEAR.
  rewrite !andb_true_iff, !Z.leb_le.
  intros [[[[[[Hy Hm] Hd] Hh] Hmi] Hs] _].
  assert (Hd31 : 1 <= day t <= 31).
  { revert Hd. unfold Calendar._days_in_month.
    destruct (Calendar._is_leap (year t)); each_month (month t) Hm;
      calendar_tables; lia. }
  repeat split; lia.
Qed.

(** [strptime] reads a written timestamp back. *)
Lemma strptime_written (t : datetime) :
  valid_datetime t = true -> microsecond t = 0 ->
  strptime (written t) = Ok t.
Proof.
  intros Hv Hus.
  assert (Hnew : datetime_new (year t) (month t) (day t) (hour t) (minute t)
                              (second t) 0 = Ok t).
  { apply datetime_new_ok. split; [|exact Hv].
    destruct t; cbn in *. now subst. }
  destruct (valid_datetime_bounds _ Hv) as [Hy [Hm [Hd [Hh [Hmi Hs]]]]].
  destruct short_directives as [Sm [Sd [SH SM]]].
  assert (ES : re_match [dir_S] (two_digits (second t))
               = Some ([two_digits (second t)], [])).
  { apply (re_match_last_takes_two_digits (alternatives_of dir_S)).
    apply (all_from_spec _ _ 0 _ dir_S_takes_seconds). lia. }
  assert (EM : re_match [dir_M; Lit (re_lit ":"); dir_S]
                 (two_digits (minute t) ++ chr ":" :: two_digits (second t))
               = Some ([two_digits (minute t); two_digits (second t)], [])).
  { apply (re_match_takes_two_digits (alternatives_of dir_M)).
    - exact SM.
    - apply (all_from_spec _ _ 0 _ dir_M_takes_minutes). lia.
    - now apply digit_char_not_lit.
    - rewrite re_match_lit_eq. unfold re_lit at 1. rewrite N.eqb_refl.
      exact ES. }
  assert (EH : re_match [dir_H; Lit (re_lit ":"); dir_M; Lit (re_lit ":");
                         dir_S]
                 (two_digits (hour t) ++ chr ":" :: two_digits (minute t)
                  ++ chr ":" :: two_digits (second t))
               = Some ([two_digits (hour t); two_digits (minute t);
                        two_digits (second t)], [])).
  { apply (re_match_takes_two_digits (alternatives_of dir_H)).
    - exact SH.
    - apply (all_from_spec _ _ 0 _ dir_H_takes_hours). lia.
    - now apply digit_char_not_lit.
    - rewrite re_match_lit_eq. unfold re_lit at 1. rewrite N.eqb_refl.
      exact EM. }
  assert (ED : re_match [dir_d; Lit (re_lit_i "T" "t"); dir_H;
                         Lit (re_lit ":"); dir_M; Lit (re_lit ":"); dir_S]
                 (two_digits (day t) ++ chr "T" :: two_digits (hour t)
                  ++ chr ":" :: two_digits (minute t)
                  ++ chr ":" :: two_digits (second t))
               = Some ([two_digits (day t); two_digits (hour t);
                        two_digits (minute t); two_digits (second t)], [])).
  { apply (re_match_takes_two_digits (alternatives_of dir_d)).
    - exact Sd.
    - apply (all_from_spec _ _ 1 _ dir_d_takes_days). lia.
    - now apply digit_char_not_lit_i.
    - rewrite re_match_lit_eq. unfold re_lit_i at 1. rewrite N.eqb_refl.
      exact EH. }
  assert (Em : re_match [dir_m; Lit (re_lit "-"); dir_d;
                         Lit (re_lit_i "T" "t"); dir_H;
                         Lit (re_lit ":"); dir_M; Lit (re_lit ":"); dir_S]
                 (two_digits (month t) ++ chr "-" :: two_digits (day t)
                  ++ chr "T" :: two_digits (hour t)
                  ++ chr ":" :: two_digits (minute t)
                  ++ chr ":" :: two_digits (second t))
               = Some ([two_digits (month t); two_digits (day t);
                        two_digits (hour t); two_digits (minute t);
                        two_digits (second t)], [])).
  { apply (re_match_takes_two_digits (alternatives_of dir_m)).
    - exact Sm.
    - apply (all_from_spec _ _ 1 _ dir_m_takes_months). lia.
    - now apply digit_char_not_lit.
    - rewrite re_match_lit_eq. unfold re_lit at 1. rewrite N.eqb_refl.
      exact ED. }
  assert (Hdigits : in_classes [re_d; re_d; re_d; re_d]
                               (four_digits (year t)) = true).
  { unfold four_digits. cbn [in_classes].
    rewrite !re_d_digit_char; [reflexivity|..];
      Z.to_euclidean_division_equations; lia. }
  unfold strptime, written, format_regex.
  change (py "-") with [chr "-"]. change (py "T") with [chr "T"].
  change (py ":") with [chr ":"]. cbn [app].
  unfold dir_Y at 1. rewrite re_match_group_eq.
  match goal with
  | |- context [match_classes ?cs (four_digits ?y ++ ?r)] =>
      replace (match_classes cs (four_digits y ++ r))
        with (Some (four_digits y, r))
        by (symmetry; apply match_classes_iff; now split)
  end.
  rewrite re_match_lit_eq. unfold re_lit at 1. rewrite N.eqb_refl.
  rewrite Em. unfold group. cbn [nth Nat.sub rbind].
  rewrite int_four_digits by lia. cbn [rbind].
  rewrite !int_two_digits by lia. cbn [rbind].
  exact Hnew.
Qed.

Lemma is_timestamp_text_written (t : datetime) :
  valid_datetime t = true -> is_timestamp_text (written t) = true.
Proof.
  intros Hv.
  destruct (valid_datetime_bounds _ Hv) as [Hy [Hm [Hd [Hh [Hmi Hs]]]]].
  unfold is_timestamp_text, timestamp_text, written, four_digits, two_digits.
  change (py "-") with [chr "-"]. change (py "T") with [chr "T"].
  change (py ":") with [chr ":"]. cbn [app in_classes].
  unfold re_lit. rewrite !N.eqb_refl.
  rewrite !re_d_digit_char; [reflexivity|..];
    Z.to_euclidean_division_equations; lia.
Qed.

(** [parse_timestamp] extracts every timestamp written in the format
    between brackets, after any text without an opening bracket and
    before any text. *)
Lemma parse_timestamp_written (t : datetime) (pre post : str) :
  valid_datetime t = true -> microsecond t = 0 ->
  ~ In (chr "[") pre ->
  parse_timestamp (pre ++ chr "[" :: written t ++ chr "]" :: post)
  = Ok (Some t).
Proof.
  intros Hv Hus Hpre.
  rewrite (parse_timestamp_first _ pre (written t) post).
  - now rewrite (strptime_written _ Hv Hus).
  - split; [reflexivity|now apply is_timestamp_text_written].
  - intros pre' text' post' [Heq _].
    destruct (Nat.le_gt_cases (List.length pre) (List.length pre'))
      as [Hle|Hgt]; [exact Hle|exfalso].
    apply Hpre.
    assert (Hn := f_equal (fun l => nth (List.length pre') l 0%N) Heq).
    cbv beta in Hn. rewrite app_nth1 in Hn by exact Hgt.
    rewrite nth_middle in Hn. rewrite <- Hn. now apply nth_In.
Qed.

(** ** The claims *)

(** C1.  [count_matches] counts a line exactly when the keyword occurs
    in it as a contiguous substring (compared code point by code point,
    hence case-sensitively) and either no cutoff is configured or
    [parse_timestamp] extracted a timestamp that is greater than or equal
    to the cutoff; the count it returns is the number of such lines among
    the lines delivered, which it reads in the delivered order. *)
Theorem C1_count_matches_counts_matching_lines
        (w : world) (filename keyword : str) (hours : option Z)
        (cutoff_time : option datetime) (f : text_file) :
  window_cutoff w hours = Ok cutoff_time ->
  open_file w filename = inr f ->
  read_error f = None ->
  (forall line count,
      count_line keyword cutoff_time line count
      = Ok (if spec_line_counts keyword cutoff_time line then count + 1
            else count))
  /\ (forall line,
         spec_line_counts keyword cutoff_time line = true <->
         (exists pre post, line = pre ++ keyword ++ post)
         /\ (cutoff_time = None
             \/ exists cutoff t,
                 cutoff_time = Some cutoff
                 /\ parse_timestamp line = Ok (Some t)
                 /\ datetime_ge t cutoff = true))
  /\ fst (count_matches filename keyword hours w)
     = Ok (Z.of_nat (List.length
                       (filter (spec_line_counts keyword cutoff_time)
                               (delivered f))))
  /\ lines_read (snd (count_matches filename keyword hours w))
     = lines_read w ++ delivered f.
Proof.
  intros Hc Ho Hr. split; [|split; [|split]].
  - intros line count. apply count_line_eq.
  - intros line. unfold spec_line_counts.
    rewrite andb_true_iff, str_contains_iff. split.
    + intros [Hk Ht]. split; [exact Hk|].
      destruct cutoff_time as [cutoff|]; [right|now left].
      destruct (parse_timestamp line) as [[t|]|]; try discriminate.
      now exists cutoff, t.
    + intros [Hk Ht]. split; [exact Hk|].
      destruct Ht as [-> | [cutoff [t [-> [-> Hge]]]]];
        [reflexivity | exact Hge].
  - rewrite (count_matches_file _ _ _ _ _ _ Hc Ho), Hr. reflexivity.
  - rewrite (count_matches_file _ _ _ _ _ _ Hc Ho). cbn [snd].
    rewrite lines_read_log_all, flat_map_app. cbn [flat_map].
    rewrite flat_map_lines. cbn [app].
    destruct hours; reflexivity.
Qed.

(** C2.  A line whose timestamp is missing, or whose first bracketed
    timestamp fails to parse as a date and time, is excluded from a
    windowed count even if the keyword matches; the failure is not
    raised: [parse_timestamp] returns no timestamp, and the count of the
    whole input is the count of the lines before plus the count of the
    lines after. *)
Theorem C2_unparsable_timestamp_is_excluded_silently
        (line : str) :
  timestamp_missing line
  \/ (exists pre text post,
         first_occurrence line pre text post /\ fails_to_parse text) ->
  parse_timestamp line = Ok None
  /\ (forall keyword cutoff count,
         count_line keyword (Some cutoff) line count = Ok count)
  /\ (forall w filename keyword h cutoff before after,
         window_cutoff w (Some h) = Ok (Some cutoff) ->
         open_file w filename
         = inr (mk_text_file (before ++ line :: after) None) ->
         fst (count_matches filename keyword (Some h) w)
         = Ok (spec_count keyword (Some cutoff) before
               + spec_count keyword (Some cutoff) after)).
Proof.
  intros Hbad. apply parse_timestamp_unreadable in Hbad.
  assert (Hline : forall keyword cutoff,
             spec_line_counts keyword (Some cutoff) line = false).
  { intros keyword cutoff. unfold spec_line_counts. rewrite Hbad.
    apply andb_false_r. }
  split; [exact Hbad|split].
  - intros keyword cutoff count. now rewrite count_line_eq, Hline.
  - intros w filename keyword h cutoff before after Hc Ho.
    rewrite (count_matches_file _ _ _ _ _ _ Hc Ho). cbn [fst read_error delivered].
    f_equal. rewrite spec_count_app. f_equal.
    unfold spec_count. cbn [filter]. now rewrite Hline.
Qed.

(** C3.  Under a windowed query, a line that contains the keyword and
    whose extracted timestamp equals the cutoff counts (the bound is
    inclusive), and a line whose extracted timestamp is before the cutoff
    does not count, whether or not it contains the keyword.  "Equal" and
    "before" are those of [datetime]'s comparison, which for a cutoff that
    is a date of the calendar are those of the instants. *)
Theorem C3_cutoff_is_an_inclusive_lower_bound
        (keyword line : str) (cutoff t : datetime) (count : Z) :
  parse_timestamp line = Ok (Some t) ->
  (str_contains line keyword = true -> t = cutoff ->
   count_line keyword (Some cutoff) line count = Ok (count + 1))
  /\ (datetime_lt t cutoff = true ->
      count_line keyword (Some cutoff) line count = Ok count)
  /\ (valid_datetime cutoff = true ->
      str_contains line keyword = true ->
      micros_since_epoch t = micros_since_epoch cutoff ->
      count_line keyword (Some cutoff) line count = Ok (count + 1))
  /\ (valid_datetime cutoff = true ->
      micros_since_epoch t < micros_since_epoch cutoff ->
      count_line keyword (Some cutoff) line count = Ok count).
Proof.
  intros Hp.
  assert (Hv : valid_datetime t = true).
  { destruct (parse_timestamp_some _ _ Hp) as [pre [text [post H]]].
    apply H. }
  split; [|split; [|split]].
  - intros Hk <-. rewrite count_line_eq. unfold spec_line_counts.
    now rewrite Hk, Hp, datetime_ge_refl.
  - intros Hlt. rewrite count_line_eq. unfold spec_line_counts.
    rewrite Hp, datetime_ge_lt, Hlt. now rewrite andb_false_r.
  - intros Hc Hk Heq. rewrite count_line_eq. unfold spec_line_counts.
    rewrite Hk, Hp, (datetime_ge_chronological _ _ Hv Hc), Heq, Z.leb_refl.
    reflexivity.
  - intros Hc Hlt. rewrite count_line_eq. unfold spec_line_counts.
    rewrite Hp, (datetime_ge_chronological _ _ Hv Hc).
    apply Z.leb_gt in Hlt. rewrite Hlt. now rewrite andb_false_r.
Qed.

(** C4.  [parse_timestamp] looks at the first occurrence of the
    bracketed pattern only: without an occurrence it returns no timestamp
    and raises nothing; with one, it returns what [strptime] reads from
    the text captured at the first occurrence, whatever follows it in the
    line, and so no timestamp when that text is not a date and time
    (month 13, say), also when what follows holds a bracketed text that
    is one. *)
Theorem C4_parse_timestamp_reads_first_occurrence_only (line : str) :
  (timestamp_missing line -> parse_timestamp line = Ok None)
  /\ (forall pre text post,
         first_occurrence line pre text post ->
         parse_timestamp line
         = Ok match strptime text with
              | Ok t => Some t
              | Raise _ => None
              end)
  /\ (forall pre text post,
         first_occurrence line pre text post ->
         valid_calendar_text text = false ->
         parse_timestamp line = Ok None).
Proof.
  split; [apply parse_timestamp_absent|split].
  - intros pre text post [Hocc Hfirst].
    exact (parse_timestamp_first _ _ _ _ Hocc Hfirst).
  - intros pre text post [Hocc Hfirst].
    exact (parse_timestamp_first_invalid _ _ _ _ Hocc Hfirst).
Qed.


(** C5.  With a window of [h] hours, [count_matches] reads the clock
    once, before it opens the file and before any line is delivered; the
    cutoff is that reading minus [h] hours; and every line of the run is
    judged against this one cutoff. *)
Theorem C5_cutoff_is_computed_once_at_the_start
        (w : world) (filename keyword : str) (h : Z)
        (cutoff : datetime) (f : text_file) :
  cutoff_of (now_of w) h = Ok cutoff ->
  open_file w filename = inr f ->
  micros_since_epoch cutoff
  = micros_since_epoch (now_of w) - h * 3600 * 1000000
  /\ valid_datetime cutoff = true
  /\ count_matches filename keyword (Some h) w
     = (match read_error f with
        | None =>
            Ok (Z.of_nat
                  (List.length
                     (filter (spec_line_counts keyword (Some cutoff))
                             (delivered f))))
        | Some failure => Raise (io_exn failure)
        end,
        log_all (EvNow (now_of w) :: EvOpen filename
                 :: map EvLine (delivered f)) w)
  /\ clock_readings (snd (count_matches filename keyword (Some h) w))
     = clock_readings w ++ [now_of w]
  /\ for_lines (delivered f) (read_error f)
               (fun line count =>
                  lift (count_line keyword (Some cutoff) line count)) 0
               (log_all [EvNow (now_of w); EvOpen filename] w)
     = count_matches filename keyword (Some h) w.
Proof.
  intros Hc Ho.
  assert (Hw : window_cutoff w (Some h) = Ok (Some cutoff))
    by (unfold window_cutoff; fold (now_of w); now rewrite Hc).
  assert (Hrun := count_matches_file filename keyword _ _ _ _ Hw Ho).
  cbn [clock_events app] in Hrun. fold (now_of w) in Hrun.
  split; [|split; [|split; [|split]]].
  - destruct (cutoff_of_micros _ _ _ Hc) as [Hm _]. rewrite Hm. lia.
  - now destruct (cutoff_of_micros _ _ _ Hc).
  - exact Hrun.
  - rewrite Hrun. cbn [snd]. rewrite clock_readings_log_all.
    cbn [flat_map app]. now rewrite flat_map_lines_clock.
  - rewrite Hrun, for_lines_count, log_all_app. reflexivity.
Qed.

(** C6.  The exit status of every run.  If the path does not exist,
    or opening fails, or reading fails after any number of delivered
    lines, the status is not 0 (it is 1 unless the flush at exit fails)
    and no count is printed: in the last two cases [count_matches] raises
    the input/output error and whatever had been counted is dropped.  If
    opening and reading succeed (and the cutoff can be computed), the
    status is 0 exactly when the five lines of the summary are written
    and flushed, whatever the lines of the input contain and whatever
    the count is. *)
Theorem C6_exit_status_reflects_input_failure
        (w : world) (logfile keyword : str) (hours : option Z) :
  let w1 := log (EvExists logfile (path_exists w logfile)) w in
  let run := exit_status logfile keyword hours w in
  let counted := count_matches logfile keyword hours w1 in
  if path_exists w logfile then
    match window_cutoff w1 hours with
    | Raise e =>
        fails_with w run (py "Error reading file: " ++ exn_str e)
    | Ok cutoff_time =>
        match open_file w logfile with
        | inl failure =>
            fst counted = Raise (io_exn failure)
            /\ fails_with w run (py "Error reading file: "
                                 ++ exn_str (io_exn failure))
        | inr f =>
            match read_error f with
            | Some failure =>
                fst counted = Raise (io_exn failure)
                /\ fails_with w run (py "Error reading file: "
                                     ++ exn_str (io_exn failure))
            | None =>
                let report :=
                  summary logfile keyword hours
                          (spec_count keyword cutoff_time (delivered f)) in
                fst counted
                = Ok (spec_count keyword cutoff_time (delivered f))
                /\ (fst run = 0
                    <-> all_written (write_error w) report
                        /\ flush_error w = false)
                /\ stdout (snd run)
                   = stdout w ++ printed (write_error w) report
                /\ (all_written (write_error w) report ->
                    stdout (snd run) = stdout w ++ report)
            end
        end
    end
  else
    fails_with w run (py "Error: File '" ++ logfile ++ py "' not found.")
    /\ lines_read (snd run) = lines_read w.
Proof.
  cbv zeta. unfold exit_status. rewrite main_eq. cbv zeta.
  assert (Hfails : forall (message : str) (w' : world),
             write_error w' = write_error w ->
             flush_error w' = flush_error w ->
             stdout w' = stdout w ->
             fails_with w
               (let '(r, w'') :=
                  (match print_result (write_error w') [message] with
                   | Ok _ => @Raise unit (SystemExit 1)
                   | Raise e => Raise e
                   end,
                   log_all (map EvPrint (printed (write_error w') [message]))
                           w') in
                (if flush_error w'' then 120
                 else match r with
                      | Ok _ => 0
                      | Raise (SystemExit code) => code
                      | Raise _ => 1
                      end, w''))
               message).
  { intros message w' Hw Hf Hout. unfold fails_with.
    cbn [fst snd flush_error log_all]. rewrite Hw, Hf.
    rewrite (report_status (write_error w) [message] (Raise (SystemExit 1))).
    rewrite stdout_log_all, flat_map_prints, Hout.
    destruct (flush_error w).
    - split; [discriminate|]. split; [discriminate|reflexivity].
    - destruct (print_result _ _);
        (split; [discriminate|]); split; reflexivity. }
  assert (Hquiet : forall es,
             flat_map (fun e => match e with EvPrint t => [t] | _ => [] end)
                      es = [] ->
             stdout (log_all es (log (EvExists logfile true) w))
             = stdout w).
  { intros es Hes.
    rewrite log_is_log_all, log_all_app, stdout_log_all, flat_map_app, Hes.
    cbn [flat_map app]. now rewrite app_nil_r. }
  destruct (path_exists w logfile).
  - set (w1 := log (EvExists logfile true) w).
    assert (Hopen : open_file w1 logfile = open_file w logfile)
      by reflexivity.
    destruct (window_cutoff w1 hours) as [cutoff_time|e] eqn:Hc.
    + destruct (open_file w logfile) as [failure|f] eqn:Ho.
      * rewrite (count_matches_no_file _ _ _ _ _ _ Hc Hopen). cbn [fst snd].
        assert (Hexc : is_Exception (io_exn failure) = true)
          by now destruct failure.
        rewrite Hexc. split; [reflexivity|].
        apply Hfails; [reflexivity|reflexivity|].
        apply Hquiet. rewrite flat_map_app. cbn [flat_map app].
        now destruct hours.
      * rewrite (count_matches_file _ _ _ _ _ _ Hc Hopen). cbn [fst snd].
        assert (Hread : stdout
                          (log_all
                             (clock_events w1 hours
                              ++ EvOpen logfile :: map EvLine (delivered f))
                             w1)
                        = stdout w).
        { apply Hquiet. rewrite flat_map_app. cbn [flat_map app].
          rewrite flat_map_lines_prints. now destruct hours. }
        destruct (read_error f) as [failure|].
        -- assert (Hexc : is_Exception (io_exn failure) = true)
             by now destruct failure.
           rewrite Hexc. split; [reflexivity|].
           apply Hfails; [reflexivity|reflexivity|exact Hread].
        -- split; [reflexivity|].
           set (report := summary logfile keyword hours
                            (spec_count keyword cutoff_time (delivered f))).
           set (w2 := log_all _ w1) in *.
           change (write_error w2) with (write_error w).
           cbn [fst snd flush_error log_all].
           change (flush_error w2) with (flush_error w).
           fold (log_all (map EvPrint (printed (write_error w) report)) w2).
           rewrite stdout_log_all, flat_map_prints, Hread.
           split; [|split].
           ++ rewrite (report_status (write_error w) report (Ok tt)).
              rewrite <- print_result_ok.
              destruct (flush_error w).
              ** split; [discriminate|intros [_ H]; discriminate].
              ** destruct (print_result (write_error w) report) as [[]|e'].
                 --- split; [now split|reflexivity].
                 --- split; [discriminate|intros [H _]; discriminate].
           ++ reflexivity.
           ++ intros Hall. now rewrite (printed_all _ _ Hall).
    + rewrite (count_matches_no_cutoff _ _ _ _ _ Hc).
      rewrite (window_cutoff_raises _ _ _ Hc).
      apply Hfails; [reflexivity|reflexivity|].
      apply Hquiet. now destruct hours.
  - split.
    + apply Hfails; [reflexivity|reflexivity|].
      rewrite log_is_log_all, stdout_log_all. cbn [flat_map app].
      now rewrite app_nil_r.
    + cbn [fst snd]. rewrite log_is_log_all, log_all_app.
      rewrite lines_read_log_all, flat_map_app. cbn [flat_map app].
      assert (H : forall lines,
                 flat_map (fun e => match e with
                                    | EvLine l => [l]
                                    | _ => []
                                    end) (map EvPrint lines) = [])
        by (induction lines; simpl; congruence).
      now rewrite H, app_nil_r.
Qed.


(** C7.  The scenarios.  For the three lines and the keyword ERROR the
    count is 3 without a window, and 1 with a window of one hour at
    2025-11-22T10:30:00: the cutoff is 09:30:00 and only the first line
    counts.  For the single line [[2025-13-99T99:99:99] ERROR] the count
    is 0 with every window whose cutoff can be computed.  The same holds
    when the lines end with a line terminator. *)
Theorem C7_scenarios :
  let count lines hours :=
    fst (count_matches (py "app.log") (py "ERROR") hours
                       (scenario_world scenario_now lines)) in
  count scenario_lines None = Ok 3
  /\ count scenario_lines (Some 1) = Ok 1
  /\ cutoff_of scenario_now 1 = Ok (mk_datetime 2025 11 22 9 30 0 0)
  /\ map (spec_line_counts (py "ERROR")
                           (Some (mk_datetime 2025 11 22 9 30 0 0)))
         scenario_lines = [true; false; false]
  /\ count (terminated scenario_lines) None = Ok 3
  /\ count (terminated scenario_lines) (Some 1) = Ok 1
  /\ (forall now h,
         fst (count_matches (py "app.log") (py "ERROR") (Some h)
                            (scenario_world now [scenario_D_line]))
         = (_ <- cutoff_of now h ;; Ok 0)%result)
  /\ (forall now h,
         fst (count_matches (py "app.log") (py "ERROR") (Some h)
                            (scenario_world now
                               (terminated [scenario_D_line])))
         = (_ <- cutoff_of now h ;; Ok 0)%result).
Proof.
  cbv zeta.
  do 6 (split; [vm_compute; reflexivity|]).
  assert (HD : forall now h lines,
             Forall (fun line => parse_timestamp line = Ok None) lines ->
             fst (count_matches (py "app.log") (py "ERROR") (Some h)
                                (scenario_world now lines))
             = (_ <- cutoff_of now h ;; Ok 0)%result).
  { intros now h lines Hlines.
    destruct (cutoff_of now h) as [cutoff|e] eqn:Hc.
    - rewrite (count_matches_file _ _ _ _ (Some cutoff)
                                  (mk_text_file lines None)).
      + cbn [fst read_error delivered rbind]. f_equal.
        unfold spec_count. replace (filter _ lines) with (@nil str);
          [reflexivity|].
        induction Hlines as [|line lines Hline _ IH]; [reflexivity|].
        cbn [filter]. unfold spec_line_counts at 1.
        now rewrite Hline, andb_false_r.
      + unfold window_cutoff. cbn [scenario_world wall_clock].
        now rewrite Hc.
      + reflexivity.
    - rewrite (count_matches_no_cutoff _ _ _ _ e); [reflexivity|].
      unfold window_cutoff. cbn [scenario_world wall_clock].
      now rewrite Hc. }
  split; intros now h; apply HD; repeat constructor;
    vm_compute; reflexivity.
Qed.

(** C8.  Two runs of [count_matches] with the same keyword and window,
    in worlds where the input opens and reads the same way and the clock
    shows the same instant at the start, return the same count (or raise
    the same exception), whatever else differs between the worlds. *)
Theorem C8_count_is_determined_by_lines_and_now
        (w1 w2 : world) (filename1 filename2 keyword : str)
        (hours : option Z) :
  open_file w1 filename1 = open_file w2 filename2 ->
  now_of w1 = now_of w2 ->
  fst (count_matches filename1 keyword hours w1)
  = fst (count_matches filename2 keyword hours w2).
Proof.
  intros Ho Hnow.
  assert (Hc : window_cutoff w1 hours = window_cutoff w2 hours).
  { unfold window_cutoff. fold (now_of w1) (now_of w2). now rewrite Hnow. }
  destruct (window_cutoff w2 hours) as [cutoff_time|e] eqn:Hc2.
  - destruct (open_file w2 filename2) as [failure|f] eqn:Ho2.
    + rewrite (count_matches_no_file _ _ _ _ _ _ Hc Ho).
      now rewrite (count_matches_no_file _ _ _ _ _ _ Hc2 Ho2).
    + rewrite (count_matches_file _ _ _ _ _ _ Hc Ho).
      now rewrite (count_matches_file _ _ _ _ _ _ Hc2 Ho2).
  - rewrite (count_matches_no_cutoff _ _ _ _ _ Hc).
    now rewrite (count_matches_no_cutoff _ _ _ _ _ Hc2).
Qed.

(** C9.  For an input that opens and reads without failure, the count
    with a window (when its cutoff can be computed) is at most the count
    without a window, and both are at most the number of lines. *)
Theorem C9_window_only_lowers_the_count
        (w : world) (filename keyword : str) (h : Z) (cutoff : datetime)
        (f : text_file) :
  open_file w filename = inr f ->
  read_error f = None ->
  cutoff_of (now_of w) h = Ok cutoff ->
  exists windowed unbounded,
    fst (count_matches filename keyword (Some h) w) = Ok windowed
    /\ fst (count_matches filename keyword None w) = Ok unbounded
    /\ 0 <= windowed <= unbounded
    /\ unbounded <= Z.of_nat (List.length (delivered f)).
Proof.
  intros Ho Hr Hc.
  assert (Hw : window_cutoff w (Some h) = Ok (Some cutoff))
    by (unfold window_cutoff; fold (now_of w); now rewrite Hc).
  exists (spec_count keyword (Some cutoff) (delivered f)),
    (spec_count keyword None (delivered f)).
  rewrite (count_matches_file _ _ _ _ _ _ Hw Ho).
  rewrite (count_matches_file _ _ None _ None _ eq_refl Ho).
  rewrite Hr. cbn [fst].
  destruct (spec_count_bounds keyword (Some cutoff) (delivered f))
    as [H1 H2].
  repeat split; try reflexivity; lia.
Qed.

(** C10.  The keyword may be empty: nothing rejects it, every line
    contains it, and without a window [count_matches] returns the number
    of lines, which [main] prints before it ends with status 0 when its
    summary can be written and flushed. *)
Theorem C10_empty_keyword_counts_every_line
        (w : world) (logfile : str) (f : text_file) :
  open_file w logfile = inr f ->
  read_error f = None ->
  (forall line, str_contains line [] = true)
  /\ fst (count_matches logfile [] None w)
     = Ok (Z.of_nat (List.length (delivered f)))
  /\ (path_exists w logfile = true ->
      all_written (write_error w)
                  (summary logfile [] None
                           (Z.of_nat (List.length (delivered f)))) ->
      flush_error w = false ->
      fst (exit_status logfile [] None w) = 0
      /\ stdout (snd (exit_status logfile [] None w))
         = stdout w
           ++ summary logfile [] None
                      (Z.of_nat (List.length (delivered f)))).
Proof.
  intros Ho Hr. split; [apply str_contains_empty|split].
  - rewrite (count_matches_file _ _ None _ None _ eq_refl Ho), Hr.
    cbn [fst]. now rewrite spec_count_empty_keyword.
  - intros Hex Hall Hflush. unfold exit_status. rewrite main_eq. cbv zeta.
    rewrite Hex.
    assert (Ho1 : open_file (log (EvExists logfile true) w) logfile = inr f)
      by exact Ho.
    rewrite (count_matches_file _ _ None _ None f eq_refl Ho1), Hr.
    rewrite spec_count_empty_keyword.
    set (w2 := log_all _ (log _ w)).
    change (write_error w2) with (write_error w).
    rewrite (proj2 (print_result_ok _ _) Hall), (printed_all _ _ Hall).
    cbn [fst snd flush_error log_all].
    change (flush_error w2) with (flush_error w). rewrite Hflush.
    split; [reflexivity|].
    fold (log_all (map EvPrint
                     (summary logfile [] None
                        (Z.of_nat (List.length (delivered f))))) w2).
    unfold w2.
    rewrite log_all_app, log_is_log_all, log_all_app, stdout_log_all.
    rewrite !flat_map_app. cbn [flat_map clock_events app].
    now rewrite flat_map_lines_prints, flat_map_prints.
Qed.


(** ** Further properties of the script *)

(** *** What [parse_timestamp] reads, and only that *)

Lemma re_search_some_first (items : list re_item) (s : str) (gs : list str) :
  re_search items s = Some gs ->
  exists pre s' rest,
    s = pre ++ s' /\ re_match items s' = Some (gs, rest)
    /\ forall pre1 s1,
        s = pre1 ++ s1 -> (List.length pre1 < List.length pre)%nat ->
        re_match items s1 = None.
Proof.
  induction s as [|x s IH]; simpl.
  - destruct (re_match items []) as [[gs' rest]|] eqn:Hm; [|discriminate].
    intros H; injection H as <-. exists [], [], rest.
    split; [reflexivity|]. split; [exact Hm|]. simpl. intros; lia.
  - destruct (re_match items (x :: s)) as [[gs' rest]|] eqn:Hm.
    + intros H; injection H as <-. exists [], (x :: s), rest.
      split; [reflexivity|]. split; [exact Hm|]. simpl. intros; lia.
    + intros H. destruct (IH H) as [pre [s' [rest [-> [Hm' Hfirst]]]]].
      exists (x :: pre), s', rest. split; [reflexivity|].
      split; [exact Hm'|].
      intros [|y pre1] s1 Heq Hlen.
      * simpl in Heq. subst s1. exact Hm.
      * simpl in Heq, Hlen. injection Heq as _ Heq.
        apply (Hfirst pre1 s1 Heq). lia.
Qed.

Lemma parse_timestamp_some_first (line : str) (t : datetime) :
  parse_timestamp line = Ok (Some t) ->
  exists pre text post,
    first_occurrence line pre text post /\ strptime text = Ok t.
Proof.
  rewrite parse_timestamp_eq.
  destruct (re_search timestamp_re line) as [m|] eqn:Hs; [|discriminate].
  destruct (strptime (group m 1)) as [t'|] eqn:Hp; [|discriminate].
  intros H; injection H as ->.
  apply re_search_some_first in Hs.
  destruct Hs as [pre [s' [rest [-> [Hm Hfirst]]]]].
  apply re_match_timestamp_re in Hm. destruct Hm as [text [-> [-> Ht]]].
  cbn in Hp. exists pre, text, rest. split; [|exact Hp].
  split; [now split|].
  intros pre' text' post' [Heq Ht'].
  destruct (Nat.le_gt_cases (List.length pre) (List.length pre'))
    as [Hle|Hgt]; [exact Hle|exfalso].
  assert (Hnone := Hfirst pre' _ Heq Hgt).
  assert (Hsome : re_match timestamp_re (chr "[" :: text' ++ chr "]" :: post')
                  = Some ([text'], post'))
    by (apply re_match_timestamp_re; now exists text').
  rewrite Hsome in Hnone. discriminate.
Qed.

(** an ASCII character that [\d] matches is one of 0 to 9 *)
Lemma ascii_digit (c : char) (v : Z) :
  (c < 128)%N -> decimal_value c = Some v ->
  0 <= v <= 9 /\ c = digit_char v.
Proof.
  unfold decimal_value, digit_char. intros Hc.
  destruct ((48 <=? c) && (c <=? 57))%N eqn:Hd.
  - intros H; injection H as <-.
    apply andb_true_iff in Hd. rewrite !N.leb_le in Hd. split; [lia|].
    replace (48 + (Z.of_N c - 48)) with (Z.of_N c) by lia.
    now rewrite N2Z.id.
  - apply N.ltb_lt in Hc. rewrite Hc. discriminate.
Qed.

Lemma digits_two_written (a b : char) (n : Z) :
  (a < 128)%N -> (b < 128)%N ->
  digits_value [a; b] 0 = Some n -> [a; b] = two_digits n.
Proof.
  intros Ha Hb.
  change (digits_value [a; b] 0)
    with (match decimal_value a with
          | Some va =>
              match decimal_value b with
              | Some vb => Some (10 * (10 * 0 + va) + vb)
              | None => None
              end
          | None => None
          end).
  destruct (decimal_value a) as [va|] eqn:Ea; [|discriminate].
  destruct (decimal_value b) as [vb|] eqn:Eb; [|discriminate].
  intros H.
  assert (Hn : n = 10 * va + vb).
  { apply (f_equal (fun o => match o with Some v => v | None => 0 end)) in H.
    cbv beta iota in H. lia. }
  clear H. subst n.
  destruct (ascii_digit _ _ Ha Ea) as [Hva ->].
  destruct (ascii_digit _ _ Hb Eb) as [Hvb ->].
  unfold two_digits.
  replace ((10 * va + vb) / 10) with va
    by (Z.to_euclidean_division_equations; lia).
  replace ((10 * va + vb) mod 10) with vb
    by (Z.to_euclidean_division_equations; lia).
  reflexivity.
Qed.

Lemma digits_four_written (a b c d : char) (n : Z) :
  (a < 128)%N -> (b < 128)%N -> (c < 128)%N -> (d < 128)%N ->
  digits_value [a; b; c; d] 0 = Some n -> [a; b; c; d] = four_digits n.
Proof.
  intros Ha Hb Hc Hd.
  change (digits_value [a; b; c; d] 0)
    with (match decimal_value a with
          | Some va =>
              match decimal_value b with
              | Some vb =>
                  match decimal_value c with
                  | Some vc =>
                      match decimal_value d with
                      | Some vd =>
                          Some (10 * (10 * (10 * (10 * 0 + va) + vb) + vc)
                                + vd)
                      | None => None
                      end
                  | None => None
                  end
              | None => None
              end
          | None => None
          end).
  destruct (decimal_value a) as [va|] eqn:Ea; [|discriminate].
  destruct (decimal_value b) as [vb|] eqn:Eb; [|discriminate].
  destruct (decimal_value c) as [vc|] eqn:Ec; [|discriminate].
  destruct (decimal_value d) as [vd|] eqn:Ed; [|discriminate].
  intros H.
  assert (Hn : n = 1000 * va + 100 * vb + 10 * vc + vd).
  { apply (f_equal (fun o => match o with Some v => v | None => 0 end)) in H.
    cbv beta iota in H. lia. }
  clear H. subst n.
  destruct (ascii_digit _ _ Ha Ea) as [Hva ->].
  destruct (ascii_digit _ _ Hb Eb) as [Hvb ->].
  destruct (ascii_digit _ _ Hc Ec) as [Hvc ->].
  destruct (ascii_digit _ _ Hd Ed) as [Hvd ->].
  unfold four_digits.
  set (n := 1000 * va + 100 * vb + 10 * vc + vd).
  replace (n / 1000) with va
    by (unfold n; Z.to_euclidean_division_equations; lia).
  replace (n / 100 mod 10) with vb
    by (unfold n; Z.to_euclidean_division_equations; lia).
  replace (n / 10 mod 10) with vc
    by (unfold n; Z.to_euclidean_division_equations; lia).
  replace (n mod 10) with vd
    by (unfold n; Z.to_euclidean_division_equations; lia).
  reflexivity.
Qed.

(** An ASCII text of the script's shape that [strptime] reads as [t] is
    [t] written in the format. *)
Lemma strptime_ascii_written (text : str) (t : datetime) :
  is_timestamp_text text = true ->
  Forall (fun c => (c < 128)%N) text ->
  strptime text = Ok t ->
  text = written t.
Proof.
  intros Hshape Hascii Hs.
  destruct (strptime_timestamp_text _ _ Hshape Hs)
    as [_ [Hy [Hm [Hd [Hh [Hmi [Hse _]]]]]]].
  unfold is_timestamp_text, timestamp_text in Hshape.
  do 19 (destruct text as [|? text];
         [cbn [in_classes] in Hshape;
          rewrite ?andb_false_r in Hshape; discriminate|]).
  destruct text; [|cbn [in_classes] in Hshape;
                   rewrite !andb_false_r in Hshape; discriminate].
  cbn [in_classes] in Hshape. rewrite !andb_true_iff in Hshape.
  repeat match goal with H : _ /\ _ |- _ => destruct H end.
  repeat match goal with
         | H : re_lit _ _ = true |- _ => apply N.eqb_eq in H; subst
         end.
  repeat match goal with
         | H : Forall _ (_ :: _) |- _ => inversion H; subst; clear H
         end.
  unfold number_at in *. cbn [firstn skipn Nat.sub] in *.
  apply digits_four_written in Hy; [|assumption..].
  apply digits_two_written in Hm, Hd, Hh, Hmi, Hse; try assumption.
  unfold written. change (py "-") with [chr "-"].
  change (py "T") with [chr "T"]. change (py ":") with [chr ":"].
  rewrite <- Hy, <- Hm, <- Hd, <- Hh, <- Hmi, <- Hse. reflexivity.
Qed.


(** X1.  Every date and time written in the format of the script's
    docstring, [[YYYY-MM-DDTHH:MM:SS]] with ASCII digits and zero padding,
    is extracted by [parse_timestamp], after any text without an opening
    bracket and before any text. *)
Theorem X1_written_timestamp_is_extracted
        (t : datetime) (pre post : str) :
  valid_datetime t = true -> microsecond t = 0 ->
  ~ In (chr "[") pre ->
  parse_timestamp (pre ++ chr "[" :: written t ++ chr "]" :: post)
  = Ok (Some t).
Proof.
  intros Hv Hus Hpre.
  rewrite (parse_timestamp_first _ pre (written t) post).
  - now rewrite (strptime_written _ Hv Hus).
  - split; [reflexivity|now apply is_timestamp_text_written].
  - intros pre' text' post' [Heq _].
    destruct (Nat.le_gt_cases (List.length pre) (List.length pre'))
      as [Hle|Hgt]; [exact Hle|exfalso].
    apply Hpre.
    assert (Hn := f_equal (fun l => nth (List.length pre') l 0%N) Heq).
    cbv beta in Hn. rewrite app_nth1 in Hn by exact Hgt.
    rewrite nth_middle in Hn. rewrite <- Hn. now apply nth_In.
Qed.

(** X2.  A timestamp that [parse_timestamp] returns was read from the
    first occurrence of the bracketed pattern in the line: it is a date
    of the calendar with a time of the day and no microseconds, its
    fields are the numbers written there, and when the captured text is
    ASCII it is exactly the timestamp written in the format. *)
Theorem X2_extracted_timestamp_is_the_first_written
        (line : str) (t : datetime) :
  parse_timestamp line = Ok (Some t) ->
  exists pre text post,
    first_occurrence line pre text post
    /\ valid_datetime t = true
    /\ microsecond t = 0
    /\ number_at text 0 4 = Some (year t)
    /\ number_at text 5 7 = Some (month t)
    /\ number_at text 8 10 = Some (day t)
    /\ number_at text 11 13 = Some (hour t)
    /\ number_at text 14 16 = Some (minute t)
    /\ number_at text 17 19 = Some (second t)
    /\ (Forall (fun c => (c < 128)%N) text -> text = written t).
Proof.
  intros Hp.
  destruct (parse_timestamp_some_first _ _ Hp)
    as [pre [text [post [Hfirst Hs]]]].
  destruct (parse_timestamp_some _ _ Hp) as [_ [_ [_ [_ [_ [_ Hv]]]]]].
  assert (Hshape : is_timestamp_text text = true) by apply Hfirst.
  destruct (strptime_timestamp_text _ _ Hshape Hs)
    as [_ [Hy [Hm [Hd [Hh [Hmi [Hse Hus]]]]]]].
  exists pre, text, post.
  repeat (split; [assumption|]).
  intros Hascii. exact (strptime_ascii_written _ _ Hshape Hascii Hs).
Qed.


(** *** A line and the same line with one more character at its end *)

Lemma str_contains_snoc (line keyword : str) (c : char) :
  ~ In c keyword ->
  str_contains (line ++ [c]) keyword = str_contains line keyword.
Proof.
  intros Hc. apply eq_true_iff_eq. rewrite !str_contains_iff. split.
  - intros [pre [post H]].
    destruct post as [|c0 post].
    + destruct keyword as [|k keyword];
        [exists line, []; now rewrite app_nil_r|].
      rewrite app_nil_r in H.
      destruct (@exists_last _ (k :: keyword) ltac:(discriminate))
        as [kw' [c' Hk]].
      rewrite Hk, app_assoc in H. apply app_inj_tail in H.
      destruct H as [_ <-]. exfalso. apply Hc. rewrite Hk.
      apply in_or_app. right. now left.
    + destruct (@exists_last _ (c0 :: post) ltac:(discriminate))
        as [post' [c' Hp]].
      rewrite Hp, !app_assoc in H. apply app_inj_tail in H.
      destruct H as [H _]. exists pre, post'. now rewrite app_assoc.
  - intros [pre [post ->]]. exists pre, (post ++ [c]).
    now rewrite <- !app_assoc.
Qed.


Lemma occurs_at_snoc (line pre text post : str) (c : char) :
  c <> chr "]" ->
  occurs_at (line ++ [c]) pre text post ->
  exists post', post = post' ++ [c] /\ occurs_at line pre text post'.
Proof.
  intros Hc [Heq Hshape].
  destruct post as [|p0 post].
  - exfalso. apply Hc.
    assert (E : pre ++ chr "[" :: text ++ [chr "]"]
                = (pre ++ chr "[" :: text) ++ [chr "]"])
      by now rewrite <- app_assoc.
    rewrite E in Heq. apply app_inj_tail in Heq. now destruct Heq.
  - destruct (@exists_last _ (p0 :: post) ltac:(discriminate))
      as [post' [c' Hp]].
    rewrite Hp in *. exists post'.
    assert (E : pre ++ chr "[" :: text ++ chr "]" :: post' ++ [c']
                = (pre ++ chr "[" :: text ++ chr "]" :: post') ++ [c']).
    { rewrite <- app_assoc. cbn [app]. now rewrite <- app_assoc. }
    rewrite E in Heq. apply app_inj_tail in Heq.
    destruct Heq as [-> <-]. split; [reflexivity|]. now split.
Qed.

Lemma occurs_at_app (line pre text post more : str) :
  occurs_at line pre text post ->
  occurs_at (line ++ more) pre text (post ++ more).
Proof.
  intros [-> Hshape]. split; [|exact Hshape].
  rewrite <- app_assoc. cbn [app]. now rewrite <- app_assoc.
Qed.

Lemma parse_timestamp_snoc (line : str) (c : char) :
  c <> chr "]" -> parse_timestamp (line ++ [c]) = parse_timestamp line.
Proof.
  intros Hc.
  destruct (parse_timestamp_total line) as [[t|] Hp]; rewrite Hp.
  - destruct (parse_timestamp_some_first _ _ Hp)
      as [pre [text [post [[Hocc Hfirst] Hs]]]].
    rewrite (parse_timestamp_first _ pre text (post ++ [c])).
    + now rewrite Hs.
    + now apply occurs_at_app.
    + intros pre' text' post' Hocc'.
      destruct (occurs_at_snoc _ _ _ _ _ Hc Hocc') as [post'' [_ Hocc'']].
      exact (Hfirst _ _ _ Hocc'').
  - rewrite parse_timestamp_eq in Hp |- *.
    destruct (re_search timestamp_re (line ++ [c])) as [m|] eqn:Hs;
      [|reflexivity].
    apply re_search_some_first in Hs.
    destruct Hs as [pre [s' [rest [Heq [Hm Hfirst]]]]].
    apply re_match_timestamp_re in Hm. destruct Hm as [text [-> [-> Ht]]].
    assert (Hocc : occurs_at (line ++ [c]) pre text rest) by now split.
    destruct (occurs_at_snoc _ _ _ _ _ Hc Hocc) as [rest' [-> Hocc']].
    assert (Hline : re_search timestamp_re line = Some [text]).
    { apply (re_search_timestamp_first _ pre text rest' Hocc').
      intros pre' text' post' Hocc''.
      destruct (Nat.le_gt_cases (List.length pre) (List.length pre'))
        as [Hle|Hgt]; [exact Hle|exfalso].
      destruct (occurs_at_app _ _ _ _ [c] Hocc'') as [Heq' Ht'].
      assert (Hnone := Hfirst pre' _ Heq' Hgt).
      assert (Hsome : re_match timestamp_re
                        (chr "[" :: text' ++ chr "]" :: post' ++ [c])
                      = Some ([text'], post' ++ [c]))
        by (apply re_match_timestamp_re; now exists text').
      rewrite Hsome in Hnone. discriminate. }
    rewrite Hline in Hp. cbn [group nth Nat.sub] in *.
    exact Hp.
Qed.

(** X3.  Whether a line counts does not depend on the line terminator
    it is delivered with: a line and the same line followed by a
    character that is neither a closing bracket nor part of the keyword
    (a newline, for a keyword without one) are counted alike, so the last
    line of a file without a final newline is treated like the others. *)
Theorem X3_line_terminator_does_not_matter
        (keyword line : str) (c : char) (cutoff_time : option datetime)
        (count : Z) :
  c <> chr "]" -> ~ In c keyword ->
  count_line keyword cutoff_time (line ++ [c]) count
  = count_line keyword cutoff_time line count.
Proof.
  intros Hc Hk. unfold count_line.
  now rewrite (str_contains_snoc _ _ _ Hk), (parse_timestamp_snoc _ _ Hc).
Qed.


(** *** The window in instants *)

Lemma spec_line_counts_instants (keyword line : str) (cutoff : datetime) :
  valid_datetime cutoff = true ->
  spec_line_counts keyword (Some cutoff) line
  = str_contains line keyword
    && stamped_since (micros_since_epoch cutoff) line.
Proof.
  intros Hc. unfold spec_line_counts, stamped_since. f_equal.
  destruct (parse_timestamp line) as [[t|]|] eqn:Hp; try reflexivity.
  destruct (parse_timestamp_some _ _ Hp) as [_ [_ [_ [_ [_ [_ Hv]]]]]].
  exact (datetime_ge_chronological _ _ Hv Hc).
Qed.

Lemma filter_length_le {A} (f g : A -> bool) (l : list A) :
  (forall x, f x = true -> g x = true) ->
  (List.length (filter f l) <= List.length (filter g l))%nat.
Proof.
  intros Hfg. induction l as [|x l IH]; [reflexivity|]. cbn [filter].
  destruct (f x) eqn:Hf.
  - rewrite (Hfg _ Hf). cbn [List.length]. lia.
  - destruct (g x); cbn [List.length]; lia.
Qed.

Lemma stamped_since_mono (bound bound' : Z) (line : str) :
  bound' <= bound ->
  stamped_since bound line = true -> stamped_since bound' line = true.
Proof.
  unfold stamped_since. intros Hb.
  destruct (parse_timestamp line) as [[t|]|]; try discriminate.
  rewrite !Z.leb_le. lia.
Qed.

Lemma str_contains_trans (line keyword keyword' : str) :
  str_contains keyword' keyword = true ->
  str_contains line keyword' = true -> str_contains line keyword = true.
Proof.
  rewrite !str_contains_iff.
  intros [pre [post ->]] [pre' [post' ->]].
  exists (pre' ++ pre), (post ++ post'). now rewrite <- !app_assoc.
Qed.

(** X4.  With a window of [h] hours, the count is the number of
    delivered lines that contain the keyword and carry a timestamp whose
    instant is not before the instant of the clock reading minus [h]
    hours. *)
Theorem X4_windowed_count_in_instants
        (w : world) (filename keyword : str) (h : Z) (cutoff : datetime)
        (f : text_file) :
  cutoff_of (now_of w) h = Ok cutoff ->
  open_file w filename = inr f ->
  read_error f = None ->
  fst (count_matches filename keyword (Some h) w)
  = Ok (Z.of_nat
          (List.length
             (filter (fun line =>
                        str_contains line keyword
                        && stamped_since
                             (micros_since_epoch (now_of w)
                              - h * 3600 * 1000000) line)
                     (delivered f)))).
Proof.
  intros Hc Ho Hr.
  assert (Hw : window_cutoff w (Some h) = Ok (Some cutoff))
    by (unfold window_cutoff; fold (now_of w); now rewrite Hc).
  rewrite (count_matches_file _ _ _ _ _ _ Hw Ho), Hr. cbn [fst].
  destruct (cutoff_of_micros _ _ _ Hc) as [Hm Hv].
  unfold spec_count. do 3 f_equal. apply filter_ext. intros line.
  rewrite (spec_line_counts_instants _ _ _ Hv), Hm.
  now replace (h * 3600 * 1000000) with (h * 3600000000) by lia.
Qed.

(** X5.  Widening the window never lowers the count: for the same
    input and clock reading, the count with [h] hours is at most the
    count with [h'] hours when [h <= h'] (and both cutoffs exist). *)
Theorem X5_wider_window_counts_more
        (w : world) (filename keyword : str) (h h' : Z)
        (cutoff cutoff' : datetime) (f : text_file) :
  h <= h' ->
  cutoff_of (now_of w) h = Ok cutoff ->
  cutoff_of (now_of w) h' = Ok cutoff' ->
  open_file w filename = inr f ->
  read_error f = None ->
  exists n n',
    fst (count_matches filename keyword (Some h) w) = Ok n
    /\ fst (count_matches filename keyword (Some h') w) = Ok n'
    /\ n <= n'.
Proof.
  intros Hh Hc Hc' Ho Hr.
  assert (Hw : window_cutoff w (Some h) = Ok (Some cutoff))
    by (unfold window_cutoff; fold (now_of w); now rewrite Hc).
  assert (Hw' : window_cutoff w (Some h') = Ok (Some cutoff'))
    by (unfold window_cutoff; fold (now_of w); now rewrite Hc').
  rewrite (count_matches_file _ _ _ _ _ _ Hw Ho).
  rewrite (count_matches_file _ _ _ _ _ _ Hw' Ho). rewrite Hr. cbn [fst].
  eexists _, _. split; [reflexivity|]. split; [reflexivity|].
  destruct (cutoff_of_micros _ _ _ Hc) as [Hm Hv].
  destruct (cutoff_of_micros _ _ _ Hc') as [Hm' Hv'].
  unfold spec_count. apply Nat2Z.inj_le, filter_length_le. intros line.
  rewrite (spec_line_counts_instants _ _ _ Hv).
  rewrite (spec_line_counts_instants _ _ _ Hv').
  rewrite !andb_true_iff. intros [Hk Hs]. split; [exact Hk|].
  apply (stamped_since_mono (micros_since_epoch cutoff)); [lia|exact Hs].
Qed.

(** X6.  A longer keyword never counts more: when [keyword] occurs in
    [keyword'], every line counted for [keyword'] is counted for
    [keyword], with or without a window. *)
Theorem X6_longer_keyword_counts_less
        (w : world) (filename keyword keyword' : str) (hours : option Z)
        (cutoff_time : option datetime) (f : text_file) :
  str_contains keyword' keyword = true ->
  window_cutoff w hours = Ok cutoff_time ->
  open_file w filename = inr f ->
  read_error f = None ->
  exists n n',
    fst (count_matches filename keyword hours w) = Ok n
    /\ fst (count_matches filename keyword' hours w) = Ok n'
    /\ n' <= n.
Proof.
  intros Hk Hw Ho Hr.
  rewrite (count_matches_file _ keyword _ _ _ _ Hw Ho).
  rewrite (count_matches_file _ keyword' _ _ _ _ Hw Ho). rewrite Hr.
  cbn [fst]. eexists _, _. split; [reflexivity|]. split; [reflexivity|].
  unfold spec_count. apply Nat2Z.inj_le, filter_length_le. intros line.
  unfold spec_line_counts. rewrite !andb_true_iff. intros [Hl Ht].
  split; [exact (str_contains_trans _ _ _ Hk Hl) | exact Ht].
Qed.

(** X7.  Counting is additive over concatenated inputs: with the same
    keyword, window and clock reading, the count of an input that delivers
    the lines of one input followed by those of another is the sum of
    their counts. *)
Theorem X7_count_of_concatenated_inputs
        (w wa wb : world) (filename filename_a filename_b keyword : str)
        (hours : option Z) (cutoff_time : option datetime)
        (lines_a lines_b : list str) :
  window_cutoff w hours = Ok cutoff_time ->
  now_of wa = now_of w -> now_of wb = now_of w ->
  open_file wa filename_a = inr (mk_text_file lines_a None) ->
  open_file wb filename_b = inr (mk_text_file lines_b None) ->
  open_file w filename = inr (mk_text_file (lines_a ++ lines_b) None) ->
  exists na nb,
    fst (count_matches filename_a keyword hours wa) = Ok na
    /\ fst (count_matches filename_b keyword hours wb) = Ok nb
    /\ fst (count_matches filename keyword hours w) = Ok (na + nb).
Proof.
  intros Hw Ha Hb Hoa Hob Ho.
  assert (Hwa : window_cutoff wa hours = Ok cutoff_time)
    by (revert Hw; unfold window_cutoff; fold (now_of wa) (now_of w);
        now rewrite Ha).
  assert (Hwb : window_cutoff wb hours = Ok cutoff_time)
    by (revert Hw; unfold window_cutoff; fold (now_of wb) (now_of w);
        now rewrite Hb).
  rewrite (count_matches_file _ _ _ _ _ _ Hwa Hoa).
  rewrite (count_matches_file _ _ _ _ _ _ Hwb Hob).
  rewrite (count_matches_file _ _ _ _ _ _ Hw Ho).
  cbn [fst read_error delivered]. eexists _, _.
  split; [reflexivity|]. split; [reflexivity|].
  now rewrite spec_count_app.
Qed.


(** X8.  The clock is read with microseconds and timestamps have none,
    so the bound is inclusive only to the microsecond: when the clock
    reading has a nonzero microsecond part, a line stamped exactly [h]
    hours before the second of the clock reading is excluded (with
    [--hours 0], a line stamped in the current second). *)
Theorem X8_boundary_second_is_excluded
        (keyword line : str) (now cutoff t : datetime) (h count : Z) :
  cutoff_of now h = Ok cutoff ->
  parse_timestamp line = Ok (Some t) ->
  0 < microsecond now ->
  micros_since_epoch t
  = micros_since_epoch now - microsecond now - h * 3600 * 1000000 ->
  count_line keyword (Some cutoff) line count = Ok count.
Proof.
  intros Hc Hp Hus Ht.
  destruct (cutoff_of_micros _ _ _ Hc) as [Hm Hv].
  rewrite count_line_eq, (spec_line_counts_instants _ _ _ Hv).
  unfold stamped_since. rewrite Hp.
  assert (Hlt : (micros_since_epoch cutoff <=? micros_since_epoch t) = false)
    by (apply Z.leb_gt; lia).
  rewrite Hlt. now rewrite andb_false_r.
Qed.

(** X9.  A negative number of hours is not rejected: it puts the cutoff
    after the clock reading, so that no line stamped at or before the
    clock reading counts. *)
Theorem X9_negative_window_excludes_the_past
        (keyword line : str) (now cutoff t : datetime) (h count : Z) :
  h < 0 ->
  cutoff_of now h = Ok cutoff ->
  parse_timestamp line = Ok (Some t) ->
  micros_since_epoch t <= micros_since_epoch now ->
  micros_since_epoch now < micros_since_epoch cutoff
  /\ count_line keyword (Some cutoff) line count = Ok count.
Proof.
  intros Hh Hc Hp Ht.
  destruct (cutoff_of_micros _ _ _ Hc) as [Hm Hv].
  split; [lia|].
  rewrite count_line_eq, (spec_line_counts_instants _ _ _ Hv).
  unfold stamped_since. rewrite Hp.
  assert (Hlt : (micros_since_epoch cutoff <=? micros_since_epoch t) = false)
    by (apply Z.leb_gt; lia).
  rewrite Hlt. now rewrite andb_false_r.
Qed.


(** *** When the cutoff cannot be computed *)

Lemma month_day_valid_all (leapyear : bool) :
  all_from (month_day_valid leapyear) 365 0 = true.
Proof. destruct leapyear; vm_compute; reflexivity. Qed.

(** one cycle of 400 years: the day [r + 1] falls on a date of the
    calendar in the years 1 to 400 *)
Lemma cycle_valid (r : Z) :
  0 <= r < 146097 ->
  let '(y, m, d) := Calendar._ord2ymd (r + 1) in
  1 <= y <= 400 /\ 1 <= m <= 12 /\ 1 <= d <= Calendar._days_in_month y m.
Proof.
  intros Hr. rewrite ord2ymd_eq. cbv zeta.
  replace (r + 1 - 1) with r by lia.
  rewrite (Z.div_small _ _ Hr), (Z.mod_small _ _ Hr).
  assert (H100 := Z.div_mod r 36524 ltac:(lia)).
  assert (B100 := Z.mod_pos_bound r 36524 ltac:(lia)).
  set (n100 := r / 36524) in *. set (r1 := r mod 36524) in *.
  assert (H4 := Z.div_mod r1 1461 ltac:(lia)).
  assert (B4 := Z.mod_pos_bound r1 1461 ltac:(lia)).
  set (n4 := r1 / 1461) in *. set (r2 := r1 mod 1461) in *.
  assert (H1 := Z.div_mod r2 365 ltac:(lia)).
  assert (B1 := Z.mod_pos_bound r2 365 ltac:(lia)).
  set (n1 := r2 / 365) in *. set (r3 := r2 mod 365) in *.
  clearbody n100 r1 n4 r2 n1 r3.
  assert (0 <= n100 <= 4 /\ 0 <= n4 <= 24 /\ 0 <= n1 <= 4) by lia.
  destruct ((n1 =? 4) || (n100 =? 4)) eqn:Hspecial.
  - apply orb_true_iff in Hspecial. rewrite !Z.eqb_eq in Hspecial.
    split; [lia|]. split; [lia|].
    unfold Calendar._days_in_month. change (12 =? 2) with false.
    cbn [andb]. calendar_tables. lia.
  - apply orb_false_iff in Hspecial. rewrite !Z.eqb_neq in Hspecial.
    set (leapyear := (n1 =? 3) && (negb (n4 =? 24) || (n100 =? 3))).
    assert (Hmd := all_from_spec _ _ 0 r3 (month_day_valid_all leapyear)
                                 ltac:(lia)).
    unfold month_day_valid in Hmd.
    destruct (month_day r3 leapyear) as [m d].
    assert (Hleap :
              Calendar._is_leap (0 * 400 + 1 + (n100 * 100 + n4 * 4 + n1))
              = leapyear).
    { unfold Calendar._is_leap, leapyear.
      repeat match goal with
             | |- context [?a =? ?b] =>
                 destruct (Z.eqb_spec a b)
             end; cbn [andb orb negb]; try reflexivity; exfalso;
        Z.to_euclidean_division_equations; lia. }
    unfold Calendar._days_in_month. rewrite Hleap.
    unfold between in Hmd. rewrite !andb_true_iff, !Z.leb_le in Hmd.
    lia.
Qed.

(** Every day from 1 to [_MAXORDINAL] falls on a date that the
    constructor of [datetime] accepts. *)
Lemma ord2ymd_valid (n : Z) :
  1 <= n <= Calendar._MAXORDINAL ->
  let '(y, m, d) := Calendar._ord2ymd n in
  1 <= y <= 9999 /\ 1 <= m <= 12 /\ 1 <= d <= Calendar._days_in_month y m.
Proof.
  unfold Calendar._MAXORDINAL. intros Hn. rewrite ord2ymd_shift.
  assert (Hr : 0 <= (n - 1) mod 146097 < 146097)
    by (apply Z.mod_pos_bound; lia).
  assert (Hv := cycle_valid _ Hr). assert (Hc := cycle_roundtrips _ Hr).
  destruct (Calendar._ord2ymd ((n - 1) mod 146097 + 1)) as [[y m] d].
  destruct Hv as [Hy [Hm Hd]].
  assert (Hk : 0 <= (n - 1) / 146097 <= 24)
    by (Z.to_euclidean_division_equations; lia).
  split; [|split; [exact Hm|]].
  - destruct (Z.eq_dec y 400) as [->|Hne]; [|lia].
    assert (Hb := day_of_year_bounds 400 m d Hm Hd).
    unfold Calendar._ymd2ord in Hc.
    change (Calendar._days_before_year 400) with 145731 in Hc.
    Z.to_euclidean_division_equations; lia.
  - unfold Calendar._days_in_month in *. now rewrite is_leap_shift.
Qed.

Lemma toordinal_bounds (t : datetime) :
  valid_datetime t = true -> 1 <= toordinal t <= Calendar._MAXORDINAL.
Proof.
  unfold valid_datetime, between, Calendar.MINYEAR, Calendar.MAXYEAR.
  rewrite !andb_true_iff, !Z.leb_le.
  intros [[[[[[Hy Hm] Hd] _] _] _] _].
  assert (Hb := day_of_year_bounds _ _ _ Hm Hd).
  assert (Hn := days_before_next_year (year t)).
  assert (H0 := days_before_year_mono 1 (year t) ltac:(lia)).
  assert (H1 := days_before_year_mono (year t + 1) 10000 ltac:(lia)).
  change (Calendar._days_before_year 1) with 0 in H0.
  change (Calendar._days_before_year 10000) with 3652059 in H1.
  unfold toordinal, Calendar._ymd2ord, Calendar._MAXORDINAL. lia.
Qed.


(** [timedelta(...)] in terms of the total number of microseconds *)
Lemma timedelta_new_total (d s us mi h : Z) :
  let total := (d * 86400 + s + mi * 60 + h * 3600) * 1000000 + us in
  if 999999999 <? Z.abs (total / 86400000000)
  then exists msg, timedelta_new d s us mi h = Raise (OverflowError msg)
  else timedelta_new d s us mi h
       = Ok (mk_timedelta (total / 86400000000)
                          (total / 1000000 mod 86400)
                          (total mod 1000000)).
Proof.
  cbv zeta. unfold timedelta_new. cbv zeta. change (24 * 3600) with 86400.
  set (total := (d * 86400 + s + mi * 60 + h * 3600) * 1000000 + us).
  match goal with
  | |- context [mk_timedelta ?dd ?ss ?uu] =>
      assert (Hd : dd = total / 86400000000)
        by (unfold total; Z.to_euclidean_division_equations; lia);
      assert (Hs : ss = total / 1000000 mod 86400)
        by (unfold total; Z.to_euclidean_division_equations; lia);
      assert (Hu : uu = total mod 1000000)
        by (unfold total; Z.to_euclidean_division_equations; lia);
      rewrite Hd, Hs, Hu
  end.
  destruct (999999999 <? Z.abs (total / 86400000000)); [eauto|reflexivity].
Qed.


Lemma timedelta_new_cases (d s us mi h : Z) :
  let total := (d * 86400 + s + mi * 60 + h * 3600) * 1000000 + us in
  (exists td,
      timedelta_new d s us mi h = Ok td
      /\ timedelta_micros td = total
      /\ days td = total / 86400000000
      /\ 0 <= seconds td < 86400 /\ 0 <= microseconds td < 1000000
      /\ Z.abs (total / 86400000000) <= 999999999)
  \/ (exists msg,
         timedelta_new d s us mi h = Raise (OverflowError msg)
         /\ 999999999 < Z.abs (total / 86400000000)).
Proof.
  cbv zeta. assert (H := timedelta_new_total d s us mi h). cbv zeta in H.
  set (total := (d * 86400 + s + mi * 60 + h * 3600) * 1000000 + us) in *.
  destruct (999999999 <? Z.abs (total / 86400000000)) eqn:Hover.
  - right. destruct H as [msg H]. exists msg. split; [exact H|].
    now apply Z.ltb_lt.
  - left. eexists. split; [exact H|]. apply Z.ltb_ge in Hover.
    unfold timedelta_micros. cbn [days seconds microseconds].
    clearbody total.
    repeat split; try (Z.to_euclidean_division_equations; lia).
Qed.

(** The cutoff exists exactly when the instant of the clock reading
    minus the hours is one [datetime] can represent; otherwise the
    computation raises [OverflowError]. *)
Lemma cutoff_of_total (now : datetime) (h : Z) :
  valid_datetime now = true ->
  (representable (micros_since_epoch now - h * 3600 * 1000000) ->
   exists cutoff, cutoff_of now h = Ok cutoff)
  /\ (~ representable (micros_since_epoch now - h * 3600 * 1000000) ->
      exists msg, cutoff_of now h = Raise (OverflowError msg)).
Proof.
  intros Hv. assert (Hord := toordinal_bounds _ Hv).
  destruct (valid_datetime_bounds _ Hv) as [_ [_ [_ [Hh [Hmi Hs]]]]].
  assert (Hus : 0 <= microsecond now <= 999999).
  { unfold valid_datetime, between in Hv.
    rewrite !andb_true_iff, !Z.leb_le in Hv. lia. }
  unfold cutoff_of, datetime_sub, timedelta_neg, datetime_add,
    timedelta_add, rbind.
  unfold representable, micros_since_epoch, Calendar._MAXORDINAL in *.
  set (ord := toordinal now) in *. clearbody ord.
  destruct (timedelta_new_cases 0 0 0 0 h)
    as [[td [-> [T1 [D1 [S1 [U1 B1]]]]]] | [msg [-> B1]]].
  2: { split; [intros Hrep; exfalso|intros _; now exists msg].
       Z.to_euclidean_division_equations; lia. }
  unfold timedelta_micros in T1.
  destruct (timedelta_new_cases (- days td) (- seconds td)
                                (- microseconds td) 0 0)
    as [[neg [-> [T2 [D2 [S2 [U2 B2]]]]]] | [msg [-> B2]]].
  2: { split; [intros Hrep; exfalso|intros _; now exists msg].
       Z.to_euclidean_division_equations; lia. }
  unfold timedelta_micros in T2.
  destruct (timedelta_new_cases ord (second now) (microsecond now)
                                (minute now) (hour now))
    as [[d1 [-> [T3 [D3 [S3 [U3 B3]]]]]] | [msg [-> B3]]].
  2: { exfalso. Z.to_euclidean_division_equations; lia. }
  unfold timedelta_micros in T3.
  destruct (timedelta_new_cases (days d1 + days neg)
                                (seconds d1 + seconds neg)
                                (microseconds d1 + microseconds neg) 0 0)
    as [[delta [-> [T4 [D4 [S4 [U4 B4]]]]]] | [msg [-> B4]]].
  2: { split; [intros Hrep; exfalso|intros _; now exists msg].
       Z.to_euclidean_division_equations; lia. }
  unfold timedelta_micros in T4.
  assert (Htotal :
            (days delta * 86400 + seconds delta) * 1000000
            + microseconds delta
            = (((ord - 1) * 24 + hour now) * 60 + minute now) * 60000000
              + second now * 1000000 + microsecond now
              - h * 3600 * 1000000 + 86400000000) by lia.
  clear T1 D1 S1 U1 B1 T2 D2 S2 U2 B2 T3 D3 S3 U3 B3 T4 D4 B4.
  destruct ((0 <? days delta) && (days delta <=? 3652059)) eqn:Hrange.
  - apply andb_true_iff in Hrange. rewrite Z.ltb_lt, Z.leb_le in Hrange.
    split; [intros _|intros Hout; exfalso; lia].
    assert (Hdate := ord2ymd_valid (days delta)).
    unfold Calendar._MAXORDINAL in Hdate.
    specialize (Hdate ltac:(lia)).
    destruct (Calendar._ord2ymd (days delta)) as [[y m] d].
    eexists. apply datetime_new_ok. split; [reflexivity|].
    unfold valid_datetime, between, Calendar.MINYEAR, Calendar.MAXYEAR.
    cbn [year month day hour minute second microsecond].
    rewrite !andb_true_iff, !Z.leb_le.
    repeat split; try lia; Z.to_euclidean_division_equations; lia.
  - split; [intros Hrep; exfalso|intros _; eauto].
    apply andb_false_iff in Hrange. rewrite Z.ltb_ge, Z.leb_gt in Hrange.
    lia.
Qed.


(** X10.  With a valid clock reading, the cutoff exists exactly when the
    instant of the reading minus the hours is one [datetime] can represent
    (years 1 to 9999).  Otherwise ([--hours 100000000], say)
    [count_matches] raises [OverflowError] right after reading the clock,
    without opening the file, and [main] does not end with status 0:
    when its message can be written and flushed it reports an error
    reading the file and ends with status 1. *)
Theorem X10_unrepresentable_cutoff_aborts_before_opening
        (w : world) (logfile keyword : str) (h : Z) :
  valid_datetime (now_of w) = true ->
  ((exists cutoff, cutoff_of (now_of w) h = Ok cutoff) <->
   representable (micros_since_epoch (now_of w) - h * 3600 * 1000000))
  /\ (~ representable (micros_since_epoch (now_of w) - h * 3600 * 1000000) ->
      exists msg,
        count_matches logfile keyword (Some h) w
        = (Raise (OverflowError msg), log (EvNow (now_of w)) w))
  /\ (path_exists w logfile = true ->
      valid_datetime (now_of (log (EvExists logfile true) w)) = true ->
      ~ representable
          (micros_since_epoch (now_of (log (EvExists logfile true) w))
           - h * 3600 * 1000000) ->
      exists msg,
        fst (exit_status logfile keyword (Some h) w) <> 0
        /\ (write_error w (py "Error reading file: " ++ msg) = None ->
            flush_error w = false ->
            exit_status logfile keyword (Some h) w
            = (1, log_all [EvExists logfile true;
                           EvNow (now_of (log (EvExists logfile true) w));
                           EvPrint (py "Error reading file: " ++ msg)] w))).
Proof.
  intros Hv.
  assert (Hrun : forall w', valid_datetime (now_of w') = true ->
             ~ representable (micros_since_epoch (now_of w')
                              - h * 3600 * 1000000) ->
             exists msg,
               count_matches logfile keyword (Some h) w'
               = (Raise (OverflowError msg), log (EvNow (now_of w')) w')).
  { intros w' Hv' Hout.
    destruct (cutoff_of_total _ h Hv') as [_ Hraise].
    destruct (Hraise Hout) as [msg Hmsg]. exists msg.
    rewrite (count_matches_no_cutoff _ _ _ _ (OverflowError msg));
      [reflexivity|].
    unfold window_cutoff. fold (now_of w'). now rewrite Hmsg. }
  destruct (cutoff_of_total _ h Hv) as [Hok Hraise].
  split; [|split].
  - split; [|exact Hok]. intros [cutoff Hc].
    destruct (cutoff_of_micros _ _ _ Hc) as [Hm Hvc].
    assert (Hord := toordinal_bounds _ Hvc).
    destruct (valid_datetime_bounds _ Hvc) as [_ [_ [_ [Hh [Hmi Hs]]]]].
    assert (Hus : 0 <= microsecond cutoff <= 999999).
    { unfold valid_datetime, between in Hvc.
      rewrite !andb_true_iff, !Z.leb_le in Hvc. lia. }
    replace (h * 3600 * 1000000) with (h * 3600000000) by lia.
    rewrite <- Hm.
    unfold representable, micros_since_epoch, Calendar._MAXORDINAL in *.
    lia.
  - exact (Hrun w Hv).
  - intros Hex Hv1 Hout. destruct (Hrun _ Hv1 Hout) as [msg Hmsg].
    exists msg. unfold exit_status. rewrite main_eq. cbv zeta.
    rewrite Hex, Hmsg.
    cbn [is_Exception exn_str print_result printed write_error log].
    destruct (write_error w _) as [failure|];
      cbn [fst snd flush_error log log_all map].
    + split; [|discriminate].
      destruct (flush_error w); cbn [fst]; [discriminate|].
      destruct failure; cbn; discriminate.
    + split; [destruct (flush_error w); cbn [fst]; discriminate|].
      intros _ ->. now rewrite !log_is_log_all, !log_all_app.
Qed.

End LogAnalyzer.

(** ** The claims at concrete inputs *)

(** [\d] and [int] take digits outside ASCII where the table has them; the
    directives of [strptime] for the month do not. *)
Example parse_timestamp_arabic_indic_year :
  parse_timestamp arabic_indic_digits
    ([chr "["; 1634; 1632; 1634; 1637]%N ++ py "-11-22T10:00:00] ERROR")
  = Ok (Some ten_o_clock).
Proof. vm_compute. reflexivity. Qed.

Example parse_timestamp_arabic_indic_month :
  parse_timestamp arabic_indic_digits
    (py "[2025-" ++ [1633; 1633]%N ++ py "-22T10:00:00] ERROR")
  = Ok None.
Proof. vm_compute. reflexivity. Qed.

Lemma C1_witness :
  window_cutoff (scenario_world scenario_now scenario_lines) (Some 1)
  = Ok (Some half_past_nine)
  /\ open_file (scenario_world scenario_now scenario_lines) (py "app.log")
     = inr scenario_file
  /\ read_error scenario_file = None
  /\ fst (count_matches ascii_digits (py "app.log") (py "ERROR") (Some 1)
                        (scenario_world scenario_now scenario_lines))
     = Ok 1.
Proof.
  assert (H1 : window_cutoff (scenario_world scenario_now scenario_lines)
                             (Some 1) = Ok (Some half_past_nine))
    by (vm_compute; reflexivity).
  assert (H2 : open_file (scenario_world scenario_now scenario_lines)
                         (py "app.log") = inr scenario_file)
    by reflexivity.
  assert (H3 : read_error scenario_file = None) by reflexivity.
  destruct (C1_count_matches_counts_matching_lines
              ascii_digits _ (py "app.log") (py "ERROR") _ _ _ H1 H2 H3)
    as [_ [_ [Hcount _]]].
  split; [exact H1|]. split; [exact H2|]. split; [exact H3|].
  rewrite Hcount. vm_compute. reflexivity.
Defined.

Lemma C2_witness :
  (exists pre text post,
      first_occurrence ascii_digits scenario_D_line pre text post
      /\ fails_to_parse ascii_digits text)
  /\ timestamp_missing ascii_digits (py "no timestamp here ERROR")
  /\ parse_timestamp ascii_digits scenario_D_line = Ok None
  /\ count_line ascii_digits (py "ERROR") (Some half_past_nine)
                scenario_D_line 7 = Ok 7
  /\ count_line ascii_digits (py "ERROR") (Some half_past_nine)
                (py "no timestamp here ERROR") 7 = Ok 7.
Proof.
  assert (H1 : exists pre text post,
             first_occurrence ascii_digits scenario_D_line pre text post
             /\ fails_to_parse ascii_digits text).
  { exists [], (py "2025-13-99T99:99:99"), (py " ERROR").
    split; [split; [split|]|].
    - vm_compute. reflexivity.
    - vm_compute. reflexivity.
    - intros pre' text' post' _. apply Nat.le_0_l.
    - left. vm_compute. reflexivity. }
  assert (H2 : timestamp_missing ascii_digits (py "no timestamp here ERROR"))
    by (apply timestamp_missing_iff; vm_compute; reflexivity).
  destruct (C2_unparsable_timestamp_is_excluded_silently
              ascii_digits scenario_D_line (or_intror H1)) as [Hp [Hc _]].
  destruct (C2_unparsable_timestamp_is_excluded_silently
              ascii_digits (py "no timestamp here ERROR") (or_introl H2))
    as [_ [Hc' _]].
  split; [exact H1|]. split; [exact H2|]. split; [exact Hp|].
  split; [apply Hc | apply Hc'].
Defined.

Lemma C3_witness :
  parse_timestamp ascii_digits (py "[2025-11-22T10:00:00] ERROR: disk full")
  = Ok (Some ten_o_clock)
  /\ str_contains (py "[2025-11-22T10:00:00] ERROR: disk full") (py "ERROR")
     = true
  /\ datetime_lt ten_o_clock scenario_now = true
  /\ valid_datetime scenario_now = true
  /\ micros_since_epoch ten_o_clock < micros_since_epoch scenario_now
  /\ count_line ascii_digits (py "ERROR") (Some ten_o_clock)
                (py "[2025-11-22T10:00:00] ERROR: disk full") 0 = Ok 1
  /\ count_line ascii_digits (py "ERROR") (Some scenario_now)
                (py "[2025-11-22T10:00:00] ERROR: disk full") 0 = Ok 0.
Proof.
  assert (H1 : parse_timestamp ascii_digits
                 (py "[2025-11-22T10:00:00] ERROR: disk full")
               = Ok (Some ten_o_clock)) by (vm_compute; reflexivity).
  assert (H2 : str_contains (py "[2025-11-22T10:00:00] ERROR: disk full")
                            (py "ERROR") = true) by (vm_compute; reflexivity).
  assert (H3 : datetime_lt ten_o_clock scenario_now = true)
    by (vm_compute; reflexivity).
  assert (H4 : valid_datetime scenario_now = true)
    by (vm_compute; reflexivity).
  assert (H5 : micros_since_epoch ten_o_clock
               < micros_since_epoch scenario_now)
    by (vm_compute; reflexivity).
  destruct (C3_cutoff_is_an_inclusive_lower_bound
              ascii_digits (py "ERROR") _ ten_o_clock ten_o_clock 0 H1)
    as [Heq _].
  destruct (C3_cutoff_is_an_inclusive_lower_bound
              ascii_digits (py "ERROR") _ scenario_now ten_o_clock 0 H1)
    as [_ [_ [_ Hlt]]].
  split; [exact H1|]. split; [exact H2|]. split; [exact H3|].
  split; [exact H4|]. split; [exact H5|].
  split; [exact (Heq H2 eq_refl) | exact (Hlt H4 H5)].
Defined.

Lemma C4_witness :
  first_occurrence ascii_digits retried_line []
                   (py "2025-13-01T00:00:00")
                   (py " retry [2025-11-22T10:00:00] ERROR")
  /\ valid_calendar_text ascii_digits (py "2025-13-01T00:00:00") = false
  /\ valid_calendar_text ascii_digits (py "2025-11-22T10:00:00") = true
  /\ timestamp_missing ascii_digits (py "no timestamp here ERROR")
  /\ parse_timestamp ascii_digits retried_line = Ok None
  /\ parse_timestamp ascii_digits (py "no timestamp here ERROR") = Ok None.
Proof.
  assert (H1 : first_occurrence ascii_digits retried_line []
                 (py "2025-13-01T00:00:00")
                 (py " retry [2025-11-22T10:00:00] ERROR")).
  { split; [split|].
    - vm_compute. reflexivity.
    - vm_compute. reflexivity.
    - intros pre' text' post' _. apply Nat.le_0_l. }
  assert (H2 : valid_calendar_text ascii_digits (py "2025-13-01T00:00:00")
               = false) by (vm_compute; reflexivity).
  assert (H3 : timestamp_missing ascii_digits (py "no timestamp here ERROR"))
    by (apply timestamp_missing_iff; vm_compute; reflexivity).
  destruct (C4_parse_timestamp_reads_first_occurrence_only
              ascii_digits retried_line) as [_ [_ Hbad]].
  destruct (C4_parse_timestamp_reads_first_occurrence_only
              ascii_digits (py "no timestamp here ERROR")) as [Hmiss _].
  split; [exact H1|]. split; [exact H2|].
  split; [vm_compute; reflexivity|]. split; [exact H3|].
  split; [exact (Hbad _ _ _ H1 H2) | exact (Hmiss H3)].
Defined.

Lemma C5_witness :
  cutoff_of (now_of (scenario_world scenario_now scenario_lines)) 1
  = Ok half_past_nine
  /\ open_file (scenario_world scenario_now scenario_lines) (py "app.log")
     = inr scenario_file
  /\ micros_since_epoch half_past_nine
     = micros_since_epoch scenario_now - 1 * 3600 * 1000000
  /\ clock_readings
       (snd (count_matches ascii_digits (py "app.log") (py "ERROR") (Some 1)
                           (scenario_world scenario_now scenario_lines)))
     = [scenario_now].
Proof.
  assert (H1 : cutoff_of (now_of (scenario_world scenario_now scenario_lines))
                         1 = Ok half_past_nine) by (vm_compute; reflexivity).
  assert (H2 : open_file (scenario_world scenario_now scenario_lines)
                         (py "app.log") = inr scenario_file)
    by reflexivity.
  destruct (C5_cutoff_is_computed_once_at_the_start
              ascii_digits _ (py "app.log") (py "ERROR") 1 _ _ H1 H2)
    as [Hcut [_ [_ [Hclock _]]]].
  split; [exact H1|]. split; [exact H2|]. split; [exact Hcut | exact Hclock].
Defined.

Lemma C8_witness :
  open_file (scenario_world scenario_now scenario_lines) (py "app.log")
  = open_file after_first_run (py "app.log")
  /\ now_of (scenario_world scenario_now scenario_lines)
     = now_of after_first_run
  /\ fst (count_matches ascii_digits (py "app.log") (py "ERROR") (Some 1)
                        (scenario_world scenario_now scenario_lines))
     = fst (count_matches ascii_digits (py "app.log") (py "ERROR") (Some 1)
                          after_first_run).
Proof.
  assert (H1 : open_file (scenario_world scenario_now scenario_lines)
                         (py "app.log")
               = open_file after_first_run (py "app.log"))
    by (vm_compute; reflexivity).
  assert (H2 : now_of (scenario_world scenario_now scenario_lines)
               = now_of after_first_run) by (vm_compute; reflexivity).
  split; [exact H1|]. split; [exact H2|].
  exact (C8_count_is_determined_by_lines_and_now
           ascii_digits _ _ _ _ (py "ERROR") (Some 1) H1 H2).
Defined.

Lemma C9_witness :
  open_file (scenario_world scenario_now scenario_lines) (py "app.log")
  = inr scenario_file
  /\ read_error scenario_file = None
  /\ cutoff_of (now_of (scenario_world scenario_now scenario_lines)) 1
     = Ok half_past_nine
  /\ exists windowed unbounded,
      fst (count_matches ascii_digits (py "app.log") (py "ERROR") (Some 1)
                         (scenario_world scenario_now scenario_lines))
      = Ok windowed
      /\ fst (count_matches ascii_digits (py "app.log") (py "ERROR") None
                            (scenario_world scenario_now scenario_lines))
         = Ok unbounded
      /\ 0 <= windowed <= unbounded
      /\ unbounded <= Z.of_nat (List.length (delivered scenario_file)).
Proof.
  assert (H1 : open_file (scenario_world scenario_now scenario_lines)
                         (py "app.log") = inr scenario_file)
    by reflexivity.
  assert (H2 : read_error scenario_file = None) by reflexivity.
  assert (H3 : cutoff_of (now_of (scenario_world scenario_now scenario_lines))
                         1 = Ok half_past_nine) by (vm_compute; reflexivity).
  split; [exact H1|]. split; [exact H2|]. split; [exact H3|].
  exact (C9_window_only_lowers_the_count
           ascii_digits _ (py "app.log") (py "ERROR") 1 _ _ H1 H2 H3).
Defined.

Lemma C10_witness :
  open_file (scenario_world scenario_now scenario_lines) (py "app.log")
  = inr scenario_file
  /\ read_error scenario_file = None
  /\ path_exists (scenario_world scenario_now scenario_lines) (py "app.log")
     = true
  /\ all_written
       (write_error (scenario_world scenario_now scenario_lines))
       (summary (py "app.log") [] None
                (Z.of_nat (List.length (delivered scenario_file))))
  /\ flush_error (scenario_world scenario_now scenario_lines) = false
  /\ fst (count_matches ascii_digits (py "app.log") [] None
                        (scenario_world scenario_now scenario_lines))
     = Ok 3
  /\ fst (exit_status ascii_digits (py "app.log") [] None
                      (scenario_world scenario_now scenario_lines)) = 0
  /\ stdout (snd (exit_status ascii_digits (py "app.log") [] None
                              (scenario_world scenario_now scenario_lines)))
     = [py "Log Analysis: app.log"; py "  Keyword: ";
        py "  Time window: all entries"; py "  Matches found: 3";
        py "Analysis complete."].
Proof.
  assert (H1 : open_file (scenario_world scenario_now scenario_lines)
                         (py "app.log") = inr scenario_file)
    by reflexivity.
  assert (H2 : read_error scenario_file = None) by reflexivity.
  assert (H3 : path_exists (scenario_world scenario_now scenario_lines)
                           (py "app.log") = true) by reflexivity.
  assert (H4 : all_written
                 (write_error (scenario_world scenario_now scenario_lines))
                 (summary (py "app.log") [] None
                          (Z.of_nat (List.length (delivered scenario_file)))))
    by (intros line _; reflexivity).
  assert (H5 : flush_error (scenario_world scenario_now scenario_lines)
               = false) by reflexivity.
  destruct (C10_empty_keyword_counts_every_line
              ascii_digits _ (py "app.log") _ H1 H2) as [_ [Hcount Hmain]].
  destruct (Hmain H3 H4 H5) as [Hstatus Hout].
  split; [exact H1|]. split; [exact H2|]. split; [exact H3|].
  split; [exact H4|]. split; [exact H5|].
  split; [exact Hcount|]. split; [exact Hstatus|].
  rewrite Hout. vm_compute. reflexivity.
Defined.

Lemma C6_witness :
  fst (exit_status ascii_digits (py "app.log") (py "ERROR") None
                   (scenario_world scenario_now scenario_lines)) = 0
  /\ fst (exit_status ascii_digits (py "app.log") (py "ERROR") None
                      full_disk_world) <> 0
  /\ fst (exit_status ascii_digits (py "app.log") [56448%N] None
                      strict_stdout_world) <> 0
  /\ fails_with failing_world
       (exit_status ascii_digits (py "app.log") (py "ERROR") None
                    failing_world)
       (py "Error reading file: invalid start byte").
Proof.
  assert (Hw := C6_exit_status_reflects_input_failure
                  ascii_digits (scenario_world scenario_now scenario_lines)
                  (py "app.log") (py "ERROR") None).
  assert (Hfull := C6_exit_status_reflects_input_failure
                     ascii_digits full_disk_world
                     (py "app.log") (py "ERROR") None).
  assert (Hstrict := C6_exit_status_reflects_input_failure
                       ascii_digits strict_stdout_world
                       (py "app.log") [56448%N] None).
  assert (Hfail := C6_exit_status_reflects_input_failure
                     ascii_digits failing_world
                     (py "app.log") (py "ERROR") None).
  cbv zeta in Hw, Hfull, Hstrict, Hfail.
  cbn [path_exists open_file read_error window_cutoff log scenario_world
       full_disk_world strict_stdout_world failing_world scenario_file]
    in Hw, Hfull, Hstrict, Hfail.
  destruct Hw as [_ [Hw _]]. destruct Hfull as [_ [Hfull _]].
  destruct Hstrict as [_ [Hstrict _]]. destruct Hfail as [_ Hfail].
  split; [|split; [|split]].
  - apply Hw. split; [intros line _; reflexivity|reflexivity].
  - intros H. apply Hfull in H. destruct H as [_ H]. discriminate H.
  - intros H. apply Hstrict in H. destruct H as [H _].
    specialize (H (py "  Keyword: " ++ [56448%N])
                  (or_intror (or_introl eq_refl))).
    discriminate H.
  - exact Hfail.
Defined.

(** A read that fails after two delivered lines: the run ends with
    status 1 and prints the error, not a count. *)
Example partial_count_is_dropped :
  let run := exit_status ascii_digits (py "app.log") (py "ERROR") None
                         failing_world in
  fst run = 1
  /\ stdout (snd run) = [py "Error reading file: invalid start byte"]
  /\ List.length (lines_read (snd run)) = 2%nat.
Proof. vm_compute. repeat split; reflexivity. Qed.

(** ** The further properties at concrete inputs *)

Lemma X1_witness :
  valid_datetime ten_o_clock = true
  /\ microsecond ten_o_clock = 0
  /\ ~ In (chr "[") (py "app ")
  /\ parse_timestamp ascii_digits
       (py "app " ++ chr "[" :: written ten_o_clock
        ++ chr "]" :: py " ERROR")
     = Ok (Some ten_o_clock).
Proof.
  assert (H1 : valid_datetime ten_o_clock = true)
    by (vm_compute; reflexivity).
  assert (H2 : microsecond ten_o_clock = 0) by reflexivity.
  assert (H3 : ~ In (chr "[") (py "app "))
    by (cbv; intros [H|[H|[H|[H|H]]]];
        [discriminate H|discriminate H|discriminate H|discriminate H
        |exact H]).
  split; [exact H1|]. split; [exact H2|]. split; [exact H3|].
  exact (X1_written_timestamp_is_extracted
           ascii_digits ten_o_clock (py "app ") (py " ERROR") H1 H2 H3).
Defined.

Lemma X2_witness :
  parse_timestamp ascii_digits (py "[2025-11-22T10:00:00] ERROR: disk full")
  = Ok (Some ten_o_clock)
  /\ exists pre text post,
      first_occurrence ascii_digits
        (py "[2025-11-22T10:00:00] ERROR: disk full") pre text post
      /\ (Forall (fun c => (c < 128)%N) text -> text = written ten_o_clock).
Proof.
  assert (H1 : parse_timestamp ascii_digits
                 (py "[2025-11-22T10:00:00] ERROR: disk full")
               = Ok (Some ten_o_clock)) by (vm_compute; reflexivity).
  split; [exact H1|].
  destruct (X2_extracted_timestamp_is_the_first_written
              ascii_digits _ _ H1)
    as [pre [text [post [Hfirst [_ [_ [_ [_ [_ [_ [_ [_ Hascii]]]]]]]]]]]].
  exists pre, text, post. split; [exact Hfirst|exact Hascii].
Defined.

Lemma X3_witness :
  10%N <> chr "]"
  /\ ~ In 10%N (py "ERROR")
  /\ count_line ascii_digits (py "ERROR") (Some half_past_nine)
                (py "[2025-11-22T10:00:00] ERROR: disk full" ++ [10%N]) 0
     = count_line ascii_digits (py "ERROR") (Some half_past_nine)
                  (py "[2025-11-22T10:00:00] ERROR: disk full") 0.
Proof.
  assert (H1 : 10%N <> chr "]") by discriminate.
  assert (H2 : ~ In 10%N (py "ERROR"))
    by (cbv; intros [H|[H|[H|[H|[H|H]]]]];
        [discriminate H|discriminate H|discriminate H|discriminate H
        |discriminate H|exact H]).
  split; [exact H1|]. split; [exact H2|].
  exact (X3_line_terminator_does_not_matter
           ascii_digits (py "ERROR") _ 10%N (Some half_past_nine) 0 H1 H2).
Defined.

Lemma X4_witness :
  cutoff_of (now_of (scenario_world scenario_now scenario_lines)) 1
  = Ok half_past_nine
  /\ open_file (scenario_world scenario_now scenario_lines) (py "app.log")
     = inr scenario_file
  /\ read_error scenario_file = None
  /\ fst (count_matches ascii_digits (py "app.log") (py "ERROR") (Some 1)
                        (scenario_world scenario_now scenario_lines))
     = Ok 1.
Proof.
  assert (H1 : cutoff_of (now_of (scenario_world scenario_now
                                                 scenario_lines)) 1
               = Ok half_past_nine) by (vm_compute; reflexivity).
  assert (H2 : open_file (scenario_world scenario_now scenario_lines)
                         (py "app.log") = inr scenario_file)
    by reflexivity.
  assert (H3 : read_error scenario_file = None) by reflexivity.
  split; [exact H1|]. split; [exact H2|]. split; [exact H3|].
  rewrite (X4_windowed_count_in_instants
             ascii_digits _ (py "app.log") (py "ERROR") 1 _ _ H1 H2 H3).
  vm_compute. reflexivity.
Defined.

Lemma X5_witness :
  1 <= 2
  /\ cutoff_of (now_of (scenario_world scenario_now scenario_lines)) 1
     = Ok half_past_nine
  /\ cutoff_of (now_of (scenario_world scenario_now scenario_lines)) 2
     = Ok (mk_datetime 2025 11 22 8 30 0 0)
  /\ open_file (scenario_world scenario_now scenario_lines) (py "app.log")
     = inr scenario_file
  /\ read_error scenario_file = None
  /\ exists n n',
      fst (count_matches ascii_digits (py "app.log") (py "ERROR") (Some 1)
                         (scenario_world scenario_now scenario_lines))
      = Ok n
      /\ fst (count_matches ascii_digits (py "app.log") (py "ERROR")
                            (Some 2)
                            (scenario_world scenario_now scenario_lines))
         = Ok n'
      /\ n <= n'.
Proof.
  assert (H0 : 1 <= 2) by lia.
  assert (H1 : cutoff_of (now_of (scenario_world scenario_now
                                                 scenario_lines)) 1
               = Ok half_past_nine) by (vm_compute; reflexivity).
  assert (H1' : cutoff_of (now_of (scenario_world scenario_now
                                                  scenario_lines)) 2
                = Ok (mk_datetime 2025 11 22 8 30 0 0))
    by (vm_compute; reflexivity).
  assert (H2 : open_file (scenario_world scenario_now scenario_lines)
                         (py "app.log") = inr scenario_file)
    by reflexivity.
  assert (H3 : read_error scenario_file = None) by reflexivity.
  split; [exact H0|]. split; [exact H1|]. split; [exact H1'|].
  split; [exact H2|]. split; [exact H3|].
  exact (X5_wider_window_counts_more
           ascii_digits _ (py "app.log") (py "ERROR") 1 2 _ _ _
           H0 H1 H1' H2 H3).
Defined.

Lemma X6_witness :
  str_contains (py "ERROR: disk") (py "ERROR") = true
  /\ window_cutoff (scenario_world scenario_now scenario_lines) None
     = Ok None
  /\ open_file (scenario_world scenario_now scenario_lines) (py "app.log")
     = inr scenario_file
  /\ read_error scenario_file = None
  /\ exists n n',
      fst (count_matches ascii_digits (py "app.log") (py "ERROR") None
                         (scenario_world scenario_now scenario_lines))
      = Ok n
      /\ fst (count_matches ascii_digits (py "app.log") (py "ERROR: disk")
                            None
                            (scenario_world scenario_now scenario_lines))
         = Ok n'
      /\ n' <= n.
Proof.
  assert (H0 : str_contains (py "ERROR: disk") (py "ERROR") = true)
    by (vm_compute; reflexivity).
  assert (H1 : window_cutoff (scenario_world scenario_now scenario_lines)
                             None = Ok None) by reflexivity.
  assert (H2 : open_file (scenario_world scenario_now scenario_lines)
                         (py "app.log") = inr scenario_file)
    by reflexivity.
  assert (H3 : read_error scenario_file = None) by reflexivity.
  split; [exact H0|]. split; [exact H1|]. split; [exact H2|].
  split; [exact H3|].
  exact (X6_longer_keyword_counts_less
           ascii_digits _ (py "app.log") (py "ERROR") (py "ERROR: disk")
           None None _ H0 H1 H2 H3).
Defined.

Lemma X7_witness :
  let lines_a := [py "[2025-11-22T10:00:00] ERROR: disk full"] in
  let lines_b := [py "[2025-11-22T09:00:00] ERROR: disk full";
                  py "no timestamp here ERROR"] in
  window_cutoff (scenario_world scenario_now (lines_a ++ lines_b)) (Some 1)
  = Ok (Some half_past_nine)
  /\ exists na nb,
      fst (count_matches ascii_digits (py "a.log") (py "ERROR") (Some 1)
                         (scenario_world scenario_now lines_a))
      = Ok na
      /\ fst (count_matches ascii_digits (py "b.log") (py "ERROR") (Some 1)
                            (scenario_world scenario_now lines_b))
         = Ok nb
      /\ fst (count_matches ascii_digits (py "app.log") (py "ERROR")
                            (Some 1)
                            (scenario_world scenario_now
                                            (lines_a ++ lines_b)))
         = Ok (na + nb).
Proof.
  intros lines_a lines_b.
  assert (H1 : window_cutoff
                 (scenario_world scenario_now (lines_a ++ lines_b)) (Some 1)
               = Ok (Some half_past_nine)) by (vm_compute; reflexivity).
  split; [exact H1|].
  exact (X7_count_of_concatenated_inputs
           ascii_digits
           (scenario_world scenario_now (lines_a ++ lines_b))
           (scenario_world scenario_now lines_a)
           (scenario_world scenario_now lines_b)
           (py "app.log") (py "a.log") (py "b.log") (py "ERROR")
           (Some 1) (Some half_past_nine) lines_a lines_b
           H1 eq_refl eq_refl eq_refl eq_refl eq_refl).
Defined.

Lemma X8_witness :
  let now := mk_datetime 2025 11 22 10 30 0 500000 in
  cutoff_of now 1 = Ok (mk_datetime 2025 11 22 9 30 0 500000)
  /\ parse_timestamp ascii_digits (py "[2025-11-22T09:30:00] ERROR")
     = Ok (Some half_past_nine)
  /\ 0 < microsecond now
  /\ micros_since_epoch half_past_nine
     = micros_since_epoch now - microsecond now - 1 * 3600 * 1000000
  /\ count_line ascii_digits (py "ERROR")
                (Some (mk_datetime 2025 11 22 9 30 0 500000))
                (py "[2025-11-22T09:30:00] ERROR") 0
     = Ok 0.
Proof.
  intros now.
  assert (H1 : cutoff_of now 1 = Ok (mk_datetime 2025 11 22 9 30 0 500000))
    by (vm_compute; reflexivity).
  assert (H2 : parse_timestamp ascii_digits
                 (py "[2025-11-22T09:30:00] ERROR")
               = Ok (Some half_past_nine)) by (vm_compute; reflexivity).
  assert (H3 : 0 < microsecond now) by reflexivity.
  assert (H4 : micros_since_epoch half_past_nine
               = micros_since_epoch now - microsecond now
                 - 1 * 3600 * 1000000) by (vm_compute; reflexivity).
  split; [exact H1|]. split; [exact H2|]. split; [exact H3|].
  split; [exact H4|].
  exact (X8_boundary_second_is_excluded
           ascii_digits (py "ERROR") _ now _ half_past_nine 1 0
           H1 H2 H3 H4).
Defined.

Lemma X9_witness :
  -1 < 0
  /\ cutoff_of scenario_now (-1) = Ok (mk_datetime 2025 11 22 11 30 0 0)
  /\ parse_timestamp ascii_digits
       (py "[2025-11-22T10:00:00] ERROR: disk full")
     = Ok (Some ten_o_clock)
  /\ micros_since_epoch ten_o_clock <= micros_since_epoch scenario_now
  /\ micros_since_epoch scenario_now
     < micros_since_epoch (mk_datetime 2025 11 22 11 30 0 0)
  /\ count_line ascii_digits (py "ERROR")
                (Some (mk_datetime 2025 11 22 11 30 0 0))
                (py "[2025-11-22T10:00:00] ERROR: disk full") 0
     = Ok 0.
Proof.
  assert (H0 : -1 < 0) by lia.
  assert (H1 : cutoff_of scenario_now (-1)
               = Ok (mk_datetime 2025 11 22 11 30 0 0))
    by (vm_compute; reflexivity).
  assert (H2 : parse_timestamp ascii_digits
                 (py "[2025-11-22T10:00:00] ERROR: disk full")
               = Ok (Some ten_o_clock)) by (vm_compute; reflexivity).
  assert (H3 : micros_since_epoch ten_o_clock
               <= micros_since_epoch scenario_now)
    by (vm_compute; discriminate).
  split; [exact H0|]. split; [exact H1|]. split; [exact H2|].
  split; [exact H3|].
  exact (X9_negative_window_excludes_the_past
           ascii_digits (py "ERROR") _ scenario_now _ ten_o_clock (-1) 0
           H0 H1 H2 H3).
Defined.

Lemma X10_witness :
  valid_datetime (now_of (scenario_world scenario_now scenario_lines))
  = true
  /\ exists msg,
      count_matches ascii_digits (py "app.log") (py "ERROR")
                    (Some 100000000)
                    (scenario_world scenario_now scenario_lines)
      = (Raise (OverflowError msg),
         log (EvNow scenario_now)
             (scenario_world scenario_now scenario_lines)).
Proof.
  assert (H1 : valid_datetime
                 (now_of (scenario_world scenario_now scenario_lines))
               = true) by (vm_compute; reflexivity).
  split; [exact H1|].
  destruct (X10_unrepresentable_cutoff_aborts_before_opening
              ascii_digits _ (py "app.log") (py "ERROR") 100000000 H1)
    as [_ [Hraise _]].
  apply Hraise. intros [Hlow _]. revert Hlow. vm_compute.
  intros Hlow. apply Hlow. reflexivity.
Defined.

(** ** [backup_tool.py]: properties *)

Module BackupToolFacts.
Import BackupTool.

Lemma zdigit_inj (a b : Z) :
  0 <= a -> 0 <= b -> zdigit a = zdigit b -> a = b.
Proof.
  unfold zdigit. intros Ha Hb H. apply Z2N.inj in H; lia.
Qed.

Lemma pad2_inj (n n' : Z) :
  0 <= n -> 0 <= n' -> pad2 n = pad2 n' -> n = n'.
Proof.
  unfold pad2. intros Hn Hn' H. injection H as H1 H2.
  apply zdigit_inj in H1, H2;
    try (Z.to_euclidean_division_equations; lia).
Qed.

Lemma pad4_inj (n n' : Z) :
  0 <= n -> 0 <= n' -> pad4 n = pad4 n' -> n = n'.
Proof.
  unfold pad4. intros Hn Hn' H. injection H as H1 H2 H3 H4.
  apply zdigit_inj in H1, H2, H3, H4;
    try (Z.to_euclidean_division_equations; lia).
Qed.

Lemma strftime_four_digit_year (short_year : Z -> str) (t : datetime) :
  1000 <= year t ->
  strftime short_year t
  = pad4 (year t) ++ pad2 (month t) ++ pad2 (day t) ++ py "_"
    ++ pad2 (hour t) ++ pad2 (minute t) ++ pad2 (second t).
Proof.
  intros Hy. unfold strftime.
  now replace (1000 <=? year t) with true by (symmetry; now apply Z.leb_le).
Qed.

(** X11.  The name of a backup is the source path followed by
    [.backup_] and fifteen characters of timestamp, so it is never the
    source path itself; and for clock readings with a four-digit year,
    two backups of the same source get the same name exactly when they
    are taken in the same second. *)
Theorem X11_backup_name_identifies_the_second
        (short_year : Z -> str) (source : str) (t t' : datetime) :
  four_digit_year t -> four_digit_year t' ->
  List.length (backup_name short_year source t)
  = (List.length source + 23)%nat
  /\ backup_name short_year source t <> source
  /\ (backup_name short_year source t = backup_name short_year source t'
      <-> year t = year t' /\ month t = month t' /\ day t = day t'
          /\ hour t = hour t' /\ minute t = minute t'
          /\ second t = second t').
Proof.
  intros [Hy [Hm [Hd [Hh [Hmi Hs]]]]] [Hy' [Hm' [Hd' [Hh' [Hmi' Hs']]]]].
  unfold backup_name.
  rewrite !strftime_four_digit_year by assumption.
  assert (Hlen : List.length
                   (source ++ py ".backup_" ++ pad4 (year t)
                    ++ pad2 (month t) ++ pad2 (day t) ++ py "_"
                    ++ pad2 (hour t) ++ pad2 (minute t) ++ pad2 (second t))
                 = (List.length source + 23)%nat)
    by (rewrite length_app; reflexivity).
  split; [exact Hlen|]. split.
  - intros H. rewrite H in Hlen. lia.
  - split.
    + intros H. apply app_inv_head in H. apply app_inv_head in H.
      unfold pad4, pad2 in H. cbn [app] in H.
      change (py "_") with [chr "_"] in H. cbn [app] in H.
      injection H as Y1 Y2 Y3 Y4 M1 M2 D1 D2 H1 H2 I1 I2 S1 S2.
      assert (EY : pad4 (year t) = pad4 (year t'))
        by (unfold pad4; congruence).
      assert (EM : pad2 (month t) = pad2 (month t'))
        by (unfold pad2; congruence).
      assert (ED : pad2 (day t) = pad2 (day t'))
        by (unfold pad2; congruence).
      assert (EH : pad2 (hour t) = pad2 (hour t'))
        by (unfold pad2; congruence).
      assert (EI : pad2 (minute t) = pad2 (minute t'))
        by (unfold pad2; congruence).
      assert (ES : pad2 (second t) = pad2 (second t'))
        by (unfold pad2; congruence).
      apply pad4_inj in EY; [|lia|lia].
      apply pad2_inj in EM, ED, EH, EI, ES; lia.
    + intros [-> [-> [-> [-> [-> ->]]]]]. reflexivity.
Qed.

Lemma stdout_log (e : event) (w : world) :
  stdout (log e w)
  = stdout w ++ match e with EvPrint t => [t] | _ => [] end.
Proof.
  unfold stdout, log. cbn [trace]. rewrite flat_map_app. cbn [flat_map].
  now rewrite app_nil_r.
Qed.

Lemma copies_log (e : event) (w : world) :
  copies (log e w)
  = copies w ++ match e with
                | EvCopy2 s d | EvCopyTree s d => [(s, d)]
                | _ => []
                end.
Proof.
  unfold copies, log. cbn [trace]. rewrite flat_map_app. cbn [flat_map].
  now rewrite app_nil_r.
Qed.

Ltac world_fields :=
  cbn [path_exists path_isfile path_isdir copy2 copytree now trace
       write_error flush_error negb existsb orb].

Ltac run_backup :=
  unfold main, create_backup, copy_source, backup_name, bind_, try_except,
    exit_, raise_, unit_, os_path_exists, os_path_isfile, os_path_isdir,
    datetime_now, shutil_copy2, shutil_copytree, print, reported, handled,
    log;
  world_fields.

Lemma write_error_log (e : event) (w : world) :
  write_error (log e w) = write_error w.
Proof. reflexivity. Qed.

Lemma write_exc_is_Exception (failure : write_failure) :
  isinstance (write_exc failure) Cls.Exception = true.
Proof. now destruct failure. Qed.

(** The whole run of [main], case by case. *)
Lemma main_run (short_year : Z -> str) (source : str) (w : world) :
  let name := backup_name short_year source (now w) in
  let w1 := log (EvNow (now w)) (log (EvExists source true) w) in
  main short_year source w
  = if path_exists w source then
      match copy_answer w source name with
      | None =>
          reported (py "Error: '" ++ source
                    ++ py "' is neither a file nor a directory.") 1
                   (log (EvIsDir source false)
                        (log (EvIsFile source false) w1))
      | Some (ev, answer) =>
          let w2 :=
            log ev (if path_isfile w source
                    then log (EvIsFile source true) w1
                    else log (EvIsDir source true)
                             (log (EvIsFile source false) w1)) in
          match answer with
          | None => reported (py "Backup created: " ++ name) 0 w2
          | Some e =>
              if isinstance e Cls.Exception then handled e w2
              else (Raises e, w2)
          end
      end
    else
      match write_error w (py "Error: Source '" ++ source
                           ++ py "' does not exist.") with
      | None =>
          (Raises (Exited 1),
           log (EvPrint (py "Error: Source '" ++ source
                         ++ py "' does not exist."))
               (log (EvExists source false) w))
      | Some failure =>
          (Raises (write_exc failure), log (EvExists source false) w)
      end.
Proof.
  intros name w1. subst name w1. unfold copy_answer. run_backup.
  destruct (path_exists w source); world_fields;
    [|destruct (write_error w _); reflexivity].
  destruct (path_isfile w source); world_fields.
  - destruct (copy2 w source _) as [e|]; world_fields.
    + rewrite orb_false_r.
      destruct (isinstance e Cls.Exception); [|reflexivity].
      destruct (write_error w _); reflexivity.
    + destruct (write_error w (py "Backup created: " ++ _)) as [failure|];
        world_fields; [|reflexivity].
      rewrite write_exc_is_Exception. cbn [orb].
      destruct (write_error w _); reflexivity.
  - destruct (path_isdir w source); world_fields.
    + destruct (copytree w source _) as [e|]; world_fields.
      * rewrite orb_false_r.
        destruct (isinstance e Cls.Exception); [|reflexivity].
        destruct (write_error w _); reflexivity.
      * destruct (write_error w (py "Backup created: " ++ _))
          as [failure|]; world_fields; [|reflexivity].
        rewrite write_exc_is_Exception. cbn [orb].
        destruct (write_error w _); reflexivity.
    + destruct (write_error w (py "Error: '" ++ _)) as [failure|];
        world_fields; [|reflexivity].
      rewrite write_exc_is_Exception. cbn [orb].
      destruct (write_error w _); reflexivity.
Qed.

Lemma copy_answer_event (w : world) (source name : str) (ev : event)
      (answer : option exc) :
  copy_answer w source name = Some (ev, answer) ->
  path_isfile w source || path_isdir w source = true
  /\ (ev = EvCopy2 source name \/ ev = EvCopyTree source name).
Proof.
  unfold copy_answer. destruct (path_isfile w source).
  - intros H. injection H as <- _. auto.
  - destruct (path_isdir w source); [|discriminate].
    intros H. injection H as <- _. auto.
Qed.

Lemma copy_answer_none (w : world) (source name : str) :
  copy_answer w source name = None ->
  path_isfile w source || path_isdir w source = false.
Proof.
  unfold copy_answer. destruct (path_isfile w source); [discriminate|].
  destruct (path_isdir w source); [discriminate|reflexivity].
Qed.

Lemma copy_answer_exception (w : world) (source name : str) (ev : event)
      (e : exc) :
  copies_raise_exceptions w ->
  copy_answer w source name = Some (ev, Some e) ->
  isinstance e Cls.Exception = true.
Proof.
  unfold copy_answer. intros Hexc H. destruct (path_isfile w source).
  - injection H as _ H. apply (Hexc source name). now left.
  - destruct (path_isdir w source); [|discriminate H].
    injection H as _ H. apply (Hexc source name). now right.
Qed.

(** The world a run leaves when it has asked for its copy. *)
Lemma after_copy (w : world) (source name : str) (ev : event) (t : datetime)
      (w2 : world) :
  ev = EvCopy2 source name \/ ev = EvCopyTree source name ->
  w2 = log ev (if path_isfile w source
               then log (EvIsFile source true)
                        (log (EvNow t) (log (EvExists source true) w))
               else log (EvIsDir source true)
                        (log (EvIsFile source false)
                             (log (EvNow t) (log (EvExists source true) w)))) ->
  stdout w2 = stdout w /\ copies w2 = copies w ++ [(source, name)]
  /\ write_error w2 = write_error w.
Proof.
  intros Hev ->. destruct Hev as [-> | ->]; destruct (path_isfile w source);
    rewrite !stdout_log, !copies_log, !app_nil_r; repeat split.
Qed.

(** X12.  When the copies fail with instances of [Exception] only, the
    process ends with status 0 exactly when the source exists, is a file
    or a directory, its copy succeeded, and [Backup created: <name>] was
    written and flushed; [main] itself never ends with a status other
    than 0 or 1.  At most one copy is asked for, of the source to the
    backup name, and only when the source exists and is a file or a
    directory.  When standard output takes every line, the run ends in
    [sys.exit] after printing exactly one line, [Backup created: <name>]
    with status 0 or a line that starts with [Error] with status 1.
    When the copy succeeded but its confirmation cannot be written, the
    run reports [Error during backup: <the write error>] and ends with
    status 1 although the backup was made. *)
Theorem X12_backup_status_reports_the_copy
        (short_year : Z -> str) (source : str) (w : world) :
  copies_raise_exceptions w ->
  let name := backup_name short_year source (now w) in
  let run := main short_year source w in
  (exit_code (flush_error w) run = 0
   <-> copied w source name
       /\ write_error w (py "Backup created: " ++ name) = None
       /\ flush_error w = false)
  /\ (fst (status_of run) = 0 \/ fst (status_of run) = 1)
  /\ copies (snd run)
     = copies w
       ++ (if path_exists w source
              && (path_isfile w source || path_isdir w source)
           then [(source, name)] else [])
  /\ (writes_succeed w ->
      exists code line,
        fst run = Raises (Exited code)
        /\ (code = 0 \/ code = 1)
        /\ (code = 0 <-> copied w source name)
        /\ stdout (snd run) = stdout w ++ [line]
        /\ (code = 0 -> line = py "Backup created: " ++ name)
        /\ (code = 1 -> startswith (py "Error") line = true))
  /\ (copied w source name ->
      forall failure,
        write_error w (py "Backup created: " ++ name) = Some failure ->
        write_error w (py "Error during backup: "
                       ++ exc_str (write_exc failure)) = None ->
        fst run = Raises (Exited 1)
        /\ stdout (snd run)
           = stdout w
             ++ [py "Error during backup: " ++ exc_str (write_exc failure)]).
Proof.
  intros Hexc name run. subst run. unfold copied.
  rewrite main_run. fold name.
  destruct (path_exists w source) eqn:Hfound; cbn [andb].
  - destruct (copy_answer w source name) as [[ev [e|]]|] eqn:Hcopy.
    + (* the copy fails *)
      rewrite (copy_answer_exception _ _ _ _ _ Hexc Hcopy).
      destruct (copy_answer_event _ _ _ _ _ Hcopy) as [-> Hev].
      match goal with
      | |- context [handled _ ?x] => remember x as w2 eqn:Hw2
      end.
      destruct (after_copy w source name ev (now w) w2 Hev Hw2)
        as [Hout [Hcopies Hw]].
      clear Hw2. unfold handled. rewrite Hw.
      split; [|split; [|split; [|split]]].
      * unfold exit_code.
        split; [|intros [[_ [ev' H]] _]; discriminate H].
        destruct (flush_error w); [discriminate|].
        destruct (write_error w _) as [[msg|msg]|]; discriminate.
      * destruct (write_error w _) as [[msg|msg]|]; now right.
      * destruct (write_error w _); cbn [snd];
          rewrite ?copies_log, ?app_nil_r; exact Hcopies.
      * intros Hws. rewrite Hws. eexists 1, _.
        split; [reflexivity|]. split; [now right|].
        split; [split; [discriminate|intros [_ [ev' H]]; discriminate H]|].
        cbn [snd]. rewrite stdout_log, Hout.
        split; [reflexivity|]. split; [discriminate|reflexivity].
      * intros [_ [ev' H]]. discriminate H.
    + (* the copy succeeds *)
      destruct (copy_answer_event _ _ _ _ _ Hcopy) as [-> Hev].
      match goal with
      | |- context [reported _ _ ?x] => remember x as w2 eqn:Hw2
      end.
      destruct (after_copy w source name ev (now w) w2 Hev Hw2)
        as [Hout [Hcopies Hw]].
      clear Hw2. unfold reported, handled. rewrite Hw.
      split; [|split; [|split; [|split]]].
      * unfold exit_code.
        destruct (write_error w (py "Backup created: " ++ name))
          as [failure|].
        -- split; [|intros [_ [H _]]; discriminate H].
           destruct (flush_error w); [discriminate|].
           destruct (write_error w _) as [[msg|msg]|]; discriminate.
        -- destruct (flush_error w); cbn [status_of fst].
           ++ split; [discriminate|intros [_ [_ H]]; discriminate H].
           ++ split; [intros _|reflexivity].
              split; [split; [reflexivity|now exists ev]|now split].
      * destruct (write_error w (py "Backup created: " ++ name));
          [|now left].
        destruct (write_error w _) as [[msg|msg]|]; now right.
      * destruct (write_error w (py "Backup created: " ++ name));
          [destruct (write_error w _)|]; cbn [snd];
          rewrite ?copies_log, ?app_nil_r; exact Hcopies.
      * intros Hws. rewrite Hws. eexists 0, _.
        split; [reflexivity|]. split; [now left|].
        split; [split; [intros _; split; [reflexivity|now exists ev]
                       |reflexivity]|].
        cbn [snd]. rewrite stdout_log, Hout.
        split; [reflexivity|]. split; [reflexivity|discriminate].
      * intros _ failure Hfail Hreport. rewrite Hfail, Hreport.
        cbn [fst snd]. rewrite stdout_log, Hout. split; reflexivity.
    + (* neither a file nor a directory *)
      rewrite (copy_answer_none _ _ _ Hcopy).
      match goal with
      | |- context [reported _ _ ?x] => remember x as w3 eqn:Hw3
      end.
      assert (Hstart : stdout w3 = stdout w /\ copies w3 = copies w
                       /\ write_error w3 = write_error w).
      { rewrite Hw3, !stdout_log, !copies_log, !app_nil_r.
        repeat split. }
      destruct Hstart as [Hout [Hcopies Hw]].
      clear Hw3. unfold reported, handled. rewrite Hw.
      split; [|split; [|split; [|split]]].
      * unfold exit_code.
        split; [|intros [[_ [ev' H]] _]; discriminate H].
        destruct (flush_error w); [discriminate|].
        destruct (write_error w (py "Error: '" ++ _)) as [failure|];
          [|discriminate].
        destruct (write_error w _) as [[msg|msg]|]; discriminate.
      * destruct (write_error w (py "Error: '" ++ _)); [|now right].
        destruct (write_error w _) as [[msg|msg]|]; now right.
      * destruct (write_error w (py "Error: '" ++ _));
          [destruct (write_error w _)|]; cbn [snd];
          rewrite ?copies_log, ?app_nil_r; exact Hcopies.
      * intros Hws. rewrite Hws. eexists 1, _.
        split; [reflexivity|]. split; [now right|].
        split; [split; [discriminate|intros [_ [ev' H]]; discriminate H]|].
        cbn [snd]. rewrite stdout_log, Hout.
        split; [reflexivity|]. split; [discriminate|reflexivity].
      * intros [_ [ev' H]]. discriminate H.
  - split; [|split; [|split; [|split]]].
    + unfold exit_code. split; [|intros [[H _] _]; discriminate H].
      destruct (flush_error w); [discriminate|].
      destruct (write_error w _) as [[msg|msg]|]; discriminate.
    + destruct (write_error w _) as [[msg|msg]|]; now right.
    + destruct (write_error w _); cbn [snd];
        rewrite ?copies_log, ?app_nil_r; reflexivity.
    + intros Hws. rewrite Hws. eexists 1, _.
      split; [reflexivity|]. split; [now right|].
      split; [split; [discriminate|intros [H _]; discriminate H]|].
      cbn [snd]. rewrite !stdout_log, !app_nil_r.
      split; [reflexivity|]. split; [discriminate|reflexivity].
    + intros [H _]. discriminate H.
Qed.

(** X13.  A copy that fails with an instance of [Exception] is reported
    as [Error during backup: <message>], when that line can be written,
    and the run ends in [sys.exit(1)]; when the line cannot be written
    the run ends with the write error instead.  A copy that fails with
    any other exception (a [KeyboardInterrupt], a [SystemExit]) is not
    caught: the run ends with that exception and prints nothing.  In
    every case the copy was asked for once. *)
Theorem X13_failed_copy_is_reported_or_escapes
        (short_year : Z -> str) (source : str) (w : world)
        (ev : event) (e : exc) :
  path_exists w source = true ->
  copy_answer w source (backup_name short_year source (now w))
  = Some (ev, Some e) ->
  let name := backup_name short_year source (now w) in
  let run := main short_year source w in
  copies (snd run) = copies w ++ [(source, name)]
  /\ (isinstance e Cls.Exception = true ->
      write_error w (py "Error during backup: " ++ exc_str e) = None ->
      fst run = Raises (Exited 1)
      /\ stdout (snd run)
         = stdout w ++ [py "Error during backup: " ++ exc_str e])
  /\ (isinstance e Cls.Exception = true ->
      forall failure,
        write_error w (py "Error during backup: " ++ exc_str e)
        = Some failure ->
        fst run = Raises (write_exc failure)
        /\ stdout (snd run) = stdout w)
  /\ (isinstance e Cls.Exception = false ->
      fst run = Raises e /\ stdout (snd run) = stdout w).
Proof.
  intros Hfound Hcopy name run. subst run.
  rewrite main_run. fold name. fold name in Hcopy.
  rewrite Hfound, Hcopy. cbv beta iota zeta.
  destruct (copy_answer_event _ _ _ _ _ Hcopy) as [_ Hev].
  match goal with
  | |- context [handled _ ?x] => remember x as w2 eqn:Hw2
  end.
  destruct (after_copy w source name ev (now w) w2 Hev Hw2)
    as [Hout [Hcopies Hw]].
  clear Hw2. unfold handled. rewrite Hw.
  destruct (isinstance e Cls.Exception).
  - destruct (write_error w _) as [failure|]; cbn [fst snd];
      rewrite ?stdout_log, ?copies_log, ?app_nil_r, Hout.
    + split; [exact Hcopies|]. split; [discriminate|].
      split; [|discriminate].
      intros _ failure' H. injection H as <-. split; reflexivity.
    + split; [exact Hcopies|]. split; [split; reflexivity|].
      split; [|discriminate]. intros _ failure' H. discriminate H.
  - cbn [fst snd]. split; [exact Hcopies|]. split; [discriminate|].
    split; [discriminate|]. intros _. split; [reflexivity|exact Hout].
Qed.

(** X14.  Nothing is copied when the source is missing or is neither a
    file nor a directory, and [main] never ends with status 0 then.  For
    a missing source the run only tests the path and prints
    [Error: Source '<source>' does not exist.]: the clock is not read.
    For a source that exists but is neither, it prints
    [Error: '<source>' is neither a file nor a directory.]  When the
    line can be written the run ends in [sys.exit(1)]. *)
Theorem X14_backup_refuses_what_it_cannot_copy
        (short_year : Z -> str) (source : str) (w : world) :
  let run := main short_year source w in
  (path_exists w source = false ->
   fst (status_of run) = 1
   /\ copies (snd run) = copies w
   /\ (forall t, In (EvNow t) (trace (snd run)) -> In (EvNow t) (trace w))
   /\ (write_error w (py "Error: Source '" ++ source
                      ++ py "' does not exist.") = None ->
       fst run = Raises (Exited 1)
       /\ trace (snd run)
          = trace w ++ [EvExists source false;
                        EvPrint (py "Error: Source '" ++ source
                                 ++ py "' does not exist.")]))
  /\ (path_exists w source = true ->
      path_isfile w source = false -> path_isdir w source = false ->
      fst (status_of run) = 1
      /\ copies (snd run) = copies w
      /\ (write_error w (py "Error: '" ++ source
                         ++ py "' is neither a file nor a directory.")
          = None ->
          fst run = Raises (Exited 1)
          /\ stdout (snd run)
             = stdout w ++ [py "Error: '" ++ source
                            ++ py "' is neither a file nor a directory."])).
Proof.
  intros run. subst run. rewrite main_run. unfold copy_answer. split.
  - intros ->. cbv beta iota zeta.
    destruct (write_error w _) as [[msg|msg]|]; cbn [fst snd status_of];
      rewrite ?copies_log, ?app_nil_r;
      (split; [reflexivity|]); (split; [reflexivity|]); split;
      try discriminate.
    + unfold log. cbn [trace]. intros t H. apply in_app_or in H.
      destruct H as [H|[H|[]]]; [exact H|discriminate H].
    + unfold log. cbn [trace]. intros t H. apply in_app_or in H.
      destruct H as [H|[H|[]]]; [exact H|discriminate H].
    + unfold log. cbn [trace]. intros t H.
      apply in_app_or in H. destruct H as [H|[H|[]]]; [|discriminate H].
      apply in_app_or in H. destruct H as [H|[H|[]]];
        [exact H|discriminate H].
    + intros _. split; [reflexivity|].
      unfold log. cbn [trace]. now rewrite <- app_assoc.
  - intros -> -> ->. cbv beta iota zeta.
    unfold reported, handled. rewrite !write_error_log.
    destruct (write_error w (py "Error: '" ++ _)) as [failure|].
    + destruct (write_error w _) as [[msg|msg]|]; cbn [fst snd status_of];
        rewrite ?copies_log, ?app_nil_r;
        (split; [reflexivity|]); (split; [reflexivity|]); discriminate.
    + cbn [fst snd status_of]. rewrite !stdout_log, !copies_log, !app_nil_r.
      split; [reflexivity|]. split; [reflexivity|].
      intros _. split; reflexivity.
Qed.

(** *** At concrete inputs *)

Lemma X11_witness :
  let t := mk_datetime 2025 11 22 10 30 45 0 in
  let t' := mk_datetime 2025 11 22 10 30 46 0 in
  four_digit_year t /\ four_digit_year t'
  /\ backup_name padded_year (py "document.txt") t
     = py "document.txt.backup_20251122_103045"
  /\ backup_name padded_year (py "document.txt") t
     <> backup_name padded_year (py "document.txt") t'.
Proof.
  intros t t'.
  assert (H1 : four_digit_year t) by (unfold four_digit_year; cbn; lia).
  assert (H2 : four_digit_year t') by (unfold four_digit_year; cbn; lia).
  split; [exact H1|]. split; [exact H2|].
  split; [vm_compute; reflexivity|].
  destruct (X11_backup_name_identifies_the_second
              padded_year (py "document.txt") t t' H1 H2)
    as [_ [_ [Hsame _]]].
  intros E. apply Hsame in E.
  destruct E as [_ [_ [_ [_ [_ E]]]]]. discriminate E.
Defined.

Lemma X12_witness :
  copies_raise_exceptions (example_world true true false None)
  /\ writes_succeed (example_world true true false None)
  /\ exit_code (flush_error (example_world true true false None))
               (main padded_year (py "document.txt")
                     (example_world true true false None))
     = 0
  /\ copies_raise_exceptions strict_stdout_world
  /\ fst (main padded_year (py "report" ++ [56448%N]) strict_stdout_world)
     = Raises (Exited 1)
  /\ copies (snd (main padded_year (py "report" ++ [56448%N])
                       strict_stdout_world))
     = [(py "report" ++ [56448%N],
         py "report" ++ [56448%N] ++ py ".backup_20251122_103045")]
  /\ stdout (snd (main padded_year (py "report" ++ [56448%N])
                       strict_stdout_world))
     = [py "Error during backup: surrogates not allowed"].
Proof.
  assert (H1 : copies_raise_exceptions (example_world true true false None))
    by (intros src dst e [H|H]; discriminate H).
  assert (H2 : writes_succeed (example_world true true false None))
    by (intros text; reflexivity).
  assert (H3 : copies_raise_exceptions strict_stdout_world)
    by (intros src dst e [H|H]; discriminate H).
  split; [exact H1|]. split; [exact H2|].
  destruct (X12_backup_status_reports_the_copy
              padded_year (py "document.txt") _ H1)
    as [Hzero _].
  destruct (X12_backup_status_reports_the_copy
              padded_year (py "report" ++ [56448%N]) _ H3)
    as [_ [_ [Hcopies [_ Hunwritten]]]].
  split.
  { apply Hzero. split; [|split; reflexivity].
    split; [reflexivity|]. eexists. reflexivity. }
  split; [exact H3|].
  assert (Hcopied : copied strict_stdout_world (py "report" ++ [56448%N])
                      (backup_name padded_year (py "report" ++ [56448%N])
                                   (now strict_stdout_world))).
  { split; [reflexivity|]. eexists. reflexivity. }
  destruct (Hunwritten Hcopied (FailEncode (py "surrogates not allowed"))
              eq_refl eq_refl) as [Hstatus Hout].
  split; [exact Hstatus|]. split; [|exact Hout].
  rewrite Hcopies. vm_compute. reflexivity.
Defined.

Lemma X13_witness :
  let denied := Raised Cls.PermissionError (py "Permission denied") in
  let w := example_world true true false (Some denied) in
  path_exists w (py "document.txt") = true
  /\ copy_answer w (py "document.txt")
                 (backup_name padded_year (py "document.txt") (now w))
     = Some (EvCopy2 (py "document.txt")
                     (backup_name padded_year (py "document.txt") (now w)),
             Some denied)
  /\ write_error w (py "Error during backup: " ++ exc_str denied) = None
  /\ fst (main padded_year (py "document.txt") w) = Raises (Exited 1)
  /\ stdout (snd (main padded_year (py "document.txt") w))
     = [py "Error during backup: Permission denied"].
Proof.
  intros denied w.
  assert (H1 : path_exists w (py "document.txt") = true) by reflexivity.
  assert (H2 : copy_answer w (py "document.txt")
                 (backup_name padded_year (py "document.txt") (now w))
               = Some (EvCopy2 (py "document.txt")
                         (backup_name padded_year (py "document.txt")
                                      (now w)),
                       Some denied)) by reflexivity.
  assert (H3 : write_error w (py "Error during backup: "
                              ++ exc_str denied) = None) by reflexivity.
  split; [exact H1|]. split; [exact H2|]. split; [exact H3|].
  destruct (X13_failed_copy_is_reported_or_escapes
              padded_year (py "document.txt") w _ denied H1 H2)
    as [_ [Hcaught _]].
  exact (Hcaught eq_refl H3).
Defined.

Lemma X14_witness :
  path_exists (example_world false false false None) (py "document.txt")
  = false
  /\ fst (main padded_year (py "document.txt")
               (example_world false false false None))
     = Raises (Exited 1)
  /\ copies (snd (main padded_year (py "document.txt")
                       (example_world true false false None)))
     = [].
Proof.
  split; [reflexivity|].
  destruct (X14_backup_refuses_what_it_cannot_copy
              padded_year (py "document.txt")
              (example_world false false false None))
    as [Hmissing _].
  destruct (X14_backup_refuses_what_it_cannot_copy
              padded_year (py "document.txt")
              (example_world true false false None))
    as [_ Hneither].
  destruct (Hmissing eq_refl) as [_ [_ [_ Hwritten]]].
  destruct (Hneither eq_refl eq_refl eq_refl) as [_ [Hcopies _]].
  split; [exact (proj1 (Hwritten eq_refl))|exact Hcopies].
Defined.

End BackupToolFacts.

(** ** [disk_monitor.py]: properties *)

Module DiskMonitorFacts.
Import DiskMonitor.

Lemma stdout_log_event (e : event) (w : world) :
  stdout (log e w) = stdout w ++ match e with EvOut t => [t] | _ => [] end.
Proof.
  unfold stdout, log. cbn [trace]. rewrite flat_map_app. cbn [flat_map].
  now rewrite app_nil_r.
Qed.

Lemma stderr_log_event (e : event) (w : world) :
  stderr (log e w) = stderr w ++ match e with EvErr t => [t] | _ => [] end.
Proof.
  unfold stderr, log. cbn [trace]. rewrite flat_map_app. cbn [flat_map].
  now rewrite app_nil_r.
Qed.

Lemma usage_requests_log (e : event) (w : world) :
  usage_requests (log e w)
  = usage_requests w ++ match e with EvDiskUsage p => [p] | _ => [] end.
Proof.
  unfold usage_requests, log. cbn [trace]. rewrite flat_map_app.
  cbn [flat_map]. now rewrite app_nil_r.
Qed.

Lemma write_error_log_event (e : event) (w : world) :
  write_error (log e w) = write_error w.
Proof. reflexivity. Qed.

Lemma stderr_error_log_event (e : event) (w : world) :
  stderr_error (log e w) = stderr_error w.
Proof. reflexivity. Qed.

(** [get_disk_usage] as [check_disk_usage] calls it, case by case. *)
Lemma guarded_get_disk_usage (path : str) (w : world) :
  try_except (get_disk_usage path)
             [Cls.FileNotFoundError; Cls.PermissionError]
             (fun e =>
                bind_ (print_stderr (py "Error: " ++ exc_str e))
                      (fun _ => exit_ 1)) w
  = if path_exists w path then
      let w1 := log (EvDiskUsage path) (log (EvExists path true) w) in
      match disk_usage w path with
      | inr usage => (Returns usage, w1)
      | inl e =>
          if isinstance e Cls.FileNotFoundError
             || isinstance e Cls.PermissionError
          then reported (py "Error: " ++ exc_str e) w1
          else (Raises e, w1)
      end
    else reported (py "Error: Path does not exist: " ++ path)
                  (log (EvExists path false) w).
Proof.
  unfold try_except, get_disk_usage, bind_, os_path_exists,
    shutil_disk_usage, print_stderr, exit_, raise_, unit_, reported.
  destruct (path_exists w path); cbn [negb].
  - cbn [disk_usage log path_exists].
    destruct (disk_usage w path) as [e|[[total used] free]]; [|reflexivity].
    cbn [existsb]. rewrite orb_false_r.
    destruct (isinstance e Cls.FileNotFoundError || _); [|reflexivity].
    now destruct (stderr_error _ _).
  - cbn [existsb isinstance exc_class Cls.issubclass orb exc_str].
    now destruct (stderr_error _ _).
Qed.

Ltac run_monitor :=
  unfold DiskMonitor.main, DiskMonitor.check_disk_usage, bind_;
  rewrite guarded_get_disk_usage.

(** X15.  For a path that does not exist, [shutil.disk_usage] is never
    asked, nothing is written to standard output and [main] ends with
    status 1.  When the line can be written to standard error, the run
    tests the path, writes [Error: Path does not exist: <path>] and ends
    in [sys.exit(1)]. *)
Theorem X15_missing_path_is_reported_without_asking
        (path : str) (threshold : Z) (w : world) :
  path_exists w path = false ->
  let run := main path threshold w in
  fst (status_of run) = 1
  /\ usage_requests (snd run) = usage_requests w
  /\ stdout (snd run) = stdout w
  /\ (stderr_error w (py "Error: Path does not exist: " ++ path) = None ->
      fst run = Raises (Exited 1)
      /\ trace (snd run)
         = trace w ++ [EvExists path false;
                       EvErr (py "Error: Path does not exist: " ++ path)]).
Proof.
  intros Hfound run. subst run. run_monitor. rewrite Hfound.
  unfold reported. rewrite stderr_error_log_event.
  destruct (stderr_error w _) as [[msg|msg]|]; cbn [fst snd status_of];
    rewrite ?stdout_log_event, ?usage_requests_log, ?app_nil_r;
    (split; [reflexivity|]); (split; [reflexivity|]);
    (split; [reflexivity|]); try discriminate.
  intros _. split; [reflexivity|].
  unfold log. cbn [trace]. now rewrite <- app_assoc.
Qed.

(** X16.  When [shutil.disk_usage] fails with a [FileNotFoundError] or a
    [PermissionError], [main] ends with status 1, and when the line can
    be written to standard error the run writes [Error: <message>] and
    ends in [sys.exit(1)]; when it fails with any other exception
    (another [OSError], say), the exception is not caught and the run
    ends with it.  Nothing is written to standard output either way. *)
Theorem X16_failed_disk_usage_is_reported_or_escapes
        (path : str) (threshold : Z) (w : world) (e : exc) :
  path_exists w path = true ->
  disk_usage w path = inl e ->
  let run := main path threshold w in
  let handled := isinstance e Cls.FileNotFoundError
                 || isinstance e Cls.PermissionError in
  stdout (snd run) = stdout w
  /\ usage_requests (snd run) = usage_requests w ++ [path]
  /\ (handled = true ->
      fst (status_of run) = 1
      /\ (stderr_error w (py "Error: " ++ exc_str e) = None ->
          fst run = Raises (Exited 1)
          /\ stderr (snd run) = stderr w ++ [py "Error: " ++ exc_str e]))
  /\ (handled = false ->
      fst run = Raises e /\ stderr (snd run) = stderr w).
Proof.
  intros Hfound Husage run handled. subst run handled. run_monitor.
  rewrite Hfound, Husage. cbv zeta.
  destruct (isinstance e Cls.FileNotFoundError || _).
  - unfold reported. rewrite !stderr_error_log_event.
    destruct (stderr_error w _) as [[msg|msg]|]; cbn [fst snd status_of];
      rewrite ?stdout_log_event, ?stderr_log_event, ?usage_requests_log,
        ?app_nil_r;
      (split; [reflexivity|]); (split; [reflexivity|]);
      (split; [|discriminate]); intros _; (split; [reflexivity|]);
      try discriminate.
    intros _. split; reflexivity.
  - cbn [fst snd].
    rewrite ?stdout_log_event, ?stderr_log_event, ?usage_requests_log,
      ?app_nil_r.
    split; [reflexivity|]. split; [reflexivity|].
    split; [discriminate|]. intros _. split; reflexivity.
Qed.


Lemma le_int_mono (x : spec_float) (n n' : Z) :
  n <= n' -> Float.le_int x n = true -> Float.le_int x n' = true.
Proof.
  intros Hn. destruct x as [negative|negative| |negative m e];
    cbn [Float.le_int]; try (intros H; exact H).
  - rewrite !Z.leb_le. lia.
  - destruct (0 <=? e) eqn:He; rewrite !Z.leb_le; [lia|].
    intros H. assert (0 <= 2 ^ (- e)) by (apply Z.pow_nonneg; lia). nia.
Qed.

(** The run of [main] once the usage is read and the divisions give
    floats, when every line can be written. *)
Lemma verdict_run (path : str) (threshold total used free : Z) (w : world)
      (ratio gb_total gb_used gb_free : spec_float) :
  path_exists w path = true ->
  disk_usage w path = inr (total, used, free) ->
  total <> 0 ->
  Float.truediv used total = Some ratio ->
  Float.truediv total (1024 ^ 3) = Some gb_total ->
  Float.truediv used (1024 ^ 3) = Some gb_used ->
  Float.truediv free (1024 ^ 3) = Some gb_free ->
  writes_succeed w ->
  let usage_percent := Float.mul ratio (Float.of_int 100) in
  let is_safe := Float.le_int usage_percent threshold in
  let run := main path threshold w in
  fst run = Raises (Exited (if is_safe then 0 else 1))
  /\ stdout (snd run)
     = stdout w
       ++ [py "Path: " ++ path;
           py "Total: " ++ Float.format_fixed 2 gb_total ++ py " GB";
           py "Used:  " ++ (Float.format_fixed 2 gb_used ++ py " GB")
             ++ py " (" ++ Float.format_fixed 1 usage_percent ++ py "%)";
           py "Free:  " ++ Float.format_fixed 2 gb_free ++ py " GB"]
       ++ (if is_safe
           then [py "Disk usage is within acceptable limits."] else [])
  /\ stderr (snd run)
     = stderr w
       ++ (if is_safe then []
           else [py "WARNING: Disk usage ("
                 ++ Float.format_fixed 1 usage_percent
                 ++ py "%) exceeds threshold ("
                 ++ str_of_int threshold ++ py "%)"]).
Proof.
  intros Hfound Husage Htotal Hratio Hgt Hgu Hgf [Hout Herr]
         usage_percent is_safe run.
  subst run. run_monitor. rewrite Hfound, Husage. cbv zeta.
  unfold format_bytes, int_truediv, bind_, unit_, exit_, raise_, print,
    print_stderr.
  replace (total =? 0) with false by (symmetry; now apply Z.eqb_neq).
  rewrite Hratio.
  replace (1024 ^ 3 =? 0) with false by reflexivity.
  rewrite Hgt, Hgu, Hgf.
  fold usage_percent. fold is_safe.
  destruct is_safe; cbn [negb];
    repeat (first [rewrite write_error_log_event
                  |rewrite stderr_error_log_event
                  |rewrite Hout|rewrite Herr]; cbv beta iota);
    cbn [fst snd];
    rewrite ?stdout_log_event, ?stderr_log_event, ?app_nil_r;
    (split; [reflexivity|]); split.
  - rewrite <- !app_assoc. reflexivity.
  - reflexivity.
  - rewrite <- !app_assoc. reflexivity.
  - reflexivity.
Qed.

(** X18.  When the usage is read, the divisions give floats and every
    line can be written, the run prints the path and the three sizes,
    and its verdict compares the percentage as [float] arithmetic
    computes it, [(used / total) * 100] rounded twice, with the
    threshold: if it is at most the threshold the run prints
    [Disk usage is within acceptable limits.] and ends in [sys.exit(0)];
    otherwise it writes the warning to standard error and ends in
    [sys.exit(1)].  The process status is that one unless the flush at
    exit fails.  A run that is within the limits stays so for every
    higher threshold. *)
Theorem X18_verdict_is_the_threshold_comparison
        (path : str) (threshold total used free : Z) (w : world)
        (ratio gb_total gb_used gb_free : spec_float) :
  path_exists w path = true ->
  disk_usage w path = inr (total, used, free) ->
  total <> 0 ->
  Float.truediv used total = Some ratio ->
  Float.truediv total (1024 ^ 3) = Some gb_total ->
  Float.truediv used (1024 ^ 3) = Some gb_used ->
  Float.truediv free (1024 ^ 3) = Some gb_free ->
  writes_succeed w ->
  let usage_percent := Float.mul ratio (Float.of_int 100) in
  let is_safe := Float.le_int usage_percent threshold in
  let run := main path threshold w in
  fst run = Raises (Exited (if is_safe then 0 else 1))
  /\ exit_code (flush_error w) run
     = (if flush_error w then 120 else if is_safe then 0 else 1)
  /\ stdout (snd run)
     = stdout w
       ++ [py "Path: " ++ path;
           py "Total: " ++ Float.format_fixed 2 gb_total ++ py " GB";
           py "Used:  " ++ (Float.format_fixed 2 gb_used ++ py " GB")
             ++ py " (" ++ Float.format_fixed 1 usage_percent ++ py "%)";
           py "Free:  " ++ Float.format_fixed 2 gb_free ++ py " GB"]
       ++ (if is_safe
           then [py "Disk usage is within acceptable limits."] else [])
  /\ stderr (snd run)
     = stderr w
       ++ (if is_safe then []
           else [py "WARNING: Disk usage ("
                 ++ Float.format_fixed 1 usage_percent
                 ++ py "%) exceeds threshold ("
                 ++ str_of_int threshold ++ py "%)"])
  /\ (forall threshold',
        threshold <= threshold' -> is_safe = true ->
        fst (main path threshold' w) = Raises (Exited 0)).
Proof.
  intros Hfound Husage Htotal Hratio Hgt Hgu Hgf Hws
         usage_percent is_safe run.
  destruct (verdict_run path threshold total used free w _ _ _ _
              Hfound Husage Htotal Hratio Hgt Hgu Hgf Hws)
    as [Hrun [Hout Herr]].
  fold usage_percent in Hrun, Hout, Herr.
  fold is_safe in Hrun, Hout, Herr. fold run in Hrun, Hout, Herr.
  split; [exact Hrun|]. split; [|split; [exact Hout|split; [exact Herr|]]].
  - unfold exit_code. destruct (flush_error w); [reflexivity|].
    destruct run as [r w']. cbn [fst] in Hrun. rewrite Hrun.
    now destruct is_safe.
  - intros threshold' Hle Hsafe.
    destruct (verdict_run path threshold' total used free w _ _ _ _
                Hfound Husage Htotal Hratio Hgt Hgu Hgf Hws)
      as [Hrun' _].
    rewrite Hrun'. fold usage_percent.
    now rewrite (le_int_mono usage_percent _ _ Hle Hsafe).
Qed.

(** *** At concrete inputs *)

Lemma X15_witness :
  path_exists (example_world false (inr (100, 7, 93))) (py "/data") = false
  /\ stderr_error (example_world false (inr (100, 7, 93)))
                  (py "Error: Path does not exist: " ++ py "/data") = None
  /\ fst (main (py "/data") 90 (example_world false (inr (100, 7, 93))))
     = Raises (Exited 1).
Proof.
  assert (H1 : path_exists (example_world false (inr (100, 7, 93)))
                           (py "/data") = false) by reflexivity.
  assert (H2 : stderr_error (example_world false (inr (100, 7, 93)))
                 (py "Error: Path does not exist: " ++ py "/data") = None)
    by reflexivity.
  split; [exact H1|]. split; [exact H2|].
  destruct (X15_missing_path_is_reported_without_asking
              (py "/data") 90 _ H1) as [_ [_ [_ Hwritten]]].
  exact (proj1 (Hwritten H2)).
Defined.

Lemma X16_witness :
  let denied := Raised Cls.PermissionError (py "Permission denied") in
  let w := example_world true (inl denied) in
  path_exists w (py "/data") = true
  /\ disk_usage w (py "/data") = inl denied
  /\ stderr_error w (py "Error: " ++ exc_str denied) = None
  /\ fst (main (py "/data") 90 w) = Raises (Exited 1)
  /\ stderr (snd (main (py "/data") 90 w))
     = [py "Error: Permission denied"].
Proof.
  intros denied w.
  assert (H1 : path_exists w (py "/data") = true) by reflexivity.
  assert (H2 : disk_usage w (py "/data") = inl denied) by reflexivity.
  assert (H3 : stderr_error w (py "Error: " ++ exc_str denied) = None)
    by reflexivity.
  split; [exact H1|]. split; [exact H2|]. split; [exact H3|].
  destruct (X16_failed_disk_usage_is_reported_or_escapes
              (py "/data") 90 w denied H1 H2)
    as [_ [_ [Hhandled _]]].
  destruct (Hhandled eq_refl) as [_ Hwritten].
  exact (Hwritten H3).
Defined.


(** Seven bytes used of a hundred, with the threshold at 7: the
    percentage comes out as 7.000000000000001, above the threshold. *)
Lemma X18_witness :
  let w := example_world true (inr (100, 7, 93)) in
  path_exists w (py "/data") = true
  /\ disk_usage w (py "/data") = inr (100, 7, 93)
  /\ 100 <> 0
  /\ Float.truediv 7 100 = Some (S754_finite false 5044031582654956 (-56))
  /\ Float.truediv 100 (1024 ^ 3)
     = Some (S754_finite false 7036874417766400 (-76))
  /\ Float.truediv 7 (1024 ^ 3)
     = Some (S754_finite false 7881299347898368 (-80))
  /\ Float.truediv 93 (1024 ^ 3)
     = Some (S754_finite false 6544293208522752 (-76))
  /\ writes_succeed w
  /\ fst (main (py "/data") 7 w) = Raises (Exited 1)
  /\ stdout (snd (main (py "/data") 7 w))
     = [py "Path: /data"; py "Total: 0.00 GB"; py "Used:  0.00 GB (7.0%)";
        py "Free:  0.00 GB"]
  /\ stderr (snd (main (py "/data") 7 w))
     = [py "WARNING: Disk usage (7.0%) exceeds threshold (7%)"]
  /\ fst (main (py "/data") 8 w) = Raises (Exited 0)
  /\ fst (main (py "/data") 90 w) = Raises (Exited 0).
Proof.
  intros w.
  assert (H1 : path_exists w (py "/data") = true) by reflexivity.
  assert (H2 : disk_usage w (py "/data") = inr (100, 7, 93))
    by reflexivity.
  assert (H3 : 100 <> 0) by discriminate.
  assert (H4 : Float.truediv 7 100
               = Some (S754_finite false 5044031582654956 (-56)))
    by (vm_compute; reflexivity).
  assert (H5 : Float.truediv 100 (1024 ^ 3)
               = Some (S754_finite false 7036874417766400 (-76)))
    by (vm_compute; reflexivity).
  assert (H6 : Float.truediv 7 (1024 ^ 3)
               = Some (S754_finite false 7881299347898368 (-80)))
    by (vm_compute; reflexivity).
  assert (H7 : Float.truediv 93 (1024 ^ 3)
               = Some (S754_finite false 6544293208522752 (-76)))
    by (vm_compute; reflexivity).
  assert (H8 : writes_succeed w) by (split; intros text; reflexivity).
  split; [exact H1|]. split; [exact H2|]. split; [exact H3|].
  split; [exact H4|]. split; [exact H5|]. split; [exact H6|].
  split; [exact H7|]. split; [exact H8|].
  destruct (X18_verdict_is_the_threshold_comparison
              (py "/data") 7 100 7 93 w _ _ _ _ H1 H2 H3 H4 H5 H6 H7 H8)
    as [Hrun [_ [Hout [Herr _]]]].
  destruct (X18_verdict_is_the_threshold_comparison
              (py "/data") 8 100 7 93 w _ _ _ _ H1 H2 H3 H4 H5 H6 H7 H8)
    as [Hrun' [_ [_ [_ Hhigher]]]].
  split; [rewrite Hrun; vm_compute; reflexivity|].
  split; [rewrite Hout; vm_compute; reflexivity|].
  split; [rewrite Herr; vm_compute; reflexivity|].
  split; [rewrite Hrun'; vm_compute; reflexivity|].
  apply (Hhigher 90); [lia|vm_compute; reflexivity].
Defined.

End DiskMonitorFacts.

(** ** [network_checker.py]: properties *)

Module NetworkCheckerFacts.
Import NetworkChecker.

Lemma stdout_log_print (e : event) (w : world) :
  stdout (log e w)
  = stdout w ++ match e with EvPrint t => [t] | _ => [] end.
Proof.
  unfold stdout, log. cbn [trace]. rewrite flat_map_app. cbn [flat_map].
  now rewrite app_nil_r.
Qed.

Lemma requests_log (e : event) (w : world) :
  requests (log e w)
  = requests w ++ match e with EvPrint _ => [] | _ => [e] end.
Proof.
  unfold requests, log. cbn [trace]. rewrite filter_app. cbn [filter].
  now destruct e.
Qed.

Lemma ping_argv_eq (host : str) :
  [py "ping"; py "-c"; str_of_int 1; py "-W"; str_of_int 2; host]
  = ping_argv host.
Proof. reflexivity. Qed.

(** [ping], case by case. *)
Lemma ping_run (host : str) (w : world) :
  ping host w
  = (match run w (ping_argv host) with
     | inr returncode => Returns (returncode =? 0)
     | inl e => if isinstance e Cls.Exception then Returns false
                else Raises e
     end, log (EvRun (ping_argv host)) w).
Proof.
  unfold ping, try_except, bind_, subprocess_run, unit_.
  rewrite ping_argv_eq.
  destruct (run w (ping_argv host)) as [e|code]; cbn [answer existsb];
    [|reflexivity].
  rewrite orb_false_r. now destruct (isinstance e Cls.Exception).
Qed.

Lemma resolve_dns_run (hostname : str) (w : world) :
  resolve_dns hostname w
  = (match gethostbyname w hostname with
     | inr ip => Returns (Some ip)
     | inl e => if isinstance e Cls.gaierror then Returns None
                else Raises e
     end, log (EvResolve hostname) w).
Proof.
  unfold resolve_dns, try_except, bind_, socket_gethostbyname, unit_.
  destruct (gethostbyname w hostname) as [e|ip]; cbn [answer existsb];
    [|reflexivity].
  rewrite orb_false_r. now destruct (isinstance e Cls.gaierror).
Qed.

Lemma check_http_run (url : str) (w : world) :
  check_http url w
  = (match http_get w url with
     | inr status_code => Returns (status_code =? 200)
     | inl e => if isinstance e Cls.Exception then Returns false
                else Raises e
     end, log (EvGet url) w).
Proof.
  unfold check_http, try_except, bind_, requests_get, unit_.
  destruct (http_get w url) as [e|code]; cbn [answer existsb];
    [|reflexivity].
  rewrite orb_false_r. now destruct (isinstance e Cls.Exception).
Qed.

Ltac world_answers :=
  cbn [run gethostbyname http_get write_error flush_error log trace].

Lemma ping_answer (host : str) (w : world) :
  (forall e, run w (ping_argv host) = inl e ->
             isinstance e Cls.Exception = true) ->
  ping host w = (Returns (ping_ok w host), log (EvRun (ping_argv host)) w).
Proof.
  intros H. rewrite ping_run. unfold ping_ok.
  destruct (run w (ping_argv host)) as [e|code]; [|reflexivity].
  now rewrite (H e eq_refl).
Qed.

Lemma check_http_answer (w : world) :
  (forall e, http_get w HTTP_URL = inl e ->
             isinstance e Cls.Exception = true) ->
  check_http HTTP_URL w = (Returns (http_ok w), log (EvGet HTTP_URL) w).
Proof.
  intros H. rewrite check_http_run. unfold http_ok.
  destruct (http_get w HTTP_URL) as [e|code]; [|reflexivity].
  now rewrite (H e eq_refl).
Qed.

(** X19.  [ping] and [check_http] answer instead of raising: when the
    command or the request fails with an instance of [Exception], the
    answer is [False].  [ping] answers [True] exactly when the command
    ran and returned 0, [check_http] exactly when the response came and
    its status is 200; each makes its one request. *)
Theorem X19_ping_and_check_http_answer_false_on_exceptions
        (w : world) (host url : str) :
  (forall e, run w (ping_argv host) = inl e ->
             isinstance e Cls.Exception = true) ->
  (forall e, http_get w url = inl e ->
             isinstance e Cls.Exception = true) ->
  exists reached served : bool,
    ping host w = (Returns reached, log (EvRun (ping_argv host)) w)
    /\ (reached = true <-> run w (ping_argv host) = inr 0)
    /\ check_http url w = (Returns served, log (EvGet url) w)
    /\ (served = true <-> http_get w url = inr 200).
Proof.
  intros Hrun Hget. rewrite ping_run, check_http_run.
  destruct (run w (ping_argv host)) as [e|code] eqn:Hcommand;
    destruct (http_get w url) as [e'|status] eqn:Hresponse;
    rewrite ?(Hrun _ eq_refl), ?(Hget _ eq_refl);
    eexists _, _; (split; [reflexivity|]);
    (split; [|split; [reflexivity|]]);
    try (split; [discriminate|discriminate]);
    rewrite Z.eqb_eq; split; congruence.
Qed.

(** X20.  When the command and the request fail with exceptions, the
    resolution with [socket.gaierror] only, and every line can be
    written, a run of [main] makes its four requests in their order
    whatever the answers, prints the eleven lines of its report, and
    ends in [sys.exit]: with status 0 and [All network checks passed.]
    when no check failed, with status 1 and [<n> network check(s)
    failed.] for the [n] checks that failed.  A name that resolves to
    the empty address counts as failed.  The process status is that one
    unless the flush at exit fails. *)
Theorem X20_exit_status_counts_failed_checks (w : world) :
  well_behaved w ->
  writes_succeed w ->
  let result (label : str) (ok : bool) (detail : str) :=
    label ++ (if ok then detail else py "FAILED") in
  let address := match gethostbyname w DNS_HOST with
                 | inr ip => ip
                 | inl _ => []
                 end in
  exists w',
    main w = (Raises (Exited (if failures w =? 0 then 0 else 1)), w')
    /\ exit_code (flush_error w) (main w)
       = (if flush_error w then 120
          else if failures w =? 0 then 0 else 1)
    /\ requests w'
       = requests w ++ [EvRun (ping_argv GATEWAY); EvResolve DNS_HOST;
                        EvRun (ping_argv PING_TARGET); EvGet HTTP_URL]
    /\ stdout w'
       = stdout w
         ++ [py "Network Diagnostics";
             py "   Checking gateway: 192.168.1.1";
             result (py "   Gateway (192.168.1.1): ")
                    (ping_ok w GATEWAY) (py "OK");
             py "   Resolving DNS: google.com";
             result (py "   DNS (google.com): ")
                    (dns_ok w) (py "Resolved to " ++ address);
             py "   Pinging: 8.8.8.8";
             result (py "   Ping (8.8.8.8): ")
                    (ping_ok w PING_TARGET) (py "OK");
             py "   HTTP request: https://google.com";
             result (py "   HTTP (https://google.com): ")
                    (http_ok w) (py "Status 200");
             [];
             if failures w =? 0 then py "All network checks passed."
             else str_of_int (failures w) ++ py " network check(s) failed."].
Proof.
  intros [Hrun [Hdns Hget]] Hws result address. subst result address.
  assert (Hresolve : forall w0,
             gethostbyname w0 = gethostbyname w ->
             resolve_dns DNS_HOST w0
             = (Returns match gethostbyname w DNS_HOST with
                        | inr ip => Some ip
                        | inl _ => None
                        end, log (EvResolve DNS_HOST) w0)).
  { intros w0 E. rewrite resolve_dns_run, E.
    destruct (gethostbyname w DNS_HOST) as [e|ip] eqn:Ha; [|reflexivity].
    now rewrite (Hdns _ _ Ha). }
  assert (Hprint : forall text w0,
             write_error w0 = write_error w ->
             print text w0 = (Returns tt, log (EvPrint text) w0)).
  { intros text w0 E. unfold print. now rewrite E, Hws. }
  unfold exit_code, main, bind_, exit_, raise_, unit_.
  repeat (rewrite Hprint by reflexivity; cbv beta iota).
  rewrite (ping_answer GATEWAY) by (intros e; apply Hrun).
  world_answers.
  replace (ping_ok _ GATEWAY) with (ping_ok w GATEWAY) by reflexivity.
  unfold failures, dns_ok.
  destruct (ping_ok w GATEWAY); world_answers;
    repeat (rewrite Hprint by reflexivity; cbv beta iota);
    (rewrite Hresolve by reflexivity);
    (destruct (gethostbyname w DNS_HOST) as [e|[|c ip]]; cbn [truthy];
     world_answers;
     repeat (rewrite Hprint by reflexivity; cbv beta iota);
     (rewrite (ping_answer PING_TARGET) by (intros e'; apply Hrun));
     replace (ping_ok _ PING_TARGET) with (ping_ok w PING_TARGET)
       by reflexivity;
     destruct (ping_ok w PING_TARGET); world_answers;
     repeat (rewrite Hprint by reflexivity; cbv beta iota);
     (rewrite check_http_answer by (intros e'; apply Hget));
     replace (http_ok _) with (http_ok w) by reflexivity;
     destruct (http_ok w); world_answers;
     repeat (rewrite Hprint by reflexivity; cbv beta iota);
     repeat match goal with
       | |- context [?n =? 0] =>
           let b := eval vm_compute in (n =? 0) in
           change (n =? 0) with b
       end;
     cbv beta iota;
     repeat (rewrite Hprint by reflexivity; cbv beta iota);
     eexists; (split; [reflexivity|]);
     (split; [now destruct (flush_error w)|]);
     rewrite ?stdout_log_print, ?requests_log, ?app_nil_r,
       <- ?app_assoc;
     split; reflexivity).
Qed.

(** X21.  A resolution that fails with anything but [socket.gaierror]
    (a timeout, another [OSError]) is not caught by [resolve_dns]: when
    the lines before it can be written, the run ends with that exception
    after the gateway check, without the ping and HTTP checks and
    without a summary. *)
Theorem X21_other_resolution_failures_abort_the_run (w : world) (e : exc) :
  (forall e', run w (ping_argv GATEWAY) = inl e' ->
              isinstance e' Cls.Exception = true) ->
  gethostbyname w DNS_HOST = inl e ->
  isinstance e Cls.gaierror = false ->
  writes_succeed w ->
  let result := main w in
  fst result = Raises e
  /\ requests (snd result)
     = requests w ++ [EvRun (ping_argv GATEWAY); EvResolve DNS_HOST]
  /\ stdout (snd result)
     = stdout w
       ++ [py "Network Diagnostics";
           py "   Checking gateway: 192.168.1.1";
           py "   Gateway (192.168.1.1): "
             ++ (if ping_ok w GATEWAY then py "OK" else py "FAILED");
           py "   Resolving DNS: google.com"].
Proof.
  intros Hrun Hdns Hclass Hws result. subst result.
  assert (Hprint : forall text w0,
             write_error w0 = write_error w ->
             print text w0 = (Returns tt, log (EvPrint text) w0)).
  { intros text w0 E. unfold print. now rewrite E, Hws. }
  unfold main, bind_, exit_, raise_, unit_.
  repeat (rewrite Hprint by reflexivity; cbv beta iota).
  rewrite (ping_answer GATEWAY) by exact Hrun.
  world_answers.
  replace (ping_ok _ GATEWAY) with (ping_ok w GATEWAY) by reflexivity.
  destruct (ping_ok w GATEWAY); world_answers;
    repeat (rewrite Hprint by reflexivity; cbv beta iota);
    rewrite resolve_dns_run; world_answers; rewrite Hdns, Hclass;
    cbn [fst snd];
    rewrite ?stdout_log_print, ?requests_log, ?app_nil_r, <- ?app_assoc;
    repeat split; reflexivity.
Qed.

(** *** At concrete inputs *)

Lemma X19_witness :
  let refused := Raised Cls.OSError (py "Connection refused") in
  let w := example_world (inr 0) (inr (py "142.250.1.1")) (inl refused) in
  ping GATEWAY w = (Returns true, log (EvRun (ping_argv GATEWAY)) w)
  /\ check_http HTTP_URL w = (Returns false, log (EvGet HTTP_URL) w).
Proof.
  intros refused w.
  assert (H1 : forall e, run w (ping_argv GATEWAY) = inl e ->
                         isinstance e Cls.Exception = true)
    by (intros e H; discriminate H).
  assert (H2 : forall e, http_get w HTTP_URL = inl e ->
                         isinstance e Cls.Exception = true)
    by (intros e H; injection H as <-; reflexivity).
  destruct (X19_ping_and_check_http_answer_false_on_exceptions
              w GATEWAY HTTP_URL H1 H2)
    as [reached [served [Hping [Hreached [Hhttp Hserved]]]]].
  rewrite Hping, Hhttp.
  assert (E1 : reached = true) by (apply Hreached; reflexivity).
  assert (E2 : served = false).
  { destruct served; [|reflexivity].
    destruct Hserved as [Hserved _]. discriminate (Hserved eq_refl). }
  rewrite E1, E2. split; reflexivity.
Defined.

Lemma X20_witness :
  let nowhere := Raised Cls.gaierror (py "Name or service not known") in
  let w := example_world (inr 1) (inl nowhere) (inr 200) in
  well_behaved w
  /\ writes_succeed w
  /\ failures w = 3
  /\ fst (main w) = Raises (Exited 1)
  /\ exit_code (flush_error w) (main w) = 1
  /\ last (stdout (snd (main w))) [] = py "3 network check(s) failed.".
Proof.
  intros nowhere w.
  assert (H1 : well_behaved w).
  { split; [|split].
    - intros argv e H. discriminate H.
    - intros hostname e H. injection H as <-. reflexivity.
    - intros url e H. discriminate H. }
  assert (H2 : writes_succeed w) by (intros text; reflexivity).
  split; [exact H1|]. split; [exact H2|]. split; [reflexivity|].
  destruct (X20_exit_status_counts_failed_checks w H1 H2)
    as [w' [Hmain [Hcode [_ Hout]]]].
  rewrite Hcode, Hmain. cbn [fst snd]. split; [reflexivity|].
  split; [reflexivity|].
  rewrite Hout. vm_compute. reflexivity.
Defined.

Lemma X21_witness :
  let timeout := Raised Cls.OSError (py "timed out") in
  let w := example_world (inr 0) (inl timeout) (inr 200) in
  gethostbyname w DNS_HOST = inl timeout
  /\ isinstance timeout Cls.gaierror = false
  /\ writes_succeed w
  /\ fst (main w) = Raises timeout
  /\ requests (snd (main w))
     = [EvRun (ping_argv GATEWAY); EvResolve DNS_HOST].
Proof.
  intros timeout w.
  assert (H0 : forall e', run w (ping_argv GATEWAY) = inl e' ->
                          isinstance e' Cls.Exception = true)
    by (intros e' H; discriminate H).
  assert (H1 : gethostbyname w DNS_HOST = inl timeout) by reflexivity.
  assert (H2 : isinstance timeout Cls.gaierror = false) by reflexivity.
  assert (H3 : writes_succeed w) by (intros text; reflexivity).
  split; [exact H1|]. split; [exact H2|]. split; [exact H3|].
  destruct (X21_other_resolution_failures_abort_the_run
              w timeout H0 H1 H2 H3)
    as [Hraise [Hrequests _]].
  split; [exact Hraise|exact Hrequests].
Defined.

End NetworkCheckerFacts.
